(** * Project generators: Django and FastAPI scaffolding scripts

    A shallow embedding of [create_django_project.py] and
    [create_fast_api_project.py] together with their template modules.

    The scripts are straight-line effectful Python: they print, touch the
    file system, create a virtual environment and run shell commands.  The
    embedding keeps that shape.  A script is a finite tree of effects
    ([prog]); an arbitrary environment ([world]) answers every effect with a
    value or with an exception; [exec] runs a script in a world and yields
    the outcome, the log of what happened and the final state of the world.
    An in-memory file system ([MemFS]) is one such world. *)

From Stdlib Require Import ZArith String Ascii List.
From stdpp Require Import base gmap strings list pretty.

#[local] Open Scope string_scope.
#[local] Open Scope list_scope.

(** ** Characters that a string literal cannot hold *)

Definition dq : string := String "034"%char EmptyString.
Definition nl : string := String "010"%char EmptyString.

(** ** pathlib *)

(** A pure path: the anchor (drive and root; on POSIX [""], ["/"] or ["//"])
    and the remaining components. *)
Record Path := mkPath { anchor : string; parts : list string }.

#[global] Instance Path_eq_dec : EqDecision Path.
Proof. solve_decision. Defined.

#[global] Instance Path_countable : Countable Path :=
  inj_countable' (fun p => (anchor p, parts p)) (fun q => mkPath q.1 q.2)
    (fun p => match p with mkPath _ _ => eq_refl end).

(** [rel.split(sep)]: the pieces of [s] between occurrences of [c]. *)
Fixpoint split_at (c : ascii) (s : string) : list string :=
  match s with
  | EmptyString => [EmptyString]
  | String a s' =>
      if Ascii.eqb a c then EmptyString :: split_at c s'
      else match split_at c s' with
           | [] => [String a EmptyString]
           | w :: ws => String a w :: ws
           end
  end.

(** [posixpath.splitroot]: no leading slash is a relative path; exactly two
    leading slashes are kept as the root ["//"]; one, or three and more,
    collapse to ["/"]. *)
Definition splitroot (p : string) : string * string :=
  match p with
  | String "/" (String "/" (String "/" r)) => ("/", String "/" (String "/" r))
  | String "/" (String "/" r) => ("//", r)
  | String "/" r => ("/", r)
  | _ => ("", p)
  end.

(** [Path(s)] in the POSIX flavour: split the root off, split the rest at
    the separator and drop empty and ["."] components ([".."] is kept).
    The Windows flavour also splits at backslashes and recognises drives;
    both flavours agree on names without a backslash or a colon. *)
Definition PurePath (s : string) : Path :=
  let '(root, rel) := splitroot s in
  mkPath root
    (filter (fun x => x ≠ "" ∧ x ≠ ".") (split_at "/" rel)).

(** [p / seg]: an absolute segment replaces [p], a relative one is appended. *)
Definition joinpath (p : Path) (seg : string) : Path :=
  let q := PurePath seg in
  if decide (anchor q = "") then mkPath (anchor p) (parts p ++ parts q) else q.

(** [p.parent]: the path without its last component; a path with no
    component is its own parent. *)
Definition parent (p : Path) : Path :=
  match parts p with
  | [] => p
  | _ => mkPath (anchor p) (removelast (parts p))
  end.

Fixpoint join (sep : string) (l : list string) : string :=
  match l with
  | [] => ""
  | [x] => x
  | x :: l' => x +:+ sep +:+ join sep l'
  end.

(** The host: what [platform.system()] answers.  It also fixes the
    separator [str] joins the components with. *)
Record host := { system : string }.

Definition is_windows (h : host) : bool := String.eqb (system h) "Windows".

Definition sep (h : host) : string := if is_windows h then "\" else "/".

(** [str(p)]: anchor and components joined by the separator, ["."] for the
    empty path. *)
Definition str_path (h : host) (p : Path) : string :=
  match anchor p, parts p with
  | "", [] => "."
  | a, l => a +:+ join (sep h) l
  end.

(** ** Exceptions, effects and scripts *)

(** The subclasses of [Exception] the scripts can meet.  [OSError] stands
    for the file-system errors (FileExistsError, NotADirectoryError,
    PermissionError, ...), [OtherError] for any other [Exception] a library
    call raises; both carry the text [str(e)] gives. *)
Inductive exn :=
| CalledProcessError (returncode : Z) (cmd output stderr : string)
| KeyError (key : string)
| IndexError (msg : string)
| ValueError (msg : string)
| OSError (msg : string)
| OtherError (msg : string).

(** What [subprocess.run(..., capture_output=True, text=True)] collects. *)
Record CompletedProcess :=
  { returncode : Z; stdout : string; stderr : string }.

(** The effects on the world outside the interpreter. *)
Inductive event :=
| Mkdir (p : Path) (parents exist_ok : bool)   (* p.mkdir(parents=, exist_ok=) *)
| Touch (p : Path)                             (* p.touch() *)
| Open_w (p : Path)                            (* open(p, 'w') *)
| Write_close (p : Path) (content : string)    (* f.write(content), then close *)
| Chmod (p : Path) (mode : Z)                  (* os.chmod(p, mode) *)
| Venv_create (env_dir : Path) (with_pip : bool) (* venv.create(env_dir, with_pip=) *)
| Shell (command : string) (cwd : option Path). (* the child of subprocess.run(shell=True) *)

Definition resp (ev : event) : Type :=
  match ev with
  | Shell _ _ => CompletedProcess
  | _ => unit
  end.

(** A script: it returns, raises, leaves through [sys.exit], prints a line,
    or performs an effect and goes on with the answer, which is a value or
    the exception the call raised. *)
Inductive prog (A : Type) : Type :=
| Ret (a : A)
| Raise (e : exn)
| SysExit (status : Z)
| PrintLn (s : string) (k : prog A)
| Do (ev : event) (k : exn + resp ev -> prog A).

Arguments Ret {A} a.
Arguments Raise {A} e.
Arguments SysExit {A} status.
Arguments PrintLn {A} s k.
Arguments Do {A} ev k.

Fixpoint bind {A B} (m : prog A) (f : A -> prog B) : prog B :=
  match m with
  | Ret a => f a
  | Raise e => Raise e
  | SysExit c => SysExit c
  | PrintLn s k => PrintLn s (bind k f)
  | Do ev k => Do ev (fun r => bind (k r) f)
  end.

Notation "'let*' x ':=' m 'in' k" := (bind m (fun x => k))
  (at level 10, x pattern, m at level 100, k at level 200).
Notation "m ';;;' k" := (bind m (fun _ => k))
  (at level 100, k at level 200, right associativity).

(** A library call: its exception, if any, is raised where it is made. *)
Definition perform (ev : event) : prog (resp ev) :=
  Do ev (fun r => match r with inl e => Raise e | inr v => Ret v end).

Definition print (s : string) : prog unit := PrintLn s (Ret tt).

(** [sys.exit(status)] raises [SystemExit], which is no [Exception]: an
    [except Exception] clause lets it through. *)
Definition sys_exit {A} (status : Z) : prog A := SysExit status.

(** [try: body except ...: handler]: [handler e] is [None] when no clause
    matches the class of [e]. *)
Fixpoint try_except {A} (body : prog A) (handler : exn -> option (prog A)) : prog A :=
  match body with
  | Ret a => Ret a
  | Raise e => match handler e with Some h => h | None => Raise e end
  | SysExit c => SysExit c
  | PrintLn s k => PrintLn s (try_except k handler)
  | Do ev k => Do ev (fun r => try_except (k r) handler)
  end.

(** [for x in l: body x]. *)
Fixpoint for_each {X} (l : list X) (body : X -> prog unit) : prog unit :=
  match l with
  | [] => Ret tt
  | x :: l' => body x ;;; for_each l' body
  end.

(** [repr(s)] of a string: single quotes, unless the string holds a single
    quote and no double quote; backslash, the chosen quote and control
    characters are escaped. *)
Fixpoint contains (c : ascii) (s : string) : bool :=
  match s with
  | EmptyString => false
  | String a s' => Ascii.eqb a c || contains c s'
  end.

Definition hex_digit (n : N) : ascii :=
  ascii_of_N (if (n <? 10)%N then 48 + n else 87 + n).

Definition repr_char (quote : ascii) (c : ascii) : string :=
  let n := N_of_ascii c in
  if Ascii.eqb c quote || Ascii.eqb c "\" then String "\" (String c "")
  else if (n =? 10)%N then "\n"
  else if (n =? 13)%N then "\r"
  else if (n =? 9)%N then "\t"
  else if (n <? 32)%N || (n =? 127)%N then
    String "\" (String "x" (String (hex_digit (n / 16)) (String (hex_digit (n mod 16)) "")))
  else String c "".

Fixpoint repr_body (quote : ascii) (s : string) : string :=
  match s with
  | EmptyString => EmptyString
  | String c s' => repr_char quote c +:+ repr_body quote s'
  end.

Definition repr (s : string) : string :=
  let quote : ascii := if contains "'" s && negb (contains "034" s) then "034"%char else "'"%char in
  String quote (repr_body quote s +:+ String quote "").

(** [str(e)]; for a [KeyError] it is the [repr] of the key. *)

Definition str_exn (e : exn) : string :=
  match e with
  | CalledProcessError rc cmd _ _ =>
      "Command '" +:+ cmd +:+ "' returned non-zero exit status " +:+ pretty rc +:+ "."
  | KeyError k => repr k
  | IndexError m | ValueError m | OSError m | OtherError m => m
  end.

(** ** Running a script in a world *)

(** A world answers each effect from its state. *)
Definition world (W : Type) : Type := forall ev : event, W -> (exn + resp ev) * W.

(** One line of the log of a run: a line printed, or an effect with the
    answer the world gave. *)
Inductive entry :=
| Printed (s : string)
| Did (ev : event) (answer : exn + resp ev).

Inductive outcome (A : Type) : Type :=
| Returned (a : A)
| Uncaught (e : exn)
| Exited (status : Z).

Arguments Returned {A} a.
Arguments Uncaught {A} e.
Arguments Exited {A} status.

Fixpoint exec {W A} (h : world W) (p : prog A) (w : W) : outcome A * list entry * W :=
  match p with
  | Ret a => (Returned a, [], w)
  | Raise e => (Uncaught e, [], w)
  | SysExit c => (Exited c, [], w)
  | PrintLn s k =>
      let '(o, l, w') := exec h k w in (o, Printed s :: l, w')
  | Do ev k =>
      let '(r, w1) := h ev w in
      let '(o, l, w') := exec h (k r) w1 in
      (o, Did ev r :: l, w')
  end.

(** The status the process ends with: 0 when the script runs to its end,
    the argument of [sys.exit], 1 after an uncaught exception. *)
Definition exit_status {A} (o : outcome A) : Z :=
  match o with
  | Returned _ => 0
  | Uncaught _ => 1
  | Exited c => c
  end.

Definition printed (l : list entry) : list string :=
  omap (fun x => match x with Printed s => Some s | _ => None end) l.

Definition events (l : list entry) : list event :=
  omap (fun x => match x with Did ev _ => Some ev | _ => None end) l.

(** The effects of a log that the world answered with an exception. *)
Definition failures (l : list entry) : list (event * exn) :=
  omap (fun x => match x with Did ev (inl e) => Some (ev, e) | _ => None end) l.

(** ** str.format *)

(** [template.format(project_name=value)], as CPython's formatter scans a
    template: doubled braces are literal braces, a single brace opens a
    replacement field, fields are looked up left to right and the first
    error ends the call.  A field that names [project_name] plainly is
    replaced by the value; attribute and index access, conversions and
    format specifications are outside this model ([Unmodelled]). *)
Inductive format_result :=
| Formatted (s : string)
| FormatError (e : exn)
| Unmodelled.

Definition emit (s : string) (r : format_result) : format_result :=
  match r with
  | Formatted t => Formatted (s +:+ t)
  | other => other
  end.

Definition is_digit (c : ascii) : bool :=
  let n := N_of_ascii c in (48 <=? n)%N && (n <=? 57)%N.

Fixpoint all_digits (s : string) : bool :=
  match s with
  | EmptyString => true
  | String c s' => is_digit c && all_digits s'
  end.

Fixpoint decimal (acc : N) (s : string) : N :=
  match s with
  | EmptyString => acc
  | String c s' => decimal (10 * acc + (N_of_ascii c - 48)) s'
  end.

(** The first part of a field name ends at the first ['.'] or ['[']. *)
Fixpoint field_name_split (n : string) : string * string :=
  match n with
  | EmptyString => ("", "")
  | String c n' =>
      if Ascii.eqb c "." || Ascii.eqb c "[" then ("", n)
      else let '(first, rest) := field_name_split n' in (String c first, rest)
  end.

(** The object a field names, with no positional argument and the single
    keyword [project_name]: [None] stands for an attribute or an item of the
    value. *)
Definition get_field_object (value : string) (name : string) : exn + option string :=
  let '(first, rest) := field_name_split name in
  if decide (first = "") then
    inl (IndexError "Replacement index 0 out of range for positional args tuple")
  else if all_digits first then
    inl (IndexError ("Replacement index " +:+ pretty (decimal 0 first)
                     +:+ " out of range for positional args tuple"))
  else if decide (first = "project_name") then
    inr (if decide (rest = "") then Some value else None)
  else inl (KeyError first).

Definition output_markup (value name : string) (conversion : option ascii)
    (spec : string) (rest : format_result) : format_result :=
  match get_field_object value name with
  | inl e => FormatError e
  | inr (Some v) =>
      match conversion, spec with
      | None, "" => emit v rest
      | _, _ => Unmodelled
      end
  | inr None => Unmodelled
  end.

Inductive scanner :=
| InText
| InName (name : string) (bracket : bool)
| InConversion (name : string)
| AfterConversion (name : string) (conversion : ascii)
| InSpec (name : string) (conversion : option ascii) (depth : nat) (spec : string).

Definition snoc (s : string) (c : ascii) : string := s +:+ String c "".

Fixpoint scan (value : string) (s : string) (st : scanner) : format_result :=
  match st, s with
  | InText, "" => Formatted ""
  | InText, String "{" (String "{" r) => emit "{" (scan value r InText)
  | InText, String "{" "" =>
      FormatError (ValueError "Single '{' encountered in format string")
  | InText, String "{" r => scan value r (InName "" false)
  | InText, String "}" (String "}" r) => emit "}" (scan value r InText)
  | InText, String "}" _ =>
      FormatError (ValueError "Single '}' encountered in format string")
  | InText, String c r => emit (String c "") (scan value r InText)
  | InName _ _, "" =>
      FormatError (ValueError "expected '}' before end of string")
  | InName n true, String c r =>
      scan value r (InName (snoc n c) (negb (Ascii.eqb c "]")))
  | InName n false, String c r =>
      if Ascii.eqb c "{" then
        FormatError (ValueError "unexpected '{' in field name")
      else if Ascii.eqb c "[" then scan value r (InName (snoc n c) true)
      else if Ascii.eqb c "}" then output_markup value n None "" (scan value r InText)
      else if Ascii.eqb c ":" then scan value r (InSpec n None 1 "")
      else if Ascii.eqb c "!" then scan value r (InConversion n)
      else scan value r (InName (snoc n c) false)
  | InConversion _, "" =>
      FormatError (ValueError "end of string while looking for conversion specifier")
  | InConversion n, String c r => scan value r (AfterConversion n c)
  | AfterConversion _ _, "" =>
      FormatError (ValueError "unmatched '{' in format spec")
  | AfterConversion n cv, String c r =>
      if Ascii.eqb c "}" then output_markup value n (Some cv) "" (scan value r InText)
      else if Ascii.eqb c ":" then scan value r (InSpec n (Some cv) 1 "")
      else FormatError (ValueError "expected ':' after conversion specifier")
  | InSpec _ _ _ _, "" =>
      FormatError (ValueError "unmatched '{' in format spec")
  | InSpec n cv d sp, String c r =>
      if Ascii.eqb c "{" then scan value r (InSpec n cv (S d) (snoc sp c))
      else if Ascii.eqb c "}" then
        match d with
        | S (S d') => scan value r (InSpec n cv (S d') (snoc sp c))
        | _ => output_markup value n cv sp (scan value r InText)
        end
      else scan value r (InSpec n cv d (snoc sp c))
  end.

Definition format (template : string) (project_name : string) : format_result :=
  scan project_name template InText.

(** The call inside a script: an error is raised there. *)
Definition format_ (template project_name : string) : prog string :=
  match format template project_name with
  | Formatted s => Ret s
  | FormatError e => Raise e
  | Unmodelled => Raise (OtherError "str.format: outside the model")
  end.

(** ** django_templates.py: the text of the generated Django files *)

Module django_templates.

Definition SETTINGS_TEMPLATE : string :=
"from pathlib import Path
import os
from datetime import timedelta

# Build paths inside the project like this: BASE_DIR / 'subdir'.
BASE_DIR = Path(__file__).resolve().parent.parent

# SECURITY WARNING: keep the secret key used in production secret!
SECRET_KEY = 'django-insecure-your-secret-key-here'

# SECURITY WARNING: don't run with debug turned on in production!
DEBUG = True

ALLOWED_HOSTS = []

# Application definition
INSTALLED_APPS = [
    'django.contrib.admin',
    'django.contrib.auth',
    'django.contrib.contenttypes',
    'django.contrib.sessions',
    'django.contrib.messages',
    'django.contrib.staticfiles',
    'rest_framework',
    'corsheaders',
    'usecase1.apps.Usecase1Config',
    'usecase2.apps.Usecase2Config',
]

MIDDLEWARE = [
    'django.middleware.security.SecurityMiddleware',
    'django.contrib.sessions.middleware.SessionMiddleware',
    'corsheaders.middleware.CorsMiddleware',
    'django.middleware.common.CommonMiddleware',
    'django.middleware.csrf.CsrfViewMiddleware',
    'django.contrib.auth.middleware.AuthenticationMiddleware',
    'django.contrib.messages.middleware.MessageMiddleware',
    'django.middleware.clickjacking.XFrameOptionsMiddleware',
]

ROOT_URLCONF = 'config.urls'

TEMPLATES = [
    {
        'BACKEND': 'django.template.backends.django.DjangoTemplates',
        'DIRS': [],
        'APP_DIRS': True,
        'OPTIONS': {
            'context_processors': [
                'django.template.context_processors.debug',
                'django.template.context_processors.request',
                'django.contrib.auth.context_processors.auth',
                'django.contrib.messages.context_processors.messages',
            ],
        },
    },
]

WSGI_APPLICATION = 'config.wsgi.application'

# Database
DATABASES = {
    'default': {
        'ENGINE': 'django.db.backends.sqlite3',
        'NAME': BASE_DIR / 'db.sqlite3',
    }
}

# Password validation
AUTH_PASSWORD_VALIDATORS = [
    {
        'NAME': 'django.contrib.auth.password_validation.UserAttributeSimilarityValidator',
    },
    {
        'NAME': 'django.contrib.auth.password_validation.MinimumLengthValidator',
    },
    {
        'NAME': 'django.contrib.auth.password_validation.CommonPasswordValidator',
    },
    {
        'NAME': 'django.contrib.auth.password_validation.NumericPasswordValidator',
    },
]

# Internationalization
LANGUAGE_CODE = 'en-us'
TIME_ZONE = 'UTC'
USE_I18N = True
USE_TZ = True

# Static files (CSS, JavaScript, Images)
STATIC_URL = 'static/'
STATIC_ROOT = BASE_DIR / 'staticfiles'
MEDIA_URL = 'media/'
MEDIA_ROOT = BASE_DIR / 'media'

# Default primary key field type
DEFAULT_AUTO_FIELD = 'django.db.models.BigAutoField'

# REST Framework settings
REST_FRAMEWORK = {
    'DEFAULT_PERMISSION_CLASSES': [
        'rest_framework.permissions.IsAuthenticated',
    ],
    'DEFAULT_AUTHENTICATION_CLASSES': [
        'rest_framework_simplejwt.authentication.JWTAuthentication',
    ],
    'DEFAULT_PAGINATION_CLASS': 'rest_framework.pagination.PageNumberPagination',
    'PAGE_SIZE': 10,
}

# CORS settings
CORS_ALLOW_ALL_ORIGINS = DEBUG
".

Definition URLS_TEMPLATE : string :=
"from django.contrib import admin
from django.urls import path, include
from django.conf import settings
from django.conf.urls.static import static

urlpatterns = [
    path('admin/', admin.site.urls),
    path('api/v1/usecase1/', include('usecase1.urls')),
    path('api/v1/usecase2/', include('usecase2.urls')),
] + static(settings.MEDIA_URL, document_root=settings.MEDIA_ROOT)
".

Definition WSGI_TEMPLATE : string :=
"import os
from django.core.wsgi import get_wsgi_application

os.environ.setdefault('DJANGO_SETTINGS_MODULE', 'config.settings')
application = get_wsgi_application()
".

Definition ASGI_TEMPLATE : string :=
"import os
from django.core.asgi import get_asgi_application

os.environ.setdefault('DJANGO_SETTINGS_MODULE', 'config.settings')
application = get_asgi_application()
".

Definition MANAGE_TEMPLATE : string :=
("#!/usr/bin/env python
import os
import sys

def main():
    os.environ.setdefault('DJANGO_SETTINGS_MODULE', 'config.settings')
    try:
        from django.core.management import execute_from_command_line
    except ImportError as exc:
        raise ImportError(
            " +:+ dq +:+ "Couldn't import Django. Are you sure it's installed?" +:+ dq +:+ "
        ) from exc
    execute_from_command_line(sys.argv)

if __name__ == '__main__':
    main()
").

Definition APP_MODELS_TEMPLATE : string :=
"from django.db import models
from django.utils import timezone

class BaseModel(models.Model):
    created_at = models.DateTimeField(auto_now_add=True)
    updated_at = models.DateTimeField(auto_now=True)

    class Meta:
        abstract = True

class Item(BaseModel):
    name = models.CharField(max_length=255)
    description = models.TextField(blank=True)
    is_active = models.BooleanField(default=True)

    def __str__(self):
        return self.name

    class Meta:
        ordering = ['-created_at']
".

Definition APP_SERIALIZERS_TEMPLATE : string :=
"from rest_framework import serializers
from .models import Item

class ItemSerializer(serializers.ModelSerializer):
    class Meta:
        model = Item
        fields = ['id', 'name', 'description', 'is_active', 'created_at', 'updated_at']
        read_only_fields = ['created_at', 'updated_at']
".

Definition APP_VIEWS_TEMPLATE : string :=
"from rest_framework import viewsets
from rest_framework.permissions import IsAuthenticated
from .models import Item
from .serializers import ItemSerializer

class ItemViewSet(viewsets.ModelViewSet):
    queryset = Item.objects.all()
    serializer_class = ItemSerializer
    permission_classes = [IsAuthenticated]
    
    def get_queryset(self):
        return self.queryset.filter(is_active=True)
".

Definition APP_URLS_TEMPLATE : string :=
"from django.urls import path, include
from rest_framework.routers import DefaultRouter
from .views import ItemViewSet

router = DefaultRouter()
router.register('items', ItemViewSet)

urlpatterns = [
    path('', include(router.urls)),
]
".

Definition APP_ADMIN_TEMPLATE : string :=
"from django.contrib import admin
from .models import Item

@admin.register(Item)
class ItemAdmin(admin.ModelAdmin):
    list_display = ['name', 'is_active', 'created_at', 'updated_at']
    list_filter = ['is_active', 'created_at']
    search_fields = ['name', 'description']
".

Definition APP_TESTS_TEMPLATE : string :=
"from django.test import TestCase
from django.urls import reverse
from rest_framework import status
from rest_framework.test import APITestCase
from .models import Item

class ItemTests(APITestCase):
    def setUp(self):
        self.item_data = {
            'name': 'Test Item',
            'description': 'Test Description',
            'is_active': True
        }
        
    def test_create_item(self):
        url = reverse('item-list')
        response = self.client.post(url, self.item_data, format='json')
        self.assertEqual(response.status_code, status.HTTP_201_CREATED)
        self.assertEqual(Item.objects.count(), 1)
        self.assertEqual(Item.objects.get().name, 'Test Item')
".

Definition REQUIREMENTS_TEMPLATE : string :=
"Django>=4.2.0,<5.0.0
djangorestframework>=3.14.0,<4.0.0
django-cors-headers>=4.0.0,<5.0.0
djangorestframework-simplejwt>=5.2.0,<6.0.0
python-dotenv>=1.0.0,<2.0.0
pytest>=7.3.1,<8.0.0
pytest-django>=4.5.2,<5.0.0
".

Definition ENV_TEMPLATE : string :=
"DEBUG=True
SECRET_KEY=your-secret-key-here
DATABASE_URL=sqlite:///db.sqlite3
ALLOWED_HOSTS=localhost,127.0.0.1
".

Definition GITIGNORE_TEMPLATE : string :=
"# Python
__pycache__/
*.py[cod]
*$py.class
*.so
.Python
build/
develop-eggs/
dist/
downloads/
eggs/
.eggs/
lib/
lib64/
parts/
sdist/
var/
wheels/
*.egg-info/
.installed.cfg
*.egg

# Django
*.log
local_settings.py
db.sqlite3
db.sqlite3-journal
media/
staticfiles/

# Virtual Environment
venv/
.env

# IDE
.idea/
.vscode/
*.swp
*.swo

# Testing
.coverage
htmlcov/
.pytest_cache/
".

Definition README_TEMPLATE : string :=
"# {project_name}

A Django REST Framework project with a clean architecture and best practices.

## Features

- Django REST Framework
- JWT Authentication
- Modular app structure
- API versioning
- CORS support
- Testing setup
- Environment configuration

## Project Structure

{project_name}/
├── config/             # Project configuration
├── usecase1/          # First app
├── usecase2/          # Second app
├── manage.py          # Django management script
├── requirements.txt   # Project dependencies
└── .env              # Environment variables

## Setup

1. Create virtual environment:

    ```bash
    python -m venv venv
    source venv/bin/activate  # On Windows: venv\Scripts\activate
    ```

2. Install dependencies:

    ```bash
    pip install -r requirements.txt
    ```

3. Run migrations:

    ```bash
    python manage.py migrate
    ```

4. Create superuser:

    ```bash
    python manage.py createsuperuser
    ```

5. Run the development server:

    ```bash
    python manage.py runserver
    ```

## API Endpoints

- Admin interface: http://localhost:8000/admin/
- API v1: http://localhost:8000/api/v1/
- Swagger Documentation: http://localhost:8000/api/schema/swagger-ui/
- ReDoc Documentation: http://localhost:8000/api/schema/redoc/

## Testing

Run tests with:

    ```bash
    python manage.py test
    ```

Run tests with coverage:

    ```bash
    coverage run manage.py test
    coverage report
    ```

## Development

1. Make migrations:

    ```bash
    python manage.py makemigrations
    ```

2. Apply migrations:

    ```bash
    python manage.py migrate
    ```

3. Create new app:

    ```bash
    python manage.py startapp new_app
    ```

## Project Commands

### Data Management

    ```bash
    # Create database backup
    python manage.py dumpdata > backup.json

    # Load data from backup
    python manage.py loaddata backup.json

    # Clear database
    python manage.py flush
    ```

### Static Files

    ```bash
    # Collect static files
    python manage.py collectstatic

    # Clear static files
    python manage.py collectstatic --clear
    ```

## Deployment Checklist

1. Update `ALLOWED_HOSTS` in settings
2. Set `DEBUG = False` in production
3. Configure production database
4. Set up static files serving
5. Configure HTTPS
6. Set up proper email backend
7. Configure caching
8. Set up monitoring

## Environment Variables

Create a `.env` file in the project root:

    ```bash
    DEBUG=True
    SECRET_KEY=your-secret-key-here
    DATABASE_URL=sqlite:///db.sqlite3
    ALLOWED_HOSTS=localhost,127.0.0.1
    ```

## Dependencies

- Django
- Django REST Framework
- Django CORS Headers
- Django REST Framework SimpleJWT
- Python Dotenv
- Pytest Django
- Coverage

## License

This project is licensed under the MIT License.
".

End django_templates.

(** ** fastApi_templates.py: the text of the generated FastAPI files; a
    dictionary is the list of its items in insertion order *)

Module fastApi_templates.

Definition COMMON_FILES : list (string * string) :=
[
  ("base_models.py",
"from sqlalchemy.ext.declarative import declarative_base
from sqlalchemy import Column, Integer, DateTime
from datetime import datetime

Base = declarative_base()

class BaseModel(Base):
    __abstract__ = True
    
    id = Column(Integer, primary_key=True, index=True)
    created_at = Column(DateTime, default=datetime.utcnow)
    updated_at = Column(DateTime, default=datetime.utcnow, onupdate=datetime.utcnow)
");
  ("config.py",
("from pydantic_settings import BaseSettings
from functools import lru_cache

class Settings(BaseSettings):
    DATABASE_URL: str = " +:+ dq +:+ "sqlite:///./sql_app.db" +:+ dq +:+ "
    DEBUG: bool = False
    API_V1_STR: str = " +:+ dq +:+ "/api/v1" +:+ dq +:+ "
    PROJECT_NAME: str = " +:+ dq +:+ "FastAPI Project" +:+ dq +:+ "
    
    class Config:
        env_file = " +:+ dq +:+ ".env" +:+ dq +:+ "

@lru_cache()
def get_settings():
    return Settings()

settings = get_settings()
"));
  ("database.py",
"from sqlalchemy import create_engine
from sqlalchemy.orm import sessionmaker, Session
from .config import settings

engine = create_engine(
    settings.DATABASE_URL,
    pool_pre_ping=True,
    echo=settings.DEBUG
)
SessionLocal = sessionmaker(autocommit=False, autoflush=False, bind=engine)

def get_db() -> Session:
    db = SessionLocal()
    try:
        yield db
    finally:
        db.close()
");
  ("exceptions.py",
("from fastapi import HTTPException
from typing import Any, Dict, Optional

class BaseAPIException(HTTPException):
    def __init__(
        self,
        status_code: int,
        message: str,
        details: Optional[Dict[str, Any]] = None
    ):
        super().__init__(
            status_code=status_code,
            detail={
                " +:+ dq +:+ "message" +:+ dq +:+ ": message,
                " +:+ dq +:+ "details" +:+ dq +:+ ": details or {}
            }
        )

class NotFoundException(BaseAPIException):
    def __init__(self, message: str = " +:+ dq +:+ "Resource not found" +:+ dq +:+ ", details: Optional[Dict[str, Any]] = None):
        super().__init__(status_code=404, message=message, details=details)

class BadRequestException(BaseAPIException):
    def __init__(self, message: str = " +:+ dq +:+ "Bad request" +:+ dq +:+ ", details: Optional[Dict[str, Any]] = None):
        super().__init__(status_code=400, message=message, details=details)

class UnauthorizedException(BaseAPIException):
    def __init__(self, message: str = " +:+ dq +:+ "Unauthorized" +:+ dq +:+ ", details: Optional[Dict[str, Any]] = None):
        super().__init__(status_code=401, message=message, details=details)
"));
  ("router.py",
("from fastapi import APIRouter
from ..usecase1.routers import router as usecase1_router
from ..usecase2.routers import router as usecase2_router
from .config import settings

main_router = APIRouter(prefix=settings.API_V1_STR)

main_router.include_router(
    usecase1_router,
    prefix=" +:+ dq +:+ "/usecase1" +:+ dq +:+ ",
    tags=[" +:+ dq +:+ "usecase1" +:+ dq +:+ "]
)

main_router.include_router(
    usecase2_router,
    prefix=" +:+ dq +:+ "/usecase2" +:+ dq +:+ ",
    tags=[" +:+ dq +:+ "usecase2" +:+ dq +:+ "]
)
"));
  ("utils.py",
("from datetime import datetime, timezone
from typing import Any, Dict, List
from sqlalchemy.orm import Query
from fastapi import Query as FastAPIQuery

def utc_now() -> datetime:
    return datetime.now(timezone.utc)

def format_datetime(dt: datetime) -> str:
    return dt.isoformat()

def paginate(
    query: Query,
    page: int = FastAPIQuery(1, ge=1),
    page_size: int = FastAPIQuery(10, ge=1, le=100)
) -> Dict[str, Any]:
    total = query.count()
    items = query.offset((page - 1) * page_size).limit(page_size).all()
    
    return {
        " +:+ dq +:+ "items" +:+ dq +:+ ": items,
        " +:+ dq +:+ "total" +:+ dq +:+ ": total,
        " +:+ dq +:+ "page" +:+ dq +:+ ": page,
        " +:+ dq +:+ "page_size" +:+ dq +:+ ": page_size,
        " +:+ dq +:+ "pages" +:+ dq +:+ ": (total + page_size - 1) // page_size
    }
"))
].

Definition USECASE_FILES : list (string * string) :=
[
  ("constants.py",
"# Pagination
DEFAULT_PAGE_SIZE = 10
MAX_PAGE_SIZE = 100

# Cache
CACHE_TTL = 3600  # 1 hour

# Rate Limiting
RATE_LIMIT_CALLS = 100
RATE_LIMIT_PERIOD = 3600  # 1 hour
");
  ("dependencies.py",
("from fastapi import Depends, Request
from sqlalchemy.orm import Session
from ..common.database import get_db
from ..common.exceptions import UnauthorizedException

def get_db_session():
    return Depends(get_db)

async def verify_api_key(request: Request):
    api_key = request.headers.get(" +:+ dq +:+ "X-API-Key" +:+ dq +:+ ")
    if not api_key:
        raise UnauthorizedException(" +:+ dq +:+ "API key is required" +:+ dq +:+ ")
    # Add your API key validation logic here
    return api_key
"));
  ("models.py",
("from sqlalchemy import Column, String, Text, Boolean
from ..common.base_models import Base, BaseModel

class Item(BaseModel):
    __tablename__ = " +:+ dq +:+ "items" +:+ dq +:+ "
    
    name = Column(String(255), index=True, nullable=False)
    description = Column(Text, nullable=True)
    is_active = Column(Boolean, default=True)

    def __repr__(self):
        return f" +:+ dq +:+ "<Item {self.name}>" +:+ dq +:+ "
"));
  ("schemas.py",
"from pydantic import BaseModel, Field
from datetime import datetime
from typing import Optional, List

class ItemBase(BaseModel):
    name: str = Field(..., min_length=1, max_length=255)
    description: Optional[str] = None
    is_active: bool = True

class ItemCreate(ItemBase):
    pass

class ItemUpdate(ItemBase):
    name: Optional[str] = Field(None, min_length=1, max_length=255)
    is_active: Optional[bool] = None

class ItemResponse(ItemBase):
    id: int
    created_at: datetime
    updated_at: datetime

    class Config:
        from_attributes = True

class PaginatedResponse(BaseModel):
    items: List[ItemResponse]
    total: int
    page: int
    page_size: int
    pages: int
");
  ("services.py",
("from sqlalchemy.orm import Session
from . import models, schemas
from ..common.exceptions import NotFoundException
from typing import Optional, List

class ItemService:
    def __init__(self, db: Session):
        self.db = db

    async def create(self, item: schemas.ItemCreate) -> models.Item:
        db_item = models.Item(**item.dict())
        self.db.add(db_item)
        self.db.commit()
        self.db.refresh(db_item)
        return db_item

    async def get_by_id(self, item_id: int) -> Optional[models.Item]:
        item = self.db.query(models.Item).filter(models.Item.id == item_id).first()
        if not item:
            raise NotFoundException(f" +:+ dq +:+ "Item with id {item_id} not found" +:+ dq +:+ ")
        return item

    async def get_all(self) -> List[models.Item]:
        return self.db.query(models.Item).filter(models.Item.is_active == True).all()

    async def update(self, item_id: int, item_data: schemas.ItemUpdate) -> models.Item:
        db_item = await self.get_by_id(item_id)
        for field, value in item_data.dict(exclude_unset=True).items():
            setattr(db_item, field, value)
        self.db.commit()
        self.db.refresh(db_item)
        return db_item

    async def delete(self, item_id: int) -> None:
        db_item = await self.get_by_id(item_id)
        self.db.delete(db_item)
        self.db.commit()
"));
  ("routers.py",
("from fastapi import APIRouter, Depends, Query
from sqlalchemy.orm import Session
from . import schemas, services
from .dependencies import get_db_session, verify_api_key
from ..common.utils import paginate
from typing import List

router = APIRouter()

@router.post(
    " +:+ dq +:+ "/" +:+ dq +:+ ",
    response_model=schemas.ItemResponse,
    status_code=201,
    dependencies=[Depends(verify_api_key)]
)
async def create_item(
    item: schemas.ItemCreate,
    db: Session = Depends(get_db_session)
):
    " +:+ dq +:+ dq +:+ dq +:+ "Create a new item" +:+ dq +:+ dq +:+ dq +:+ "
    service = services.ItemService(db)
    return await service.create(item)

@router.get(
    " +:+ dq +:+ "/" +:+ dq +:+ ",
    response_model=schemas.PaginatedResponse
)
async def list_items(
    db: Session = Depends(get_db_session),
    page: int = Query(1, ge=1),
    page_size: int = Query(10, ge=1, le=100)
):
    " +:+ dq +:+ dq +:+ dq +:+ "List all items with pagination" +:+ dq +:+ dq +:+ dq +:+ "
    service = services.ItemService(db)
    query = db.query(services.models.Item)
    return paginate(query, page, page_size)

@router.get(
    " +:+ dq +:+ "/{item_id}" +:+ dq +:+ ",
    response_model=schemas.ItemResponse
)
async def get_item(
    item_id: int,
    db: Session = Depends(get_db_session)
):
    " +:+ dq +:+ dq +:+ dq +:+ "Get a specific item by ID" +:+ dq +:+ dq +:+ dq +:+ "
    service = services.ItemService(db)
    return await service.get_by_id(item_id)

@router.put(
    " +:+ dq +:+ "/{item_id}" +:+ dq +:+ ",
    response_model=schemas.ItemResponse,
    dependencies=[Depends(verify_api_key)]
)
async def update_item(
    item_id: int,
    item: schemas.ItemUpdate,
    db: Session = Depends(get_db_session)
):
    " +:+ dq +:+ dq +:+ dq +:+ "Update an item" +:+ dq +:+ dq +:+ dq +:+ "
    service = services.ItemService(db)
    return await service.update(item_id, item)

@router.delete(
    " +:+ dq +:+ "/{item_id}" +:+ dq +:+ ",
    status_code=204,
    dependencies=[Depends(verify_api_key)]
)
async def delete_item(
    item_id: int,
    db: Session = Depends(get_db_session)
):
    " +:+ dq +:+ dq +:+ dq +:+ "Delete an item" +:+ dq +:+ dq +:+ dq +:+ "
    service = services.ItemService(db)
    await service.delete(item_id)
"))
].

Definition TEST_FILES : list (string * string) :=
[
  ("conftest.py",
("import pytest
from fastapi.testclient import TestClient
from sqlalchemy import create_engine
from sqlalchemy.orm import sessionmaker
from src.common.database import get_db
from src.common.base_models import Base
from main import app

SQLALCHEMY_DATABASE_URL = " +:+ dq +:+ "sqlite:///./test.db" +:+ dq +:+ "

engine = create_engine(
    SQLALCHEMY_DATABASE_URL,
    connect_args={" +:+ dq +:+ "check_same_thread" +:+ dq +:+ ": False}
)
TestingSessionLocal = sessionmaker(autocommit=False, autoflush=False, bind=engine)

@pytest.fixture(scope=" +:+ dq +:+ "function" +:+ dq +:+ ")
def test_db():
    Base.metadata.create_all(bind=engine)
    try:
        db = TestingSessionLocal()
        yield db
    finally:
        db.close()
        Base.metadata.drop_all(bind=engine)

@pytest.fixture(scope=" +:+ dq +:+ "function" +:+ dq +:+ ")
def client(test_db):
    def override_get_db():
        try:
            yield test_db
        finally:
            test_db.close()
    
    app.dependency_overrides[get_db] = override_get_db
    yield TestClient(app)
    app.dependency_overrides.clear()

@pytest.fixture(scope=" +:+ dq +:+ "function" +:+ dq +:+ ")
def api_key_headers():
    return {" +:+ dq +:+ "X-API-Key" +:+ dq +:+ ": " +:+ dq +:+ "test_api_key" +:+ dq +:+ "}
"))
].

Definition MAIN_APP_TEMPLATE : string :=
("from fastapi import FastAPI
from fastapi.middleware.cors import CORSMiddleware
from src.common.router import main_router
from src.common.config import settings
from src.common.base_models import Base
from src.common.database import engine

# Create database tables
Base.metadata.create_all(bind=engine)

app = FastAPI(
    title=settings.PROJECT_NAME,
    openapi_url=f" +:+ dq +:+ "{settings.API_V1_STR}/openapi.json" +:+ dq +:+ ",
    debug=settings.DEBUG
)

# CORS middleware configuration
app.add_middleware(
    CORSMiddleware,
    allow_origins=[" +:+ dq +:+ "*" +:+ dq +:+ "],
    allow_credentials=True,
    allow_methods=[" +:+ dq +:+ "*" +:+ dq +:+ "],
    allow_headers=[" +:+ dq +:+ "*" +:+ dq +:+ "],
)

# Include routers
app.include_router(main_router)

if __name__ == " +:+ dq +:+ "__main__" +:+ dq +:+ ":
    import uvicorn
    uvicorn.run(
        " +:+ dq +:+ "main:app" +:+ dq +:+ ",
        host=" +:+ dq +:+ "0.0.0.0" +:+ dq +:+ ",
        port=8000,
        reload=settings.DEBUG
    )
").

Definition SETUP_TEMPLATE : string :=
("from setuptools import setup, find_packages

setup(
    name=" +:+ dq +:+ "{project_name}" +:+ dq +:+ ",
    version=" +:+ dq +:+ "0.1.0" +:+ dq +:+ ",
    packages=find_packages(where=" +:+ dq +:+ "src" +:+ dq +:+ "),
    package_dir={" +:+ dq +:+ dq +:+ ": " +:+ dq +:+ "src" +:+ dq +:+ "},
    install_requires=[
        " +:+ dq +:+ "fastapi>=0.100.0" +:+ dq +:+ ",
        " +:+ dq +:+ "uvicorn>=0.22.0" +:+ dq +:+ ",
        " +:+ dq +:+ "sqlalchemy>=2.0.0" +:+ dq +:+ ",
        " +:+ dq +:+ "pydantic>=2.0.0" +:+ dq +:+ ",
        " +:+ dq +:+ "pydantic-settings>=2.0.0" +:+ dq +:+ ",
        " +:+ dq +:+ "python-dotenv>=1.0.0" +:+ dq +:+ ",
        " +:+ dq +:+ "alembic>=1.11.0" +:+ dq +:+ ",
        " +:+ dq +:+ "pytest>=7.4.0" +:+ dq +:+ ",
        " +:+ dq +:+ "httpx>=0.24.0" +:+ dq +:+ ",
        " +:+ dq +:+ "python-jose>=3.3.0" +:+ dq +:+ ",
        " +:+ dq +:+ "passlib>=1.7.4" +:+ dq +:+ ",
        " +:+ dq +:+ "python-multipart>=0.0.6" +:+ dq +:+ ",
        " +:+ dq +:+ "email-validator>=2.0.0" +:+ dq +:+ ",
    ],
    extras_require={
        " +:+ dq +:+ "dev" +:+ dq +:+ ": [
            " +:+ dq +:+ "black>=23.0.0" +:+ dq +:+ ",
            " +:+ dq +:+ "isort>=5.12.0" +:+ dq +:+ ",
            " +:+ dq +:+ "flake8>=6.0.0" +:+ dq +:+ ",
            " +:+ dq +:+ "pytest-cov>=4.1.0" +:+ dq +:+ ",
            " +:+ dq +:+ "pre-commit>=3.3.0" +:+ dq +:+ ",
        ]
    },
    python_requires=" +:+ dq +:+ ">=3.9" +:+ dq +:+ ",
)
").

Definition ENV_TEMPLATE : string :=
("# Database
DATABASE_URL=sqlite:///./sql_app.db

# Application
DEBUG=True
PROJECT_NAME=" +:+ dq +:+ "FastAPI Project" +:+ dq +:+ "
API_V1_STR=" +:+ dq +:+ "/api/v1" +:+ dq +:+ "

# Security
SECRET_KEY=your-secret-key-here
ACCESS_TOKEN_EXPIRE_MINUTES=30
").

Definition GITIGNORE_TEMPLATE : string :=
"# Python
__pycache__/
*.py[cod]
*$py.class
*.so
.Python
build/
develop-eggs/
dist/
downloads/
eggs/
.eggs/
lib/
lib64/
parts/
sdist/
var/
wheels/
*.egg-info/
.installed.cfg
*.egg

# Django
*.log
local_settings.py
db.sqlite3
db.sqlite3-journal
media/
staticfiles/

# Virtual Environment
venv/
.env

# IDE
.idea/
.vscode/
*.swp
*.swo

# Testing
.coverage
htmlcov/
.pytest_cache/
".

Definition README_TEMPLATE : string :=
("# {project_name}

A FastAPI project with clean architecture and best practices.

## Features

- FastAPI framework
- SQLAlchemy ORM
- Pydantic data validation
- JWT Authentication
- Modular structure
- API versioning
- CORS support
- Testing setup
- Environment configuration
- Dependency injection
- Async support
- OpenAPI documentation

## Project Structure

{project_name}/
├── src/
│   ├── common/         # Shared utilities and base classes
│   │   ├── base_models.py
│   │   ├── config.py
│   │   ├── database.py
│   │   ├── exceptions.py
│   │   ├── router.py
│   │   └── utils.py
│   ├── usecase1/       # First usecase implementation
│   │   ├── constants.py
│   │   ├── dependencies.py
│   │   ├── models.py
│   │   ├── schemas.py
│   │   ├── services.py
│   │   └── routers.py
│   └── usecase2/       # Second usecase implementation
│       ├── constants.py
│       ├── dependencies.py
│       ├── models.py
│       ├── schemas.py
│       ├── services.py
│       └── routers.py
├── tests/              # Test directory
├── main.py            # Application entry point
├── setup.py           # Package setup
├── requirements.txt   # Project dependencies
└── .env              # Environment variables

## Setup

1. Create virtual environment:

    ```bash
    python -m venv venv
    source venv/bin/activate  # On Windows: venv\Scripts\activate
    ```

2. Install dependencies:

    ```bash
    pip install -e .
    ```

3. Set up environment variables:

    ```bash
    cp .env.example .env
    # Edit .env with your configurations
    ```

4. Run the application:

    ```bash
    python main.py
    ```

## API Documentation

- Swagger UI: http://localhost:8000/docs
- ReDoc: http://localhost:8000/redoc
- OpenAPI JSON: http://localhost:8000/openapi.json

## Testing

Run tests with pytest:

    ```bash
    pytest
    ```

Run tests with coverage:

    ```bash
    pytest --cov=src tests/
    coverage report
    coverage html  # Generate HTML report
    ```

## Development

### Project Commands

1. Run development server with auto-reload:

    ```bash
    uvicorn main:app --reload
    ```

2. Run with custom host and port:

    ```bash
    uvicorn main:app --host 0.0.0.0 --port 8080
    ```

3. Run with workers (production):

    ```bash
    gunicorn main:app -w 4 -k uvicorn.workers.UvicornWorker
    ```

### Database Operations

    ```bash
    # Generate migration
    alembic revision --autogenerate -m " +:+ dq +:+ "description" +:+ dq +:+ "

    # Apply migrations
    alembic upgrade head

    # Rollback migration
    alembic downgrade -1
    ```

### Code Quality

    ```bash
    # Format code
    black src/ tests/

    # Sort imports
    isort src/ tests/

    # Lint code
    flake8 src/ tests/

    # Type checking
    mypy src/
    ```

## Environment Variables

    ```bash
    # Database
    DATABASE_URL=sqlite:///./sql_app.db

    # Application
    DEBUG=True
    PROJECT_NAME=" +:+ dq +:+ "FastAPI Project" +:+ dq +:+ "
    API_V1_STR=" +:+ dq +:+ "/api/v1" +:+ dq +:+ "

    # Security
    SECRET_KEY=your-secret-key-here
    ACCESS_TOKEN_EXPIRE_MINUTES=30

    # CORS
    CORS_ORIGINS=http://localhost:3000,http://localhost:8080
    ```

## Dependencies

Main dependencies:
- FastAPI
- Uvicorn
- SQLAlchemy
- Pydantic
- Alembic
- Python-jose
- Passlib
- Python-multipart
- Pytest
- HTTPx

Development dependencies:
- Black
- isort
- Flake8
- Mypy
- Pytest-cov

## License

This project is licensed under the MIT License - see the [LICENSE](LICENSE) file for details.

## Acknowledgments

- FastAPI Documentation
- SQLAlchemy Documentation
- Pydantic Documentation
- FastAPI Best Practices
").

End fastApi_templates.

(** ** The functions both scripts define with the same text *)

(** A permission mode in octal digits: [octal 7 5 5] is [0o755]. *)
Definition octal (owner group other : Z) : Z := (owner * 64 + group * 8 + other)%Z.

Declare Scope path_scope.
Delimit Scope path_scope with path.
Bind Scope path_scope with Path.
Notation "p / seg" := (joinpath p seg) : path_scope.

(** [subprocess.run(command, cwd=cwd, shell=True, check=check, text=True,
    capture_output=True)]: with [check], a non-zero return code raises
    [CalledProcessError]. *)
Definition subprocess_run (command : string) (cwd : option Path) (check : bool)
  : prog CompletedProcess :=
  let* r := perform (Shell command cwd) in
  if check && negb (returncode r =? 0)%Z
  then Raise (CalledProcessError (returncode r) command (stdout r) (stderr r))
  else Ret r.

Definition run_command (command : string) (cwd : option Path) : prog string :=
  try_except
    (let* result := subprocess_run command cwd true in
     Ret (stdout result))
    (fun e =>
       match e with
       | CalledProcessError _ _ _ e_stderr =>
           Some (print ("Error running command: " +:+ command) ;;;
                 print ("Error: " +:+ e_stderr) ;;;
                 sys_exit 1)
       | _ => None
       end).

Definition create_and_activate_venv (h : host) (project_path : Path)
  : prog (string * string * string) :=
  let venv_path := (project_path / "venv")%path in
  print "Creating virtual environment..." ;;;
  perform (Venv_create venv_path true) ;;;
  let '(activate_script, python_path, pip_path) :=
    if is_windows h then
      ((venv_path / "Scripts" / "activate.bat")%path,
       (venv_path / "Scripts" / "python.exe")%path,
       (venv_path / "Scripts" / "pip.exe")%path)
    else
      ((venv_path / "bin" / "activate")%path,
       (venv_path / "bin" / "python")%path,
       (venv_path / "bin" / "pip")%path) in
  Ret (str_path h activate_script, str_path h python_path, str_path h pip_path).

Definition create_file_with_content (file_path : Path) (content : string) : prog unit :=
  perform (Mkdir (parent file_path) true true) ;;;
  perform (Open_w file_path) ;;;
  perform (Write_close file_path content).

(** ** create_django_project.py *)

Module django.
Import django_templates.

Definition create_django_app (project_path : Path) (app_name : string) : prog unit :=
  let app_path := (project_path / app_name)%path in
  perform (Mkdir app_path false true) ;;;
  create_file_with_content (app_path / "__init__.py") "" ;;;
  create_file_with_content (app_path / "models.py") APP_MODELS_TEMPLATE ;;;
  create_file_with_content (app_path / "serializers.py") APP_SERIALIZERS_TEMPLATE ;;;
  create_file_with_content (app_path / "views.py") APP_VIEWS_TEMPLATE ;;;
  create_file_with_content (app_path / "urls.py") APP_URLS_TEMPLATE ;;;
  create_file_with_content (app_path / "admin.py") APP_ADMIN_TEMPLATE ;;;
  create_file_with_content (app_path / "tests.py") APP_TESTS_TEMPLATE ;;;
  perform (Mkdir (app_path / "migrations") false true) ;;;
  create_file_with_content (app_path / "migrations" / "__init__.py") "".

(** [create_project_structure], lines 85 to 110: the template files. *)
Definition materialize (project_name : string) : prog unit :=
  let base_path := PurePath project_name in
  let config_path := (base_path / "config")%path in
  perform (Mkdir config_path true true) ;;;
  create_file_with_content (config_path / "__init__.py") "" ;;;
  create_file_with_content (config_path / "settings.py") SETTINGS_TEMPLATE ;;;
  create_file_with_content (config_path / "urls.py") URLS_TEMPLATE ;;;
  create_file_with_content (config_path / "wsgi.py") WSGI_TEMPLATE ;;;
  create_file_with_content (config_path / "asgi.py") ASGI_TEMPLATE ;;;
  create_file_with_content (base_path / "manage.py") MANAGE_TEMPLATE ;;;
  perform (Chmod (base_path / "manage.py") (octal 7 5 5)) ;;;
  create_django_app base_path "usecase1" ;;;
  create_django_app base_path "usecase2" ;;;
  create_file_with_content (base_path / "requirements.txt") REQUIREMENTS_TEMPLATE ;;;
  create_file_with_content (base_path / ".env") ENV_TEMPLATE ;;;
  create_file_with_content (base_path / ".gitignore") GITIGNORE_TEMPLATE ;;;
  let* readme := format_ README_TEMPLATE project_name in
  create_file_with_content (base_path / "README.md") readme.

(** [create_project_structure], lines 112 to 129: git, the virtual
    environment, the dependencies and the first migration. *)
Definition provision (h : host) (project_name : string) : prog string :=
  let base_path := PurePath project_name in
  print "Initializing git repository..." ;;;
  run_command "git init" (Some base_path) ;;;
  print "Setting up virtual environment..." ;;;
  let* (activate_script, python_path, pip_path) := create_and_activate_venv h base_path in
  print "Installing dependencies..." ;;;
  run_command (dq +:+ pip_path +:+ dq +:+ " install --upgrade pip") (Some base_path) ;;;
  run_command (dq +:+ pip_path +:+ dq +:+ " install -r requirements.txt") (Some base_path) ;;;
  print "Initializing Django project..." ;;;
  run_command (dq +:+ python_path +:+ dq +:+ " manage.py migrate") (Some base_path) ;;;
  Ret activate_script.

Definition create_project_structure (h : host) (project_name : string) : prog string :=
  materialize project_name ;;; provision h project_name.

Definition usage : string := "Usage: python create_django_project.py project_name".

Definition success_message (project_name activate_cmd : string) : string :=
"
Project " +:+ project_name +:+ " created successfully!

Your virtual environment has been created and dependencies installed.

To activate the virtual environment:
" +:+ activate_cmd +:+ "

To run the development server:
cd " +:+ project_name +:+ "
python manage.py runserver

Your API will be available at:
- Admin interface: http://localhost:8000/admin/
- API v1: http://localhost:8000/api/v1/
- API Documentation: http://localhost:8000/api/schema/swagger-ui/

Happy coding! ðŸš€
".

(** [sys.argv] is [argv]: the script's name, then the arguments. *)
Definition main (h : host) (argv : list string) : prog unit :=
  if negb (length argv =? 2)%nat then
    print usage ;;; sys_exit 1
  else
    let project_name := nth 1 argv "" in
    print ("Creating new Django project: " +:+ project_name) ;;;
    try_except
      (let* activate_script := create_project_structure h project_name in
       let activate_cmd :=
         if is_windows h then activate_script
         else "source " +:+ activate_script in
       print (success_message project_name activate_cmd))
      (fun e =>
         Some (print ("Error creating project: " +:+ str_exn e) ;;; sys_exit 1)).

End django.

(** ** create_fast_api_project.py *)

Module fastapi.
Import fastApi_templates.

(** The f-string of lines 95 to 105. *)
Definition test_content (usecase : string) : string :=
"import pytest
from fastapi.testclient import TestClient

def test_" +:+ usecase +:+ "_create_item(client):
    response = client.post(
        " +:+ dq +:+ "/" +:+ usecase +:+ "/items/" +:+ dq +:+ ",
        json={" +:+ dq +:+ "name" +:+ dq +:+ ": " +:+ dq +:+ "test item" +:+ dq
  +:+ ", " +:+ dq +:+ "description" +:+ dq +:+ ": " +:+ dq +:+ "test description" +:+ dq +:+ "}
    )
    assert response.status_code == 200
    assert response.json()[" +:+ dq +:+ "name" +:+ dq +:+ "] == " +:+ dq +:+ "test item" +:+ dq +:+ "
".

(** [create_project_structure], lines 61 to 114: the template files. *)
Definition materialize (project_name : string) : prog unit :=
  let base_path := PurePath project_name in
  let directories :=
    [ (base_path / "src" / "common")%path;
      (base_path / "src" / "usecase1")%path;
      (base_path / "src" / "usecase2")%path;
      (base_path / "tests" / "test_usecase1")%path;
      (base_path / "tests" / "test_usecase2")%path ] in
  print "Creating project structure..." ;;;
  for_each directories (fun directory =>
    perform (Mkdir directory true true) ;;;
    perform (Touch (directory / "__init__.py"))) ;;;
  print "Creating common module files..." ;;;
  for_each COMMON_FILES (fun '(filename, content) =>
    create_file_with_content (base_path / "src" / "common" / filename) content) ;;;
  print "Creating usecase files..." ;;;
  for_each ["usecase1"; "usecase2"] (fun usecase =>
    for_each USECASE_FILES (fun '(filename, content) =>
      create_file_with_content (base_path / "src" / usecase / filename) content)) ;;;
  print "Creating test files..." ;;;
  for_each TEST_FILES (fun '(filename, content) =>
    create_file_with_content (base_path / "tests" / filename) content) ;;;
  for_each ["usecase1"; "usecase2"] (fun usecase =>
    create_file_with_content
      (base_path / "tests" / ("test_" +:+ usecase) / "test_routes.py")
      (test_content usecase)) ;;;
  print "Creating main application files..." ;;;
  create_file_with_content (base_path / "main.py") MAIN_APP_TEMPLATE ;;;
  let* setup := format_ SETUP_TEMPLATE project_name in
  create_file_with_content (base_path / "setup.py") setup ;;;
  create_file_with_content (base_path / ".env") ENV_TEMPLATE ;;;
  create_file_with_content (base_path / ".gitignore") GITIGNORE_TEMPLATE ;;;
  let* readme := format_ README_TEMPLATE project_name in
  create_file_with_content (base_path / "README.md") readme.

(** [create_project_structure], lines 116 to 129: git, the virtual
    environment and the editable install. *)
Definition provision (h : host) (project_name : string) : prog string :=
  let base_path := PurePath project_name in
  print "Initializing git repository..." ;;;
  run_command "git init" (Some base_path) ;;;
  print "Setting up virtual environment..." ;;;
  let* (activate_script, python_path, pip_path) := create_and_activate_venv h base_path in
  print "Installing dependencies..." ;;;
  run_command (dq +:+ pip_path +:+ dq +:+ " install --upgrade pip") (Some base_path) ;;;
  run_command (dq +:+ pip_path +:+ dq +:+ " install -e .") (Some base_path) ;;;
  Ret activate_script.

Definition create_project_structure (h : host) (project_name : string) : prog string :=
  materialize project_name ;;; provision h project_name.

Definition usage : string := "Usage: python create_project.py project_name".

Definition success_message (project_name activate_cmd : string) : string :=
"
Project " +:+ project_name +:+ " created successfully!

Your virtual environment has been created and dependencies installed.

To activate the virtual environment:
" +:+ activate_cmd +:+ "

To run the application:
cd " +:+ project_name +:+ "
python main.py

Your API will be available at http://localhost:8000
API documentation will be at http://localhost:8000/docs

To run tests:
pytest

Happy coding! ðŸš€
".

Definition main (h : host) (argv : list string) : prog unit :=
  if negb (length argv =? 2)%nat then
    print usage ;;; sys_exit 1
  else
    let project_name := nth 1 argv "" in
    print ("Creating new project: " +:+ project_name) ;;;
    try_except
      (let* activate_script := create_project_structure h project_name in
       let activate_cmd :=
         if is_windows h then activate_script
         else "source " +:+ activate_script in
       print (success_message project_name activate_cmd))
      (fun e =>
         Some (print ("Error creating project: " +:+ str_exn e) ;;; sys_exit 1)).

End fastapi.

(** ** An in-memory file system as a world *)

Module MemFS.

(** A regular file with its text and permission bits, or a directory. *)
Inductive node :=
| File (content : string) (mode : Z)
| Dir.

(** The state of the world: the entries of the file system under the pure
    paths that name them (no symbolic links, and [".."] is not resolved),
    the mode [open] gives a new file (0o666 without the umask bits), and
    what each shell command answers.  The path with no component, the
    current directory or the root, is always a directory. *)
Record state := mkState {
  fs : gmap Path node;
  new_file_mode : Z;
  children : string -> CompletedProcess;
}.

Definition is_dir (m : gmap Path node) (p : Path) : bool :=
  match parts p with
  | [] => true
  | _ => match m !! p with Some Dir => true | _ => false end
  end.

(** [os.makedirs(..., exist_ok=True)]: every missing prefix of the path
    becomes a directory; a prefix that is a file makes the call fail. *)
Fixpoint makedirs (a : string) (pre rest : list string) (m : gmap Path node)
  : option (gmap Path node) :=
  match rest with
  | [] => Some m
  | c :: rest' =>
      let p := mkPath a (pre ++ [c]) in
      match m !! p with
      | Some (File _ _) => None
      | Some Dir => makedirs a (pre ++ [c]) rest' m
      | None => makedirs a (pre ++ [c]) rest' (<[p := Dir]> m)
      end
  end.

Definition os_error (h : host) (what : string) (p : Path) : exn :=
  OSError (what +:+ ": " +:+ repr (str_path h p)).

Definition with_fs (st : state) (m : gmap Path node) : state :=
  mkState m (new_file_mode st) (children st).

Definition mkdir (h : host) (p : Path) (parents exist_ok : bool) (st : state)
  : (exn + unit) * state :=
  let m := fs st in
  if is_dir m p then
    if exist_ok then (inr tt, st)
    else (inl (os_error h "[Errno 17] File exists" p), st)
  else match m !! p with
  | Some _ => (inl (os_error h "[Errno 17] File exists" p), st)
  | None =>
      if parents then
        match makedirs (anchor p) [] (parts p) m with
        | Some m' => (inr tt, with_fs st m')
        | None => (inl (os_error h "[Errno 20] Not a directory" p), st)
        end
      else if is_dir m (parent p) then (inr tt, with_fs st (<[p := Dir]> m))
      else (inl (os_error h "[Errno 2] No such file or directory" p), st)
  end.

(** Creating or opening an entry needs its parent to be a directory. *)
Definition creat (h : host) (p : Path) (truncate : bool) (st : state)
  : (exn + unit) * state :=
  let m := fs st in
  if is_dir m p then
    if truncate then (inl (os_error h "[Errno 21] Is a directory" p), st)
    else (inr tt, st)
  else if negb (is_dir m (parent p)) then
    (inl (os_error h "[Errno 2] No such file or directory" p), st)
  else match m !! p with
  | Some (File c mode) =>
      (inr tt, if truncate then with_fs st (<[p := File "" mode]> m) else st)
  | _ => (inr tt, with_fs st (<[p := File "" (new_file_mode st)]> m))
  end.

Definition write (h : host) (p : Path) (content : string) (st : state)
  : (exn + unit) * state :=
  match fs st !! p with
  | Some (File _ mode) => (inr tt, with_fs st (<[p := File content mode]> (fs st)))
  | _ => (inl (os_error h "[Errno 9] Bad file descriptor" p), st)
  end.

Definition chmod (h : host) (p : Path) (mode : Z) (st : state)
  : (exn + unit) * state :=
  match fs st !! p with
  | Some (File c _) => (inr tt, with_fs st (<[p := File c mode]> (fs st)))
  | Some Dir => (inr tt, st)
  | None =>
      if is_dir (fs st) p then (inr tt, st)
      else (inl (os_error h "[Errno 2] No such file or directory" p), st)
  end.

(** [venv.create] makes the environment directory; what it puts inside is
    not tracked. *)
Definition venv_create (h : host) (p : Path) (st : state) : (exn + unit) * state :=
  match makedirs (anchor p) [] (parts p) (fs st) with
  | Some m' => (inr tt, with_fs st m')
  | None => (inl (os_error h "[Errno 17] File exists" p), st)
  end.

(** A child process needs its working directory; it leaves the tracked
    files alone. *)
Definition shell (h : host) (command : string) (cwd : option Path) (st : state)
  : (exn + CompletedProcess) * state :=
  match cwd with
  | Some p =>
      if is_dir (fs st) p then (inr (children st command), st)
      else (inl (os_error h "[Errno 2] No such file or directory" p), st)
  | None => (inr (children st command), st)
  end.

Definition handle (h : host) : world state :=
  fun ev =>
    match ev return state -> (exn + resp ev) * state with
    | Mkdir p parents exist_ok => mkdir h p parents exist_ok
    | Touch p => creat h p false
    | Open_w p => creat h p true
    | Write_close p content => write h p content
    | Chmod p mode => chmod h p mode
    | Venv_create p _ => venv_create h p
    | Shell command cwd => shell h command cwd
    end.

Definition succeed (_ : string) : CompletedProcess :=
  {| returncode := 0; stdout := ""; stderr := "" |}.

(** An empty working directory, umask 022, every command succeeding. *)
Definition fresh : state := mkState ∅ (octal 6 4 4) succeed.

End MemFS.

Definition linux : host := {| system := "Linux" |}.
Definition windows : host := {| system := "Windows" |}.

(** ** Flat scripts *)

(** Both generators are straight-line: a fixed list of steps, ended by the
    first failure.  A step prints a line, makes a library call whose
    exception propagates, or is a [run_command].  [run_script] is the
    reference semantics of such a list: the scripts are proved to refine it
    below and the properties of the runs are read off it. *)
Inductive step :=
| Say (s : string)
| Sys (ev : event)
| Run (command : string) (cwd : option Path).

(** What follows the last step: the end of the script, or an exception
    raised by the interpreter itself. *)
Inductive ending :=
| Completes
| Raises (e : exn).

Inductive status :=
| Done
| Failed (e : exn)
| Quit (code : Z).

Definition command_failed (command e_stderr : string) : list entry :=
  [Printed ("Error running command: " +:+ command); Printed ("Error: " +:+ e_stderr)].

Fixpoint run_script {W} (h : world W) (s : list step) (fin : ending) (w : W)
  : status * list entry * W :=
  match s with
  | [] => (match fin with Completes => Done | Raises e => Failed e end, [], w)
  | Say t :: s' =>
      let '(st, l, w') := run_script h s' fin w in (st, Printed t :: l, w')
  | Sys ev :: s' =>
      let '(r, w1) := h ev w in
      match r with
      | inl e => (Failed e, [Did ev r], w1)
      | inr _ =>
          let '(st, l, w') := run_script h s' fin w1 in (st, Did ev r :: l, w')
      end
  | Run c cwd :: s' =>
      let '(r, w1) := h (Shell c cwd) w in
      match r with
      | inl (CalledProcessError _ _ _ err) =>
          (Quit 1, Did (Shell c cwd) r :: command_failed c err, w1)
      | inl e => (Failed e, [Did (Shell c cwd) r], w1)
      | inr cp =>
          if (returncode cp =? 0)%Z then
            let '(st, l, w') := run_script h s' fin w1 in
            (st, Did (Shell c cwd) r :: l, w')
          else (Quit 1, Did (Shell c cwd) r :: command_failed c (stderr cp), w1)
      end
  end.

Definition finish {A W} (a : A) (r : status * list entry * W) : outcome A * list entry * W :=
  let '(st, l, w) := r in
  (match st with
   | Done => Returned a
   | Failed e => Uncaught e
   | Quit c => Exited c
   end, l, w).

(** [p] runs as the script [s] with ending [fin] in every world, and
    returns [a] when the script completes. *)
Definition refines {A} (p : prog A) (s : list step) (fin : ending) (a : A) : Prop :=
  forall W (h : world W) (w : W), exec h p w = finish a (run_script h s fin w).

(** The effects a script asks for, in order. *)
Definition step_events (s : list step) : list event :=
  omap (fun x => match x with
                 | Say _ => None
                 | Sys ev => Some ev
                 | Run c cwd => Some (Shell c cwd)
                 end) s.

(** The files a script writes, with their text. *)
Definition writes (s : list step) : list (Path * string) :=
  omap (fun x => match x with
                 | Sys (Write_close p c) => Some (p, c)
                 | _ => None
                 end) s.

Definition touches (s : list step) : list Path :=
  omap (fun x => match x with Sys (Touch p) => Some p | _ => None end) s.

(** *** The scripts of the two generators *)

Definition file_steps (file_path : Path) (content : string) : list step :=
  [Sys (Mkdir (parent file_path) true true); Sys (Open_w file_path);
   Sys (Write_close file_path content)].

Definition venv_paths (h : host) (project_path : Path) : string * string * string :=
  let venv_path := (project_path / "venv")%path in
  if is_windows h then
    (str_path h (venv_path / "Scripts" / "activate.bat"),
     str_path h (venv_path / "Scripts" / "python.exe"),
     str_path h (venv_path / "Scripts" / "pip.exe"))
  else
    (str_path h (venv_path / "bin" / "activate"),
     str_path h (venv_path / "bin" / "python"),
     str_path h (venv_path / "bin" / "pip")).

Definition venv_steps (project_path : Path) : list step :=
  [Say "Creating virtual environment..."; Sys (Venv_create (project_path / "venv") true)].

Module django_script.
Import django_templates.

Definition app (project_path : Path) (app_name : string) : list step :=
  let app_path := (project_path / app_name)%path in
  Sys (Mkdir app_path false true)
  :: file_steps (app_path / "__init__.py") ""
  ++ file_steps (app_path / "models.py") APP_MODELS_TEMPLATE
  ++ file_steps (app_path / "serializers.py") APP_SERIALIZERS_TEMPLATE
  ++ file_steps (app_path / "views.py") APP_VIEWS_TEMPLATE
  ++ file_steps (app_path / "urls.py") APP_URLS_TEMPLATE
  ++ file_steps (app_path / "admin.py") APP_ADMIN_TEMPLATE
  ++ file_steps (app_path / "tests.py") APP_TESTS_TEMPLATE
  ++ Sys (Mkdir (app_path / "migrations") false true)
  :: file_steps (app_path / "migrations" / "__init__.py") "".

(** The README once the name is filled in. *)
Definition readme (project_name : string) : string :=
  match format README_TEMPLATE project_name with
  | Formatted s => s
  | _ => ""
  end.

Definition materialize (project_name : string) : list step :=
  let base_path := PurePath project_name in
  let config_path := (base_path / "config")%path in
  Sys (Mkdir config_path true true)
  :: file_steps (config_path / "__init__.py") ""
  ++ file_steps (config_path / "settings.py") SETTINGS_TEMPLATE
  ++ file_steps (config_path / "urls.py") URLS_TEMPLATE
  ++ file_steps (config_path / "wsgi.py") WSGI_TEMPLATE
  ++ file_steps (config_path / "asgi.py") ASGI_TEMPLATE
  ++ file_steps (base_path / "manage.py") MANAGE_TEMPLATE
  ++ Sys (Chmod (base_path / "manage.py") (octal 7 5 5))
  :: app base_path "usecase1"
  ++ app base_path "usecase2"
  ++ file_steps (base_path / "requirements.txt") REQUIREMENTS_TEMPLATE
  ++ file_steps (base_path / ".env") ENV_TEMPLATE
  ++ file_steps (base_path / ".gitignore") GITIGNORE_TEMPLATE
  ++ file_steps (base_path / "README.md") (readme project_name).

Definition provision (h : host) (project_name : string) : list step :=
  let base_path := PurePath project_name in
  let '(_, python_path, pip_path) := venv_paths h base_path in
  [Say "Initializing git repository..."; Run "git init" (Some base_path);
   Say "Setting up virtual environment..."]
  ++ venv_steps base_path
  ++ [Say "Installing dependencies...";
      Run (dq +:+ pip_path +:+ dq +:+ " install --upgrade pip") (Some base_path);
      Run (dq +:+ pip_path +:+ dq +:+ " install -r requirements.txt") (Some base_path);
      Say "Initializing Django project...";
      Run (dq +:+ python_path +:+ dq +:+ " manage.py migrate") (Some base_path)].

End django_script.

Module fastapi_script.
Import fastApi_templates.

Definition package (directory : Path) : list step :=
  [Sys (Mkdir directory true true); Sys (Touch (directory / "__init__.py"))].

Definition files (directory : Path) (items : list (string * string)) : list step :=
  flat_map (fun '(filename, content) => file_steps (directory / filename) content) items.

(** The steps up to line 110; line 111 raises while it formats
    [SETUP_TEMPLATE], before any call of that line. *)
Definition materialize (project_name : string) : list step :=
  let base_path := PurePath project_name in
  Say "Creating project structure..."
  :: flat_map package
       [ (base_path / "src" / "common")%path;
         (base_path / "src" / "usecase1")%path;
         (base_path / "src" / "usecase2")%path;
         (base_path / "tests" / "test_usecase1")%path;
         (base_path / "tests" / "test_usecase2")%path ]
  ++ Say "Creating common module files..."
  :: files (base_path / "src" / "common") COMMON_FILES
  ++ Say "Creating usecase files..."
  :: flat_map (fun usecase => files (base_path / "src" / usecase) USECASE_FILES)
       ["usecase1"; "usecase2"]
  ++ Say "Creating test files..."
  :: files (base_path / "tests") TEST_FILES
  ++ flat_map (fun usecase =>
       file_steps (base_path / "tests" / ("test_" +:+ usecase) / "test_routes.py")
         (fastapi.test_content usecase))
       ["usecase1"; "usecase2"]
  ++ Say "Creating main application files..."
  :: file_steps (base_path / "main.py") MAIN_APP_TEMPLATE.

(** What [SETUP_TEMPLATE.format] raises: the second pair of braces of the
    template, around [package_dir], reads as a field named by two double
    quotes. *)
Definition setup_error : exn := KeyError (dq +:+ dq).

Definition provision (h : host) (project_name : string) : list step :=
  let base_path := PurePath project_name in
  let '(_, _, pip_path) := venv_paths h base_path in
  [Say "Initializing git repository..."; Run "git init" (Some base_path);
   Say "Setting up virtual environment..."]
  ++ venv_steps base_path
  ++ [Say "Installing dependencies...";
      Run (dq +:+ pip_path +:+ dq +:+ " install --upgrade pip") (Some base_path);
      Run (dq +:+ pip_path +:+ dq +:+ " install -e .") (Some base_path)].

End fastapi_script.

(** ** The two generators side by side *)

Inductive generator :=
| Django
| FastAPI.

Definition main (g : generator) : host -> list string -> prog unit :=
  match g with
  | Django => django.main
  | FastAPI => fastapi.main
  end.

Definition materialize (g : generator) : string -> prog unit :=
  match g with
  | Django => django.materialize
  | FastAPI => fastapi.materialize
  end.

Definition provision (g : generator) : host -> string -> prog string :=
  match g with
  | Django => django.provision
  | FastAPI => fastapi.provision
  end.

Definition create_project_structure (g : generator) : host -> string -> prog string :=
  match g with
  | Django => django.create_project_structure
  | FastAPI => fastapi.create_project_structure
  end.

Definition usage (g : generator) : string :=
  match g with
  | Django => django.usage
  | FastAPI => fastapi.usage
  end.

Definition banner (g : generator) (project_name : string) : string :=
  match g with
  | Django => "Creating new Django project: " +:+ project_name
  | FastAPI => "Creating new project: " +:+ project_name
  end.

(** The entry-point script of the generated project. *)
Definition entry_point (g : generator) : string :=
  match g with
  | Django => "manage.py"
  | FastAPI => "main.py"
  end.

(** The flat script of [create_project_structure] and its ending. *)
Definition materialize_script (g : generator) (project_name : string) : list step :=
  match g with
  | Django => django_script.materialize project_name
  | FastAPI => fastapi_script.materialize project_name
  end.

Definition script (g : generator) (h : host) (project_name : string) : list step :=
  match g with
  | Django =>
      django_script.materialize project_name ++ django_script.provision h project_name
  | FastAPI => fastapi_script.materialize project_name
  end.

Definition script_end (g : generator) : ending :=
  match g with
  | Django => Completes
  | FastAPI => Raises fastapi_script.setup_error
  end.

Definition provision_script (g : generator) (h : host) (project_name : string) : list step :=
  match g with
  | Django => django_script.provision h project_name
  | FastAPI => fastapi_script.provision h project_name
  end.

Definition activate_cmd (h : host) (project_name : string) : string :=
  let activate_script := (venv_paths h (PurePath project_name)).1.1 in
  if is_windows h then activate_script else "source " +:+ activate_script.

Definition success (g : generator) (h : host) (project_name : string) : string :=
  match g with
  | Django => django.success_message project_name (activate_cmd h project_name)
  | FastAPI => fastapi.success_message project_name (activate_cmd h project_name)
  end.

(** What [main] makes of the run of its script: the banner first; at the
    end the success message, or the message of the top-level handler. *)
Definition report {W} (start finished : string) (r : status * list entry * W)
  : outcome unit * list entry * W :=
  let '(st, l, w') := r in
  match st with
  | Done => (Returned tt, Printed start :: l ++ [Printed finished], w')
  | Failed e =>
      (Exited 1,
       Printed start :: l ++ [Printed ("Error creating project: " +:+ str_exn e)], w')
  | Quit c => (Exited c, Printed start :: l, w')
  end.

(** ** Reading a log *)

Definition is_shell (ev : event) : bool :=
  match ev with
  | Shell _ _ => true
  | _ => false
  end.

(** The effect and the exception of an entry the world answered with an
    exception. *)
Definition raised (x : entry) : option (event * exn) :=
  match x with
  | Did ev (inl e) => Some (ev, e)
  | _ => None
  end.

(** The command and the captured error stream of a child that returned a
    non-zero status. *)
Definition returned_nonzero (x : entry) : option (string * string) :=
  match x with
  | Did ev r =>
      match ev return exn + resp ev -> option (string * string) with
      | Shell c _ => fun r =>
          match r with
          | inr cp => if (returncode cp =? 0)%Z then None else Some (c, stderr cp)
          | inl _ => None
          end
      | _ => fun _ => None
      end r
  | Printed _ => None
  end.

(** The paths a list of effects opens, writes, touches and re-modes. *)
Definition written (evs : list event) : list Path :=
  omap (fun ev => match ev with Write_close p _ => Some p | _ => None end) evs.

Definition opened (evs : list event) : list Path :=
  omap (fun ev => match ev with Open_w p => Some p | _ => None end) evs.

Definition touched (evs : list event) : list Path :=
  omap (fun ev => match ev with Touch p => Some p | _ => None end) evs.

Definition chmods (evs : list event) : list (Path * Z) :=
  omap (fun ev => match ev with Chmod p m => Some (p, m) | _ => None end) evs.

(** [under base rel]: the path [rel] below [base]. *)
Definition under (base : Path) (rel : list string) : Path :=
  mkPath (anchor base) (parts base ++ rel).

(** A script with no bare shell call: every child runs through
    [run_command]. *)
Definition commands_checked (s : list step) : bool :=
  forallb (fun x => match x with Sys ev => negb (is_shell ev) | _ => true end) s.

(** The effects of the provisioning half of [create_project_structure],
    in the order of the source: git, the virtual environment, the upgrade
    of the installer, the installation, and for Django the migration. *)
Definition provisioning_events (g : generator) (h : host) (project_name : string)
  : list event :=
  let base_path := PurePath project_name in
  let venv_path := (base_path / "venv")%path in
  let bin := if is_windows h then (venv_path / "Scripts")%path else (venv_path / "bin")%path in
  let pip_path := str_path h (bin / (if is_windows h then "pip.exe" else "pip")) in
  let python_path := str_path h (bin / (if is_windows h then "python.exe" else "python")) in
  [ Shell "git init" (Some base_path);
    Venv_create venv_path true;
    Shell (dq +:+ pip_path +:+ dq +:+ " install --upgrade pip") (Some base_path) ]
  ++ match g with
     | Django =>
         [ Shell (dq +:+ pip_path +:+ dq +:+ " install -r requirements.txt") (Some base_path);
           Shell (dq +:+ python_path +:+ dq +:+ " manage.py migrate") (Some base_path) ]
     | FastAPI =>
         [ Shell (dq +:+ pip_path +:+ dq +:+ " install -e .") (Some base_path) ]
     end.

(** An effect of the file system or of the creation of the environment. *)
Definition is_provisioning (ev : event) : bool :=
  match ev with
  | Shell _ _ | Venv_create _ _ => true
  | _ => false
  end.

Definition is_effect (x : entry) : Prop :=
  match x with
  | Printed _ => False
  | Did _ _ => True
  end.

(** ** Some worlds to run the scripts in *)

(** A working directory where [git] fails and every other command
    succeeds. *)
Definition git_fails : MemFS.state :=
  MemFS.mkState ∅ (octal 6 4 4)
    (fun command =>
       if String.eqb command "git init"
       then {| returncode := 128; stdout := ""; stderr := "fatal: cannot mkdir .git" |}
       else MemFS.succeed command).

(** A working directory where a regular file stands in the way of the
    project directory [demo]. *)
Definition blocked : MemFS.state :=
  MemFS.mkState {[ PurePath "demo" := MemFS.File "" (octal 6 4 4) ]} (octal 6 4 4)
    MemFS.succeed.

(** A world without state in which every call succeeds and every child
    returns status 0 with nothing on its streams. *)
Definition always_ok : world unit :=
  fun ev _ =>
    (match ev return exn + resp ev with
     | Shell _ _ => inr {| returncode := 0; stdout := ""; stderr := "" |}
     | _ => inr tt
     end, tt).

(** ** The plan of the template files *)

(** [descend base rel]: [base / seg1 / ... / segn] for plain segments. *)
Definition descend (base : Path) (rel : list string) : Path :=
  fold_left (fun p seg => under p [seg]) rel base.

(** One operation of the materialization, on a path relative to the
    project directory: a line printed, [mkdir(exist_ok=True)], [touch],
    [create_file_with_content], [os.chmod]. *)
Inductive op :=
| Line (t : string)
| MakeDir (rel : list string) (parents : bool)
| TouchFile (rel : list string)
| WriteFile (rel : list string) (content : string)
| SetMode (rel : list string) (mode : Z).

Definition op_steps (base : Path) (o : op) : list step :=
  match o with
  | Line t => [Say t]
  | MakeDir rel parents => [Sys (Mkdir (descend base rel) parents true)]
  | TouchFile rel => [Sys (Touch (descend base rel))]
  | WriteFile rel content => file_steps (descend base rel) content
  | SetMode rel mode => [Sys (Chmod (descend base rel) mode)]
  end.

Definition django_app_plan (app_name : string) : list op :=
  [ MakeDir [app_name] false;
    WriteFile [app_name; "__init__.py"] "";
    WriteFile [app_name; "models.py"] django_templates.APP_MODELS_TEMPLATE;
    WriteFile [app_name; "serializers.py"] django_templates.APP_SERIALIZERS_TEMPLATE;
    WriteFile [app_name; "views.py"] django_templates.APP_VIEWS_TEMPLATE;
    WriteFile [app_name; "urls.py"] django_templates.APP_URLS_TEMPLATE;
    WriteFile [app_name; "admin.py"] django_templates.APP_ADMIN_TEMPLATE;
    WriteFile [app_name; "tests.py"] django_templates.APP_TESTS_TEMPLATE;
    MakeDir [app_name; "migrations"] false;
    WriteFile [app_name; "migrations"; "__init__.py"] "" ].

(** The files of the Django generator that do not depend on the name. *)
Definition django_fixed_plan : list op :=
  [ MakeDir ["config"] true;
    WriteFile ["config"; "__init__.py"] "";
    WriteFile ["config"; "settings.py"] django_templates.SETTINGS_TEMPLATE;
    WriteFile ["config"; "urls.py"] django_templates.URLS_TEMPLATE;
    WriteFile ["config"; "wsgi.py"] django_templates.WSGI_TEMPLATE;
    WriteFile ["config"; "asgi.py"] django_templates.ASGI_TEMPLATE;
    WriteFile ["manage.py"] django_templates.MANAGE_TEMPLATE;
    SetMode ["manage.py"] (octal 7 5 5) ]
  ++ django_app_plan "usecase1"
  ++ django_app_plan "usecase2"
  ++ [ WriteFile ["requirements.txt"] django_templates.REQUIREMENTS_TEMPLATE;
       WriteFile [".env"] django_templates.ENV_TEMPLATE;
       WriteFile [".gitignore"] django_templates.GITIGNORE_TEMPLATE ].

Definition fastapi_files (dir : list string) (items : list (string * string)) : list op :=
  map (fun '(filename, content) => WriteFile (dir ++ [filename]) content) items.

(** What the FastAPI generator does before line 111 raises. *)
Definition fastapi_fixed_plan : list op :=
  Line "Creating project structure..."
  :: flat_map (fun dir => [MakeDir dir true; TouchFile (dir ++ ["__init__.py"])])
       [ ["src"; "common"]; ["src"; "usecase1"]; ["src"; "usecase2"];
         ["tests"; "test_usecase1"]; ["tests"; "test_usecase2"] ]
  ++ Line "Creating common module files..."
  :: fastapi_files ["src"; "common"] fastApi_templates.COMMON_FILES
  ++ Line "Creating usecase files..."
  :: flat_map (fun usecase => fastapi_files ["src"; usecase] fastApi_templates.USECASE_FILES)
       ["usecase1"; "usecase2"]
  ++ Line "Creating test files..."
  :: fastapi_files ["tests"] fastApi_templates.TEST_FILES
  ++ map (fun usecase =>
       WriteFile ["tests"; "test_" +:+ usecase; "test_routes.py"]
         (fastapi.test_content usecase))
       ["usecase1"; "usecase2"]
  ++ [ Line "Creating main application files...";
       WriteFile ["main.py"] fastApi_templates.MAIN_APP_TEMPLATE ].

(** The operations of [materialize]: the part that is the same for every
    name, then the files whose text holds the name. *)
Definition fixed_plan (g : generator) : list op :=
  match g with
  | Django => django_fixed_plan
  | FastAPI => fastapi_fixed_plan
  end.

Definition named_plan (g : generator) (project_name : string) : list op :=
  match g with
  | Django => [ WriteFile ["README.md"] (django_script.readme project_name) ]
  | FastAPI => []
  end.

Definition plan (g : generator) (project_name : string) : list op :=
  fixed_plan g ++ named_plan g project_name.

(** The files a plan writes with content, the files it touches, the modes
    it sets. *)
Definition plan_files (ops : list op) : list (list string * string) :=
  omap (fun o => match o with WriteFile rel c => Some (rel, c) | _ => None end) ops.

Definition plan_touched (ops : list op) : list (list string) :=
  omap (fun o => match o with TouchFile rel => Some rel | _ => None end) ops.

Definition plan_modes (ops : list op) : list (list string * Z) :=
  omap (fun o => match o with SetMode rel m => Some (rel, m) | _ => None end) ops.

(** The files a list of effects writes, with their text. *)
Definition writes_of (evs : list event) : list (Path * string) :=
  omap (fun ev => match ev with Write_close p c => Some (p, c) | _ => None end) evs.

(** ** What an operation leaves behind in the in-memory file system *)

(** The file whose text, or whose mode, an effect may change. *)
Definition content_target (ev : event) : option Path :=
  match ev with
  | Open_w p | Write_close p _ => Some p
  | _ => None
  end.

Definition mode_target (ev : event) : option Path :=
  match ev with
  | Chmod p _ => Some p
  | _ => None
  end.

(** [keeps ct mt m m']: from [m] to [m'] directories stay directories,
    files stay files, and a file keeps its text unless it is [ct] and its
    mode unless it is [mt]. *)
Definition keeps (ct mt : option Path) (m m' : gmap Path MemFS.node) : Prop :=
  (forall p, m !! p = Some MemFS.Dir -> m' !! p = Some MemFS.Dir)
  /\ (forall p c md, m !! p = Some (MemFS.File c md) ->
        exists c' md', m' !! p = Some (MemFS.File c' md')
          /\ (ct <> Some p -> c' = c)
          /\ (mt <> Some p -> md' = md)).

Definition frame (ev : event) : gmap Path MemFS.node -> gmap Path MemFS.node -> Prop :=
  keeps (content_target ev) (mode_target ev).

(** The file whose text, or whose mode, an operation may change. *)
Definition op_content (base : Path) (o : op) : option Path :=
  match o with
  | WriteFile rel _ => Some (descend base rel)
  | _ => None
  end.

Definition op_mode (base : Path) (o : op) : option Path :=
  match o with
  | SetMode rel _ => Some (descend base rel)
  | _ => None
  end.

(** [settled m base o]: the operation [o] has been done in [m], so that
    doing it again changes nothing. *)
Definition settled (m : gmap Path MemFS.node) (base : Path) (o : op) : Prop :=
  match o with
  | Line _ => True
  | MakeDir rel _ => MemFS.is_dir m (descend base rel) = true
  | TouchFile rel =>
      let p := descend base rel in
      MemFS.is_dir m p = true
      \/ (MemFS.is_dir m (parent p) = true /\ exists c md, m !! p = Some (MemFS.File c md))
  | WriteFile rel c =>
      let p := descend base rel in
      MemFS.is_dir m p = false /\ MemFS.is_dir m (parent p) = true
      /\ exists md, m !! p = Some (MemFS.File c md)
  | SetMode rel md =>
      let p := descend base rel in
      (exists c, m !! p = Some (MemFS.File c md)) \/ m !! p = Some MemFS.Dir
  end.

(** The log of an operation that succeeds. *)
Definition op_log (base : Path) (o : op) : list entry :=
  match o with
  | Line t => [Printed t]
  | MakeDir rel parents => [Did (Mkdir (descend base rel) parents true) (inr tt)]
  | TouchFile rel => [Did (Touch (descend base rel)) (inr tt)]
  | WriteFile rel c =>
      let p := descend base rel in
      [Did (Mkdir (parent p) true true) (inr tt); Did (Open_w p) (inr tt);
       Did (Write_close p c) (inr tt)]
  | SetMode rel md => [Did (Chmod (descend base rel) md) (inr tt)]
  end.

(** A plan that writes no path twice, sets no mode twice, and sets no
    mode on the project directory itself. *)
Definition plan_ok (ops : list op) : Prop :=
  NoDup (fst <$> plan_files ops) /\ NoDup (fst <$> plan_modes ops)
  /\ Forall (fun rm => rm.1 <> []) (plan_modes ops).

(** A script without [run_command]. *)
Definition no_commands (s : list step) : bool :=
  forallb (fun x => match x with Run _ _ => false | _ => true end) s.

(** The entry-point script of the project [project_name] is a file with
    mode rwxr-xr-x in the state [st] of the in-memory file system. *)
Definition entry_point_executable (g : generator) (project_name : string)
    (st : MemFS.state) : Prop :=
  exists c, MemFS.fs st !! (PurePath project_name / entry_point g)%path
            = Some (MemFS.File c (octal 7 5 5)).

(** The pieces of a template between the occurrences of the placeholder
    [{project_name}]. *)
Fixpoint pieces_from (skip : nat) (t : string) : list string :=
  match t with
  | EmptyString => [EmptyString]
  | String c t' =>
      match skip with
      | S k => pieces_from k t'
      | O =>
          if String.prefix "{project_name}" t then EmptyString :: pieces_from 13 t'
          else match pieces_from 0 t' with
               | w :: ws => String c w :: ws
               | [] => [String c EmptyString]
               end
      end
  end.

Definition pieces (t : string) : list string := pieces_from 0 t.

(** The text of the two READMEs around the name: after the title line up
    to the heading of the diagram, and after the first line of the
    diagram. *)
Definition readme_body (template : string) : string :=
  let p := nth 1 (pieces template) "" in
  substring 1 (String.length p - 23) p.

Definition readme_tail (template : string) : string :=
  let p := nth 2 (pieces template) "" in
  substring 2 (String.length p - 2) p.

Definition readme_of (template project_name : string) : string :=
  "# " +:+ project_name +:+ nl +:+ readme_body template
  +:+ "## Project Structure" +:+ nl +:+ nl +:+ project_name +:+ "/" +:+ nl
  +:+ readme_tail template.

(** The files the scenario of the project [demo] asks for: the entry
    point, the settings module, the two use cases, the dependency
    manifest, the environment file, the ignore list and the README. *)
Definition required_files (g : generator) : list (list string) :=
  match g with
  | Django =>
      [ ["manage.py"]; ["config"; "settings.py"];
        ["usecase1"; "models.py"]; ["usecase1"; "views.py"];
        ["usecase2"; "models.py"]; ["usecase2"; "views.py"];
        ["requirements.txt"]; [".env"]; [".gitignore"]; ["README.md"] ]
  | FastAPI =>
      [ ["main.py"]; ["src"; "common"; "config.py"];
        ["src"; "usecase1"; "models.py"]; ["src"; "usecase1"; "routers.py"];
        ["src"; "usecase2"; "models.py"]; ["src"; "usecase2"; "routers.py"];
        ["setup.py"]; [".env"]; [".gitignore"]; ["README.md"] ]
  end.

(** The files of the FastAPI generator that come after the formatting of
    [SETUP_TEMPLATE]. *)
Definition after_setup : list (list string) :=
  [ ["setup.py"]; [".env"]; [".gitignore"]; ["README.md"] ].

(** The path an effect works on: the working directory for a child. *)
Definition event_path (ev : event) : option Path :=
  match ev with
  | Mkdir p _ _ | Touch p | Open_w p | Write_close p _ | Chmod p _ | Venv_create p _ => Some p
  | Shell _ cwd => cwd
  end.

(** The files whose text, and whose mode, the effects of a script may
    change. *)
Definition content_targets (evs : list event) : list Path := omap content_target evs.

Definition mode_targets (evs : list event) : list Path := omap mode_target evs.

(** The writes of a log that succeeded. *)
Definition written_ok (l : list entry) : list (Path * string) :=
  omap (fun x => match x with
                 | Did (Write_close p c) (inr _) => Some (p, c)
                 | _ => None
                 end) l.

(** The children of a log that returned, with their status. *)
Definition statuses (l : list entry) : list Z :=
  omap (fun x =>
          match x with
          | Did ev r =>
              match ev return exn + resp ev -> option Z with
              | Shell _ _ => fun r =>
                  match r with inr cp => Some (returncode cp) | inl _ => None end
              | _ => fun _ => None
              end r
          | Printed _ => None
          end) l.

Definition is_called_process_error (e : exn) : bool :=
  match e with
  | CalledProcessError _ _ _ _ => true
  | _ => false
  end.

(** * Properties *)

(** ** Running binds and handlers *)

Lemma exec_bind {W A B} (h : world W) (m : prog A) (f : A -> prog B) (w : W) :
  exec h (bind m f) w =
  match exec h m w with
  | (Returned a, l, w') => let '(o, l', w'') := exec h (f a) w' in (o, l ++ l', w'')
  | (Uncaught e, l, w') => (Uncaught e, l, w')
  | (Exited c, l, w') => (Exited c, l, w')
  end.
Proof.
  revert w. induction m as [a|e|c|s k IH|ev k IH]; intros w; simpl.
  - destruct (exec h (f a) w) as [[o l] w']. reflexivity.
  - reflexivity.
  - reflexivity.
  - rewrite IH. destruct (exec h k w) as [[[a|e|c] l] w']; try reflexivity.
    destruct (exec h (f a) w') as [[o l'] w'']. reflexivity.
  - destruct (h ev w) as [r w1]. rewrite IH.
    destruct (exec h (k r) w1) as [[[a|e|c] l] w']; try reflexivity.
    destruct (exec h (f a) w') as [[o l'] w'']. reflexivity.
Qed.

Lemma exec_try_except {W A} (h : world W) (body : prog A) handler (w : W) :
  exec h (try_except body handler) w =
  match exec h body w with
  | (Uncaught e, l, w') =>
      match handler e with
      | Some q => let '(o, l', w'') := exec h q w' in (o, l ++ l', w'')
      | None => (Uncaught e, l, w')
      end
  | other => other
  end.
Proof.
  revert w. induction body as [a|e|c|s k IH|ev k IH]; intros w; simpl.
  - reflexivity.
  - destruct (handler e) as [q|]; [|reflexivity].
    destruct (exec h q w) as [[o l'] w'']. reflexivity.
  - reflexivity.
  - rewrite IH. destruct (exec h k w) as [[[a|e|c] l] w']; try reflexivity.
    destruct (handler e) as [q|]; [|reflexivity].
    destruct (exec h q w') as [[o l'] w'']. reflexivity.
  - destruct (h ev w) as [r w1]. rewrite IH.
    destruct (exec h (k r) w1) as [[[a|e|c] l] w']; try reflexivity.
    destruct (handler e) as [q|]; [|reflexivity].
    destruct (exec h q w') as [[o l'] w'']. reflexivity.
Qed.

Lemma run_script_app {W} (h : world W) (s1 s2 : list step) fin (w : W) :
  run_script h (s1 ++ s2) fin w =
  match run_script h s1 Completes w with
  | (Done, l, w') => let '(st, l', w'') := run_script h s2 fin w' in (st, l ++ l', w'')
  | other => other
  end.
Proof.
  revert w. induction s1 as [|[t|ev|c cwd] s1 IH]; intros w; simpl.
  - destruct (run_script h s2 fin w) as [[st l'] w'']. reflexivity.
  - rewrite IH. destruct (run_script h s1 Completes w) as [[[|e|c] l] w']; try reflexivity.
    destruct (run_script h s2 fin w') as [[st l'] w'']. reflexivity.
  - destruct (h ev w) as [[e|v] w1]; [reflexivity|]. rewrite IH.
    destruct (run_script h s1 Completes w1) as [[[|e|c] l] w']; try reflexivity.
    destruct (run_script h s2 fin w') as [[st l'] w'']. reflexivity.
  - destruct (h (Shell c cwd) w) as [[e|cp] w1].
    + destruct e; reflexivity.
    + destruct (returncode cp =? 0)%Z; [|reflexivity]. rewrite IH.
      destruct (run_script h s1 Completes w1) as [[[|e|c'] l] w']; try reflexivity.
      destruct (run_script h s2 fin w') as [[st l'] w'']. reflexivity.
Qed.

(** ** Refinement: the scripts of the source are the flat scripts *)

Lemma refines_ret {A} (a : A) : refines (Ret a) [] Completes a.
Proof. intros W h w. reflexivity. Qed.

Lemma refines_raise {A} (e : exn) (a : A) : refines (Raise e) [] (Raises e) a.
Proof. intros W h w. reflexivity. Qed.

Lemma refines_bind {A B} (m : prog A) (f : A -> prog B) s1 s2 fin a b :
  refines m s1 Completes a -> refines (f a) s2 fin b ->
  refines (bind m f) (s1 ++ s2) fin b.
Proof.
  intros Hm Hf W h w. rewrite exec_bind, run_script_app, Hm.
  destruct (run_script h s1 Completes w) as [[[|e|c] l] w']; simpl; try reflexivity.
  rewrite Hf. destruct (run_script h s2 fin w') as [[st l'] w'']. reflexivity.
Qed.

Lemma refines_print (t : string) : refines (print t) [Say t] Completes tt.
Proof. intros W h w. reflexivity. Qed.

(** A call whose value is dropped. *)
Lemma refines_perform {B} (ev : event) (k : prog B) s fin b :
  refines k s fin b -> refines (perform ev ;;; k) (Sys ev :: s) fin b.
Proof.
  intros Hk W h w. simpl. destruct (h ev w) as [[e|v] w1]; simpl; [reflexivity|].
  rewrite Hk. destruct (run_script h s fin w1) as [[st l] w']. reflexivity.
Qed.

Lemma refines_last {B} (m : prog B) s fin b :
  refines m (s ++ []) fin b -> refines m s fin b.
Proof. rewrite app_nil_r. auto. Qed.

Lemma refines_create_file (p : Path) (c : string) :
  refines (create_file_with_content p c) (file_steps p c) Completes tt.
Proof.
  intros W h w. unfold create_file_with_content, file_steps. simpl.
  destruct (h (Mkdir (parent p) true true) w) as [[e|[]] w1]; simpl; [reflexivity|].
  destruct (h (Open_w p) w1) as [[e|[]] w2]; simpl; [reflexivity|].
  destruct (h (Write_close p c) w2) as [[e|[]] w3]; reflexivity.
Qed.

Lemma refines_file {B} (p : Path) (c : string) (k : prog B) s fin b :
  refines k s fin b ->
  refines (create_file_with_content p c ;;; k) (file_steps p c ++ s) fin b.
Proof. intros Hk. exact (refines_bind _ _ _ _ _ tt _ (refines_create_file p c) Hk). Qed.

Lemma refines_for_each {X} (l : list X) (body : X -> prog unit) (sb : X -> list step) :
  (forall x, refines (body x) (sb x) Completes tt) ->
  refines (for_each l body) (flat_map sb l) Completes tt.
Proof.
  intros Hb. induction l as [|x l IH]; simpl.
  - apply refines_ret.
  - exact (refines_bind _ _ _ _ _ tt _ (Hb x) IH).
Qed.

Lemma refines_loop {X B} (l : list X) (body : X -> prog unit) (sb : X -> list step)
    (k : prog B) s fin b :
  (forall x, refines (body x) (sb x) Completes tt) ->
  refines k s fin b ->
  refines (for_each l body ;;; k) (flat_map sb l ++ s) fin b.
Proof.
  intros Hb Hk. exact (refines_bind _ _ _ _ _ tt _ (refines_for_each l body sb Hb) Hk).
Qed.

Lemma refines_say {B} (t : string) (k : prog B) s fin b :
  refines k s fin b -> refines (print t ;;; k) (Say t :: s) fin b.
Proof. intros Hk. exact (refines_bind _ _ [Say t] _ _ tt _ (refines_print t) Hk). Qed.

Lemma refines_run_command {B} (c : string) (cwd : option Path) (k : prog B) s fin b :
  refines k s fin b -> refines (run_command c cwd ;;; k) (Run c cwd :: s) fin b.
Proof.
  intros Hk W h w. rewrite exec_bind. unfold run_command.
  rewrite exec_try_except. unfold subprocess_run. simpl.
  destruct (h (Shell c cwd) w) as [[e|cp] w1]; simpl.
  - destruct e; reflexivity.
  - destruct (returncode cp =? 0)%Z; simpl; [|reflexivity].
    rewrite Hk. destruct (run_script h s fin w1) as [[st l] w']. reflexivity.
Qed.

Lemma refines_venv (h : host) (p : Path) :
  refines (create_and_activate_venv h p) (venv_steps p) Completes (venv_paths h p).
Proof.
  intros W hd w. unfold create_and_activate_venv, venv_steps, venv_paths. simpl.
  destruct (hd (Venv_create (p / "venv") true) w) as [[e|[]] w1]; simpl; [reflexivity|].
  destruct (is_windows h); reflexivity.
Qed.

Lemma django_readme_formats (project_name : string) :
  format django_templates.README_TEMPLATE project_name
  = Formatted (django_script.readme project_name).
Proof. unfold django_script.readme. vm_compute. reflexivity. Qed.

Lemma fastapi_setup_raises (project_name : string) :
  format fastApi_templates.SETUP_TEMPLATE project_name
  = FormatError fastapi_script.setup_error.
Proof. vm_compute. reflexivity. Qed.

Lemma refines_django_app (project_path : Path) (app_name : string) :
  refines (django.create_django_app project_path app_name)
    (django_script.app project_path app_name) Completes tt.
Proof.
  unfold django.create_django_app, django_script.app. cbv zeta.
  apply refines_perform.
  do 7 apply refines_file.
  apply refines_perform with (s := file_steps _ _).
  apply refines_create_file.
Qed.

Lemma refines_django_materialize (project_name : string) :
  refines (django.materialize project_name)
    (django_script.materialize project_name) Completes tt.
Proof.
  unfold django.materialize, django_script.materialize. cbv zeta.
  apply refines_perform.
  do 6 apply refines_file.
  apply refines_perform.
  do 2 (eapply refines_bind; [apply refines_django_app|]).
  do 3 apply refines_file.
  unfold format_. rewrite django_readme_formats. simpl.
  apply refines_create_file.
Qed.

Lemma refines_django_provision (h : host) (project_name : string) :
  refines (django.provision h project_name)
    (django_script.provision h project_name) Completes
    (venv_paths h (PurePath project_name)).1.1.
Proof.
  unfold django.provision, django_script.provision. cbv zeta.
  destruct (venv_paths h (PurePath project_name)) as [[a py] pip] eqn:E.
  apply refines_say, refines_run_command, refines_say.
  eapply refines_bind; [apply refines_venv|]. rewrite E.
  apply refines_say. do 2 apply refines_run_command.
  apply refines_say. apply refines_run_command with (s := []).
  apply refines_ret.
Qed.

Lemma refines_django (h : host) (project_name : string) :
  refines (django.create_project_structure h project_name)
    (django_script.materialize project_name ++ django_script.provision h project_name)
    Completes (venv_paths h (PurePath project_name)).1.1.
Proof.
  unfold django.create_project_structure.
  eapply refines_bind; [apply refines_django_materialize|apply refines_django_provision].
Qed.

Lemma refines_fastapi_materialize (project_name : string) :
  refines (fastapi.materialize project_name)
    (fastapi_script.materialize project_name) (Raises fastapi_script.setup_error) tt.
Proof.
  unfold fastapi.materialize, fastapi_script.materialize, fastapi_script.files.
  cbv zeta.
  apply refines_say.
  apply refines_loop.
  { intros d. apply refines_perform with (s := [Sys _]).
    intros W h w. simpl. destruct (h (Touch (d / "__init__.py")) w) as [[e|[]] w1]; reflexivity. }
  apply refines_say.
  apply refines_loop; [intros [f c]; apply refines_create_file|].
  apply refines_say.
  apply refines_loop.
  { intros u. apply refines_for_each. intros [f c]. apply refines_create_file. }
  apply refines_say.
  apply refines_loop; [intros [f c]; apply refines_create_file|].
  apply refines_loop; [intros u; apply refines_create_file|].
  apply refines_say.
  apply refines_last, refines_file.
  unfold format_. rewrite fastapi_setup_raises. simpl.
  apply refines_raise.
Qed.

Lemma run_script_raises {W} (hd : world W) (s : list step) (e : exn) (w : W) :
  (run_script hd s (Raises e) w).1.1 <> Done.
Proof.
  revert w. induction s as [|[t|ev|c cwd] s IH]; intros w; simpl.
  - discriminate.
  - specialize (IH w). destruct (run_script hd s _ w) as [[st l1] w1]. exact IH.
  - destruct (hd ev w) as [[e'|v] w1]; [discriminate|].
    specialize (IH w1). destruct (run_script hd s _ w1) as [[st l1] w2]. exact IH.
  - destruct (hd (Shell c cwd) w) as [[e'|cp] w1]; [destruct e'; discriminate|].
    destruct (returncode cp =? 0)%Z; [|discriminate].
    specialize (IH w1). destruct (run_script hd s _ w1) as [[st l1] w2]. exact IH.
Qed.

Lemma refines_fastapi (h : host) (project_name : string) (a : string) :
  refines (fastapi.create_project_structure h project_name)
    (fastapi_script.materialize project_name) (Raises fastapi_script.setup_error) a.
Proof.
  intros W hd w. unfold fastapi.create_project_structure.
  rewrite exec_bind, refines_fastapi_materialize.
  pose proof (run_script_raises hd (fastapi_script.materialize project_name)
                fastapi_script.setup_error w) as Hne.
  destruct (run_script hd _ _ w) as [[st l] w']. simpl in *.
  destruct st; try reflexivity. congruence.
Qed.

Lemma refines_fastapi_provision (h : host) (project_name : string) :
  refines (fastapi.provision h project_name)
    (fastapi_script.provision h project_name) Completes
    (venv_paths h (PurePath project_name)).1.1.
Proof.
  unfold fastapi.provision, fastapi_script.provision. cbv zeta.
  destruct (venv_paths h (PurePath project_name)) as [[a py] pip] eqn:E.
  apply refines_say, refines_run_command, refines_say.
  eapply refines_bind; [apply refines_venv|]. rewrite E.
  apply refines_say. apply refines_run_command.
  apply refines_run_command with (s := []).
  apply refines_ret.
Qed.

Lemma refines_provision (g : generator) (h : host) (project_name : string) :
  refines (provision g h project_name) (provision_script g h project_name) Completes
    (venv_paths h (PurePath project_name)).1.1.
Proof. destruct g; [apply refines_django_provision|apply refines_fastapi_provision]. Qed.

Lemma refines_create_project_structure (g : generator) (h : host) (project_name : string) :
  refines (create_project_structure g h project_name) (script g h project_name)
    (script_end g) (venv_paths h (PurePath project_name)).1.1.
Proof.
  destruct g; [apply refines_django|].
  apply refines_fastapi.
Qed.

(** [main] with one argument: the banner, the script, the report. *)
Lemma main_runs (g : generator) (h : host) (prog_name project_name : string)
    {W} (hd : world W) (w : W) :
  exec hd (main g h [prog_name; project_name]) w =
  report (banner g project_name) (success g h project_name)
    (run_script hd (script g h project_name) (script_end g) w).
Proof.
  pose proof (refines_create_project_structure g h project_name W hd) as R.
  destruct g; simpl main;
    [unfold django.main|unfold fastapi.main]; simpl negb; cbv iota;
    change (nth 1 [prog_name; project_name] "") with project_name;
    cbn [bind print]; cbn [exec];
    rewrite exec_try_except, exec_bind; simpl create_project_structure in R;
    rewrite R; unfold report, finish;
    destruct (run_script hd _ _ w) as [[[|e|c] l] w']; simpl; try reflexivity.
  all: destruct (is_windows h) eqn:E; unfold success, activate_cmd; rewrite E; reflexivity.
Qed.

(** ** What a run of a flat script looks like *)

Section RunScript.
Context {W : Type} (hd : world W).

(** The effects of a run are the first effects of the script, and all of
    them when the script runs to its end. *)
Lemma run_script_prefix (s : list step) fin (w : W) :
  events (run_script hd s fin w).1.2 `prefix_of` step_events s.
Proof.
  revert w. induction s as [|[t|ev|c cwd] s IH]; intros w; simpl.
  - reflexivity.
  - specialize (IH w). destruct (run_script hd s fin w) as [[st l] w']. exact IH.
  - destruct (hd ev w) as [[e|v] w1]; simpl.
    + exists (step_events s). reflexivity.
    + specialize (IH w1). destruct (run_script hd s fin w1) as [[st l] w']. simpl in *.
      apply prefix_cons. exact IH.
  - destruct (hd (Shell c cwd) w) as [[e|cp] w1]; simpl.
    + destruct e; simpl; exists (step_events s); reflexivity.
    + destruct (returncode cp =? 0)%Z; simpl.
      * specialize (IH w1). destruct (run_script hd s fin w1) as [[st l] w']. simpl in *.
        apply prefix_cons. exact IH.
      * exists (step_events s). reflexivity.
Qed.

Lemma run_script_done (s : list step) fin (w : W) l w' :
  run_script hd s fin w = (Done, l, w') -> events l = step_events s.
Proof.
  revert w l w'. induction s as [|[t|ev|c cwd] s IH]; intros w l w'; simpl.
  - intros [= _ <- _]. reflexivity.
  - destruct (run_script hd s fin w) as [[st l1] w1] eqn:E. intros [= -> <- _].
    simpl. eauto.
  - destruct (hd ev w) as [[e|v] w1]; [discriminate|].
    destruct (run_script hd s fin w1) as [[st l1] w2] eqn:E. intros [= -> <- _].
    simpl. f_equal. eauto.
  - destruct (hd (Shell c cwd) w) as [[e|cp] w1]; [destruct e; discriminate|].
    destruct (returncode cp =? 0)%Z; [|discriminate].
    destruct (run_script hd s fin w1) as [[st l1] w2] eqn:E. intros [= -> <- _].
    simpl. f_equal. eauto.
Qed.

(** An exception of a library call other than a child process ends the
    run on the spot, uncaught. *)
Lemma run_script_raised (s : list step) fin (w : W) st l w' l1 x l2 ev e :
  run_script hd s fin w = (st, l, w') ->
  l = l1 ++ x :: l2 -> raised x = Some (ev, e) -> is_shell ev = false ->
  st = Failed e /\ l2 = [].
Proof.
  revert w st l l1 w'. induction s as [|[t|ev0|c cwd] s IH]; intros w st l l1 w'; simpl.
  - intros [= _ <- _] H. destruct l1; discriminate.
  - destruct (run_script hd s fin w) as [[st1 l'] w1] eqn:E. intros [= <- <- _] H Hx Hs.
    destruct l1 as [|y l1]; simpl in H; injection H as <- H; [discriminate|]. eauto.
  - destruct (hd ev0 w) as [[e0|v] w1].
    + intros [= <- <- _] H Hx Hs.
      destruct l1 as [|y l1]; simpl in H; injection H as <- H.
      * simpl in Hx. injection Hx as -> ->. subst l2. auto.
      * destruct l1; discriminate.
    + destruct (run_script hd s fin w1) as [[st1 l'] w2] eqn:E. intros [= <- <- _] H Hx Hs.
      destruct l1 as [|y l1]; simpl in H; injection H as <- H; [discriminate|]. eauto.
  - destruct (hd (Shell c cwd) w) as [[e0|cp] w1].
    + intros Hrun H Hx Hs. exfalso.
      assert (exists rest, l = Did (Shell c cwd) (inl e0) :: rest
                /\ Forall (fun y => raised y = None) rest) as (rest & -> & Hrest).
      { destruct e0; injection Hrun as _ <- _; eexists;
          (split; [reflexivity|]); repeat constructor. }
      destruct l1 as [|y l1]; simpl in H; injection H as <- H.
      * simpl in Hx. injection Hx as <- _. discriminate.
      * rewrite H in Hrest. apply Forall_app in Hrest as [_ Hrest].
        apply Forall_cons in Hrest as [Hrest _]. congruence.
    + destruct (returncode cp =? 0)%Z.
      * destruct (run_script hd s fin w1) as [[st1 l'] w2] eqn:E. intros [= <- <- _] H Hx Hs.
        destruct l1 as [|y l1]; simpl in H; injection H as <- H; [discriminate|]. eauto.
      * intros [= <- <- _] H Hx Hs. exfalso.
        destruct l1 as [|y l1]; simpl in H; injection H as <- H; [discriminate|].
        destruct l1 as [|y l1]; simpl in H; injection H as <- H; [discriminate|].
        destruct l1 as [|y l1]; simpl in H; injection H as <- H; [discriminate|].
        destruct l1; discriminate.
Qed.

(** A child that returns a non-zero status ends the run with the two
    lines of [run_command] and status 1. *)
Lemma run_script_nonzero (s : list step) fin (w : W) st l w' l1 x l2 c err :
  commands_checked s = true ->
  run_script hd s fin w = (st, l, w') ->
  l = l1 ++ x :: l2 -> returned_nonzero x = Some (c, err) ->
  st = Quit 1 /\ l2 = command_failed c err.
Proof.
  revert w st l l1 w'. induction s as [|[t|ev0|c0 cwd] s IH]; intros w st l l1 w'; simpl.
  - intros _ [= _ <- _] H. destruct l1; discriminate.
  - intros Hc. destruct (run_script hd s fin w) as [[st1 l'] w1] eqn:E.
    intros [= <- <- _] H Hx.
    destruct l1 as [|y l1]; simpl in H; injection H as <- H; [discriminate|]. eauto.
  - intros Hc. apply andb_prop in Hc as [Hev Hc].
    destruct (hd ev0 w) as [[e0|v] w1].
    + intros [= <- <- _] H Hx.
      destruct l1 as [|y l1]; simpl in H; injection H as <- H.
      * destruct ev0; discriminate.
      * destruct l1; discriminate.
    + destruct (run_script hd s fin w1) as [[st1 l'] w2] eqn:E. intros [= <- <- _] H Hx.
      destruct l1 as [|y l1]; simpl in H; injection H as <- H; [|eauto].
      destruct ev0; discriminate.
  - intros Hc. destruct (hd (Shell c0 cwd) w) as [[e0|cp] w1].
    + intros Hrun H Hx. exfalso.
      assert (exists rest, l = Did (Shell c0 cwd) (inl e0) :: rest
                /\ Forall (fun y => returned_nonzero y = None) rest) as (rest & -> & Hrest).
      { destruct e0; injection Hrun as _ <- _; eexists;
          (split; [reflexivity|]); repeat constructor. }
      destruct l1 as [|y l1]; simpl in H; injection H as <- H.
      * discriminate.
      * rewrite H in Hrest. apply Forall_app in Hrest as [_ Hrest].
        apply Forall_cons in Hrest as [Hrest _]. congruence.
    + destruct (returncode cp =? 0)%Z eqn:Hrc.
      * destruct (run_script hd s fin w1) as [[st1 l'] w2] eqn:E. intros [= <- <- _] H Hx.
        destruct l1 as [|y l1]; simpl in H; injection H as <- H; [|eauto].
        simpl in Hx. rewrite Hrc in Hx. discriminate.
      * intros [= <- <- _] H Hx.
        destruct l1 as [|y l1]; simpl in H; injection H as <- H.
        { simpl in Hx. rewrite Hrc in Hx. injection Hx as <- <-. subst l2. auto. }
        exfalso.
        destruct l1 as [|y l1]; simpl in H; injection H as <- H; [discriminate|].
        destruct l1 as [|y l1]; simpl in H; injection H as <- H; [discriminate|].
        destruct l1; discriminate.
Qed.

End RunScript.

(** ** The orchestrator: [main] around the script *)

Lemma split_snoc {X} (l0 : list X) (p : X) l1 x l2 :
  l0 ++ [p] = l1 ++ x :: l2 ->
  (exists l2', l0 = l1 ++ x :: l2' /\ l2 = l2' ++ [p]) \/ (l0 = l1 /\ x = p /\ l2 = []).
Proof.
  revert l1. induction l0 as [|a l0 IH]; intros [|y l1] H; simpl in H.
  - injection H as <- <-. right. auto.
  - injection H as _ H. destruct l1; discriminate.
  - injection H as <- H. left. exists l0. auto.
  - injection H as <- H. destruct (IH _ H) as [(l2' & -> & ->)|(-> & -> & ->)].
    + left. exists l2'. auto.
    + right. auto.
Qed.

(** Where an effect of a run of [main] sits: inside the run of the script,
    followed by what the script and the report still print. *)
Lemma report_split {W} (start finished : string) st l0 (w' : W) o l w'' l1 x l2 :
  report start finished (st, l0, w') = (o, l, w'') ->
  l = l1 ++ x :: l2 -> is_effect x ->
  exists l1' l2', l0 = l1' ++ x :: l2' /\
    match st with
    | Done => o = Returned tt /\ l2 = l2' ++ [Printed finished]
    | Failed e =>
        o = Exited 1 /\ l2 = l2' ++ [Printed ("Error creating project: " +:+ str_exn e)]
    | Quit c => o = Exited c /\ l2 = l2'
    end.
Proof.
  intros Hr H Hx. unfold report in Hr.
  destruct st as [|e|c]; injection Hr as <- <- _;
    (destruct l1 as [|y l1]; simpl in H; injection H as <- H; [destruct Hx|]).
  - apply split_snoc in H as [(l2' & -> & ->)|(_ & -> & _)]; [eauto|destruct Hx].
  - apply split_snoc in H as [(l2' & -> & ->)|(_ & -> & _)]; [eauto|destruct Hx].
  - eauto.
Qed.

Lemma script_commands_checked (g : generator) (h : host) (project_name : string) :
  commands_checked (script g h project_name) = true.
Proof.
  destruct g; unfold script, django_script.provision, venv_paths;
    destruct (is_windows h); vm_compute; reflexivity.
Qed.

Lemma provision_commands_checked (g : generator) (h : host) (project_name : string) :
  commands_checked (provision_script g h project_name) = true.
Proof.
  destruct g; unfold provision_script, django_script.provision,
    fastapi_script.provision, venv_paths;
    destruct (is_windows h); vm_compute; reflexivity.
Qed.

Lemma raised_is_effect (x : entry) p : raised x = Some p -> is_effect x.
Proof. destruct x; [discriminate|exact (fun _ => I)]. Qed.

Lemma returned_nonzero_is_effect (x : entry) p : returned_nonzero x = Some p -> is_effect x.
Proof. destruct x; [discriminate|exact (fun _ => I)]. Qed.

(** ** The claims *)

(** C4.  With any number of arguments other than one ([sys.argv] of a
    length other than two), either generator prints its usage line and
    leaves with status 1: the log holds that line and no effect, and the
    world is as it was. *)
Theorem usage_error (g : generator) (h : host) (argv : list string)
    {W} (hd : world W) (w : W) :
  length argv <> 2 ->
  exec hd (main g h argv) w = (Exited 1, [Printed (usage g)], w).
Proof.
  intros Hn.
  destruct g; simpl; [unfold django.main|unfold fastapi.main];
    destruct (length argv =? 2)%nat eqn:E;
    try (apply Nat.eqb_eq in E; contradiction); reflexivity.
Qed.

Lemma usage_error_witness :
  exec (MemFS.handle linux) (main FastAPI linux ["create_fast_api_project.py"; "a"; "b"])
    MemFS.fresh
  = (Exited 1, [Printed "Usage: python create_project.py project_name"], MemFS.fresh).
Proof. apply (usage_error FastAPI linux). simpl. lia. Defined.

(** C3.  The command runner: when the child returns status zero,
    [run_command] returns its captured output; when it returns any other
    status, [run_command] prints the command and the captured error
    stream and leaves with status 1.  In a run of either [main], and in a
    run of either provisioning half alone, nothing follows a child with a
    non-zero status but these two lines, and the process ends with
    status 1. *)
Theorem command_failure_is_fatal {W} (hd : world W) (w : W) (command : string)
    (cwd : option Path) (cp : CompletedProcess) (w1 : W) :
  hd (Shell command cwd) w = (inr cp, w1) ->
  exec hd (run_command command cwd) w
  = (if (returncode cp =? 0)%Z
     then (Returned (stdout cp), [Did (Shell command cwd) (inr cp)], w1)
     else (Exited 1,
           [Did (Shell command cwd) (inr cp);
            Printed ("Error running command: " +:+ command);
            Printed ("Error: " +:+ stderr cp)], w1))
  /\ (forall g h prog_name project_name w0 o l w' l1 x l2 c err,
        exec hd (main g h [prog_name; project_name]) w0 = (o, l, w') ->
        l = l1 ++ x :: l2 -> returned_nonzero x = Some (c, err) ->
        exit_status o = 1%Z
        /\ l2 = [Printed ("Error running command: " +:+ c); Printed ("Error: " +:+ err)])
  /\ (forall g h project_name w0 o l w' l1 x l2 c err,
        exec hd (provision g h project_name) w0 = (o, l, w') ->
        l = l1 ++ x :: l2 -> returned_nonzero x = Some (c, err) ->
        exit_status o = 1%Z
        /\ l2 = [Printed ("Error running command: " +:+ c); Printed ("Error: " +:+ err)]).
Proof.
  intros Hans. split; [|split].
  - unfold run_command. rewrite exec_try_except. unfold subprocess_run. simpl.
    rewrite Hans. simpl. destruct (returncode cp =? 0)%Z; reflexivity.
  - intros g h prog_name project_name w0 o l w' l1 x l2 c err Hrun Hl Hx.
    rewrite main_runs in Hrun.
    destruct (run_script hd (script g h project_name) (script_end g) w0)
      as [[st l0] w2] eqn:E.
    destruct (report_split _ _ _ _ _ _ _ _ _ _ _ Hrun Hl
                (returned_nonzero_is_effect _ _ Hx)) as (l1' & l2' & Hl0 & Hst).
    destruct (run_script_nonzero hd _ _ _ _ _ _ _ _ _ _ _
                (script_commands_checked g h project_name) E Hl0 Hx) as [-> ->].
    destruct Hst as [-> ->]. auto.
  - intros g h project_name w0 o l w' l1 x l2 c err Hrun Hl Hx.
    rewrite (refines_provision g h project_name) in Hrun.
    destruct (run_script hd (provision_script g h project_name) Completes w0)
      as [[st l0] w2] eqn:E.
    simpl in Hrun. injection Hrun as <- <- _.
    destruct (run_script_nonzero hd _ _ _ _ _ _ _ _ _ _ _
                (provision_commands_checked g h project_name) E Hl Hx) as [-> ->].
    auto.
Qed.

(** C9.  In a run of either [main], an exception raised by a call on the
    file system (mkdir, touch, open, write, chmod) or by the creation of
    the virtual environment is the last effect of the run; the top-level
    handler prints "Error creating project: " followed by the text of that
    very exception, and the process ends with status 1. *)
Theorem errors_reach_the_top_level (g : generator) (h : host)
    (prog_name project_name : string) {W} (hd : world W) (w : W) o l w' l1 x l2 ev e :
  exec hd (main g h [prog_name; project_name]) w = (o, l, w') ->
  l = l1 ++ x :: l2 -> raised x = Some (ev, e) -> is_shell ev = false ->
  o = Exited 1 /\ l2 = [Printed ("Error creating project: " +:+ str_exn e)].
Proof.
  intros Hrun Hl Hx Hs. rewrite main_runs in Hrun.
  destruct (run_script hd (script g h project_name) (script_end g) w)
    as [[st l0] w2] eqn:E.
  destruct (report_split _ _ _ _ _ _ _ _ _ _ _ Hrun Hl (raised_is_effect _ _ Hx))
    as (l1' & l2' & Hl0 & Hst).
  destruct (run_script_raised hd _ _ _ _ _ _ _ _ _ _ _ E Hl0 Hx Hs) as [-> ->].
  destruct Hst as [-> ->]. auto.
Qed.

Lemma errors_reach_the_top_level_witness :
  (exec (MemFS.handle linux) (main Django linux ["create_django_project.py"; "demo"])
     blocked).1.1 = Exited 1
  /\ [Printed "Error creating project: [Errno 20] Not a directory: 'demo/config'"]
     = [Printed ("Error creating project: "
                 +:+ str_exn (OSError "[Errno 20] Not a directory: 'demo/config'"))].
Proof.
  apply (errors_reach_the_top_level Django linux "create_django_project.py" "demo"
           (MemFS.handle linux) blocked _
           [Printed "Creating new Django project: demo";
            Did (Mkdir (PurePath "demo" / "config") true true)
              (inl (OSError "[Errno 20] Not a directory: 'demo/config'"));
            Printed "Error creating project: [Errno 20] Not a directory: 'demo/config'"]
           blocked
           [Printed "Creating new Django project: demo"]
           (Did (Mkdir (PurePath "demo" / "config") true true)
              (inl (OSError "[Errno 20] Not a directory: 'demo/config'")))
           _ (Mkdir (PurePath "demo" / "config") true true)).
  - vm_compute. reflexivity.
  - reflexivity.
  - reflexivity.
  - reflexivity.
Defined.

Lemma command_failure_is_fatal_witness :
  exec (MemFS.handle linux) (run_command "git init" None) git_fails
  = (Exited 1,
     [Did (Shell "git init" None)
        (inr {| returncode := 128; stdout := ""; stderr := "fatal: cannot mkdir .git" |});
      Printed "Error running command: git init";
      Printed "Error: fatal: cannot mkdir .git"], git_fails).
Proof.
  exact (proj1 (command_failure_is_fatal (MemFS.handle linux) git_fails "git init" None
                  {| returncode := 128; stdout := ""; stderr := "fatal: cannot mkdir .git" |}
                  git_fails eq_refl)).
Defined.

(** A run of the Django generator in which [git init] fails: nothing but
    the two lines of the command runner follows, and the status is 1. *)
Example git_failure_ends_the_django_run :
  let r := exec (MemFS.handle linux) (main Django linux ["create_django_project.py"; "demo"])
             git_fails in
  exit_status r.1.1 = 1%Z
  /\ events r.1.2
     = step_events (django_script.materialize "demo") ++ [Shell "git init" (Some (PurePath "demo"))]
  /\ last (printed r.1.2) = Some "Error: fatal: cannot mkdir .git".
Proof. vm_compute. auto. Qed.

Lemma events_app (l l' : list entry) : events (l ++ l') = events l ++ events l'.
Proof. apply omap_app. Qed.

Lemma step_events_app (s s' : list step) :
  step_events (s ++ s') = step_events s ++ step_events s'.
Proof. apply omap_app. Qed.

(** The report of [main] adds lines, not effects. *)
Lemma events_report {W} (start finished : string) (r : status * list entry * W) :
  events (report start finished r).1.2 = events r.1.2.
Proof.
  destruct r as [[[|e|c] l] w]; simpl; rewrite ?events_app, ?app_nil_r; reflexivity.
Qed.

Lemma provision_script_events (g : generator) (h : host) (project_name : string) :
  step_events (provision_script g h project_name) = provisioning_events g h project_name.
Proof.
  destruct g; unfold provision_script, django_script.provision, fastapi_script.provision,
    provisioning_events, venv_paths; destruct (is_windows h); reflexivity.
Qed.

Lemma materialize_not_provisioning (g : generator) (project_name : string) :
  forallb (fun ev => negb (is_provisioning ev)) (step_events (materialize_script g project_name))
  = true.
Proof. destruct g; vm_compute; reflexivity. Qed.

Lemma prefix_past (M P l1 l2 : list event) (ev : event) :
  forallb (fun ev => negb (is_provisioning ev)) M = true ->
  is_provisioning ev = true ->
  (l1 ++ ev :: l2) `prefix_of` (M ++ P) -> M `prefix_of` l1.
Proof.
  revert l1. induction M as [|m M IH]; intros l1 HM Hev Hp.
  - apply prefix_nil.
  - simpl in HM. apply andb_prop in HM as [Hm HM].
    destruct l1 as [|y l1]; simpl in Hp.
    + destruct Hp as [k Hk]. simpl in Hk. injection Hk as <- _.
      rewrite Hev in Hm. discriminate.
    + destruct Hp as [k Hk]. simpl in Hk. injection Hk as <- Hk.
      apply prefix_cons, IH; [assumption..|]. exists k. exact Hk.
Qed.

Lemma script_events (g : generator) (h : host) (project_name : string) :
  exists P, step_events (script g h project_name)
            = step_events (materialize_script g project_name) ++ P
            /\ (script_end g = Completes -> P = provisioning_events g h project_name).
Proof.
  destruct g; unfold script, materialize_script, script_end.
  - exists (provisioning_events Django h project_name).
    rewrite step_events_app.
    change (django_script.provision h project_name)
      with (provision_script Django h project_name).
    rewrite provision_script_events. auto.
  - exists []. rewrite app_nil_r. split; [reflexivity|discriminate].
Qed.

(** C2.  The order of the steps.  A run of either [main] that succeeds has
    performed, in this order, every effect of the template files, then
    [git init], the creation of the virtual environment, the upgrade of
    the installer, the installation, and for Django the migration (for
    FastAPI the installation is the editable install).  The second half
    alone, run to its end, performs exactly these provisioning effects in
    this order.  And in any run of [main], successful or not, every effect
    of the template files comes before the first provisioning effect. *)
Theorem steps_in_order (g : generator) (h : host) (prog_name project_name : string)
    {W} (hd : world W) (w : W) :
  (forall l w',
     exec hd (main g h [prog_name; project_name]) w = (Returned tt, l, w') ->
     events l = step_events (materialize_script g project_name)
                ++ provisioning_events g h project_name)
  /\ (forall a l w',
        exec hd (provision g h project_name) w = (Returned a, l, w') ->
        events l = provisioning_events g h project_name)
  /\ (forall o l w' l1 ev l2,
        exec hd (main g h [prog_name; project_name]) w = (o, l, w') ->
        events l = l1 ++ ev :: l2 -> is_provisioning ev = true ->
        step_events (materialize_script g project_name) `prefix_of` l1).
Proof.
  split; [|split].
  - intros l w' Hrun. rewrite main_runs in Hrun.
    destruct (run_script hd (script g h project_name) (script_end g) w)
      as [[st l0] w2] eqn:E.
    destruct st as [|e|c]; try discriminate.
    injection Hrun as <- _. simpl. rewrite events_app. simpl. rewrite app_nil_r.
    rewrite (run_script_done hd _ _ _ _ _ E).
    destruct (script_events g h project_name) as (P & -> & HP).
    rewrite HP; [reflexivity|].
    destruct g; [reflexivity|].
    pose proof (run_script_raises hd (script FastAPI h project_name)
                  fastapi_script.setup_error w) as Hne.
    simpl in E. simpl in Hne. rewrite E in Hne. contradiction.
  - intros a l w' Hrun. rewrite (refines_provision g h project_name) in Hrun.
    destruct (run_script hd (provision_script g h project_name) Completes w)
      as [[st l0] w2] eqn:E.
    destruct st as [|e|c]; try discriminate. injection Hrun as _ <- _.
    rewrite (run_script_done hd _ _ _ _ _ E). apply provision_script_events.
  - intros o l w' l1 ev l2 Hrun Hl Hev.
    pose proof (events_report (banner g project_name) (success g h project_name)
                  (run_script hd (script g h project_name) (script_end g) w)) as Hr.
    rewrite <- (main_runs g h prog_name project_name hd w), Hrun in Hr. simpl in Hr.
    pose proof (run_script_prefix hd (script g h project_name) (script_end g) w) as Hp.
    rewrite <- Hr, Hl in Hp.
    destruct (script_events g h project_name) as (P & HP & _). rewrite HP in Hp.
    exact (prefix_past _ _ _ _ _ (materialize_not_provisioning g project_name) Hev Hp).
Qed.

Lemma steps_in_order_witness :
  events (exec always_ok (main Django linux ["create_django_project.py"; "demo"]) tt).1.2
  = step_events (materialize_script Django "demo")
    ++ provisioning_events Django linux "demo".
Proof.
  apply (proj1 (steps_in_order Django linux "create_django_project.py" "demo"
                  always_ok tt) _ tt).
  vm_cast_no_check
    (@eq_refl _ (exec always_ok (main Django linux ["create_django_project.py"; "demo"]) tt)).
Defined.
Lemma append_assoc (a b c : string) : (a +:+ b) +:+ c = a +:+ (b +:+ c).
Proof.
  induction a as [|x a IH]; [reflexivity|].
  change (String x ((a +:+ b) +:+ c) = String x (a +:+ (b +:+ c))).
  f_equal. exact IH.
Qed.

Lemma joinpath_plain (p : Path) (seg : string) :
  PurePath seg = mkPath "" [seg] -> joinpath p seg = under p [seg].
Proof. intros H. unfold joinpath, under. rewrite H. reflexivity. Qed.

Lemma under_under (base : Path) (r r' : list string) :
  under (under base r) r' = under base (r ++ r').
Proof. unfold under. simpl. rewrite app_assoc. reflexivity. Qed.

Lemma join_snoc (s : string) (l : list string) (x : string) :
  l <> [] -> join s (l ++ [x]) = join s l +:+ s +:+ x.
Proof.
  induction l as [|a l IH]; [congruence|]. intros _.
  destruct l as [|b l]; [reflexivity|].
  change (join s ((a :: b :: l) ++ [x])) with (a +:+ s +:+ join s ((b :: l) ++ [x])).
  rewrite IH by discriminate.
  change (join s (a :: b :: l)) with (a +:+ s +:+ join s (b :: l)).
  rewrite !append_assoc. reflexivity.
Qed.

Lemma str_path_parts (h : host) (p : Path) :
  parts p <> [] -> str_path h p = anchor p +:+ join (sep h) (parts p).
Proof.
  intros Hp. unfold str_path. destruct (parts p); [congruence|].
  destruct (anchor p); reflexivity.
Qed.

Lemma str_path_snoc (h : host) (p : Path) (x : string) :
  parts p <> [] -> str_path h (under p [x]) = str_path h p +:+ sep h +:+ x.
Proof.
  intros Hp. rewrite !str_path_parts; [|assumption|].
  - unfold under. simpl. rewrite join_snoc by assumption.
    rewrite !append_assoc. reflexivity.
  - unfold under. simpl. intros H. apply app_eq_nil in H as [_ H]. discriminate.
Qed.

(** C5.  The environment provisioner.  When [venv.create] succeeds,
    [create_and_activate_venv] returns three strings, each the path of the
    environment [project_path/venv] followed by the host's layout: on
    Windows [Scripts] with [activate.bat], [python.exe] and [pip.exe], on
    any other system [bin] with [activate], [python] and [pip].  Its only
    effect is the creation of the environment: it asks the file system
    nothing about the three files. *)
Theorem venv_layout (h : host) (project_path : Path) {W} (hd : world W) (w w1 : W) :
  hd (Venv_create (project_path / "venv") true) w = (inr tt, w1) ->
  let venv := str_path h (project_path / "venv") in
  let dir := if is_windows h then "Scripts" else "bin" in
  let suffix := if is_windows h then ".exe" else "" in
  let script := if is_windows h then "activate.bat" else "activate" in
  exec hd (create_and_activate_venv h project_path) w
  = (Returned (venv +:+ sep h +:+ dir +:+ sep h +:+ script,
               venv +:+ sep h +:+ dir +:+ sep h +:+ ("python" +:+ suffix),
               venv +:+ sep h +:+ dir +:+ sep h +:+ ("pip" +:+ suffix)),
     [Printed "Creating virtual environment...";
      Did (Venv_create (project_path / "venv") true) (inr tt)], w1).
Proof.
  intros Hans. cbv zeta.
  rewrite (refines_venv h project_path). unfold venv_steps. simpl run_script.
  rewrite Hans. unfold finish, venv_paths.
  assert (forall x y : string, PurePath x = mkPath "" [x] -> PurePath y = mkPath "" [y] ->
            str_path h (project_path / "venv" / x / y)
            = str_path h (project_path / "venv") +:+ sep h +:+ x +:+ sep h +:+ y) as Hp.
  { intros x y Hx Hy.
    rewrite (joinpath_plain _ y Hy), (joinpath_plain _ x Hx).
    rewrite (joinpath_plain _ "venv" eq_refl).
    rewrite str_path_snoc, str_path_snoc, !append_assoc; [reflexivity|..];
      unfold under; simpl; intros H; apply app_eq_nil in H as [H1 H2]; discriminate. }
  destruct (is_windows h); rewrite !Hp by reflexivity; reflexivity.
Qed.

Lemma venv_layout_witness :
  (exec always_ok (create_and_activate_venv linux (PurePath "demo")) tt).1.1
  = Returned ("demo/venv/bin/activate", "demo/venv/bin/python", "demo/venv/bin/pip").
Proof.
  rewrite (venv_layout linux (PurePath "demo") always_ok tt tt eq_refl). reflexivity.
Defined.

Example venv_layout_windows :
  (exec always_ok (create_and_activate_venv windows (PurePath "demo")) tt).1.1
  = Returned ("demo\venv\Scripts\activate.bat", "demo\venv\Scripts\python.exe",
              "demo\venv\Scripts\pip.exe").
Proof. reflexivity. Qed.

(** When [venv.create] raises, the exception leaves the function as it is. *)
Lemma venv_failure_propagates (h : host) (project_path : Path) {W} (hd : world W)
    (w w1 : W) (e : exn) :
  hd (Venv_create (project_path / "venv") true) w = (inl e, w1) ->
  exec hd (create_and_activate_venv h project_path) w
  = (Uncaught e,
     [Printed "Creating virtual environment...";
      Did (Venv_create (project_path / "venv") true) (inl e)], w1).
Proof.
  intros Hans. rewrite (refines_venv h project_path). unfold venv_steps. simpl.
  rewrite Hans. reflexivity.
Qed.
Lemma materialize_plan (g : generator) (project_name : string) :
  materialize_script g project_name
  = flat_map (op_steps (PurePath project_name)) (plan g project_name).
Proof. destruct g; reflexivity. Qed.

Lemma descend_under (base : Path) (rel : list string) : descend base rel = under base rel.
Proof.
  unfold descend. revert base. induction rel as [|a rel IH]; intros base; simpl.
  - destruct base. unfold under. simpl. rewrite app_nil_r. reflexivity.
  - rewrite IH, under_under. reflexivity.
Qed.

Lemma under_inj (base : Path) : Inj eq eq (under base).
Proof. intros r r' H. unfold under in H. injection H as H. exact (app_inv_head _ _ _ H). Qed.

Lemma descend_inj (base : Path) : Inj eq eq (descend base).
Proof. intros r r' H. rewrite !descend_under in H. exact (under_inj base _ _ H). Qed.

(** The effects of a plan, read off its operations. *)
Lemma plan_writes (base : Path) (ops : list op) :
  writes_of (step_events (flat_map (op_steps base) ops))
  = (fun rc => (descend base rc.1, rc.2)) <$> plan_files ops.
Proof.
  induction ops as [|o ops IH]; [reflexivity|].
  destruct o; simpl; try exact IH; f_equal; exact IH.
Qed.

Lemma plan_written (base : Path) (ops : list op) :
  written (step_events (flat_map (op_steps base) ops))
  = descend base <$> (fst <$> plan_files ops).
Proof.
  induction ops as [|o ops IH]; [reflexivity|].
  destruct o; simpl; try exact IH; f_equal; exact IH.
Qed.

Lemma plan_opened (base : Path) (ops : list op) :
  opened (step_events (flat_map (op_steps base) ops))
  = descend base <$> (fst <$> plan_files ops).
Proof.
  induction ops as [|o ops IH]; [reflexivity|].
  destruct o; simpl; try exact IH; f_equal; exact IH.
Qed.

Lemma plan_touches (base : Path) (ops : list op) :
  touched (step_events (flat_map (op_steps base) ops))
  = descend base <$> plan_touched ops.
Proof.
  induction ops as [|o ops IH]; [reflexivity|].
  destruct o; simpl; try exact IH; f_equal; exact IH.
Qed.

Lemma plan_chmods (base : Path) (ops : list op) :
  chmods (step_events (flat_map (op_steps base) ops))
  = (fun rm => (descend base rm.1, rm.2)) <$> plan_modes ops.
Proof.
  induction ops as [|o ops IH]; [reflexivity|].
  destruct o; simpl; try exact IH; f_equal; exact IH.
Qed.

(** No two operations of a plan write the same relative path, and no
    touched path is written. *)
Lemma plan_files_unique (g : generator) (project_name : string) :
  NoDup (fst <$> plan_files (plan g project_name)).
Proof. destruct g; apply (bool_decide_unpack _); vm_compute; exact I. Qed.

Lemma plan_touched_apart (g : generator) (project_name : string) :
  forall rel, rel ∈ plan_touched (plan g project_name) ->
              rel ∉ fst <$> plan_files (plan g project_name).
Proof.
  apply Forall_forall. destruct g; apply (bool_decide_unpack _); vm_compute; exact I.
Qed.

(** The provisioning half touches no file by itself. *)
Lemma script_file_events (g : generator) (h : host) (project_name : string) :
  let S := step_events (script g h project_name) in
  let M := step_events (materialize_script g project_name) in
  opened S = opened M /\ written S = written M /\ touched S = touched M
  /\ writes_of S = writes_of M /\ chmods S = chmods M.
Proof.
  destruct g; cbv zeta; unfold script; [|auto 10].
  rewrite step_events_app.
  change (django_script.provision h project_name)
    with (provision_script Django h project_name).
  rewrite provision_script_events.
  unfold opened, written, touched, writes_of, chmods. rewrite !omap_app.
  unfold provisioning_events. simpl. rewrite ?app_nil_r. auto 10.
Qed.

(** The effects of a run of [main] are the first effects of its script. *)
Lemma main_events_prefix (g : generator) (h : host) (prog_name project_name : string)
    {W} (hd : world W) (w : W) :
  events (exec hd (main g h [prog_name; project_name]) w).1.2
  `prefix_of` step_events (script g h project_name).
Proof.
  rewrite main_runs, events_report. apply run_script_prefix.
Qed.

Lemma omap_prefix {X Y} (f : X -> option Y) (l k : list X) :
  l `prefix_of` k -> omap f l `prefix_of` omap f k.
Proof. intros [t ->]. rewrite omap_app. eexists. reflexivity. Qed.

Lemma NoDup_prefix {X} (l k : list X) : l `prefix_of` k -> NoDup k -> NoDup l.
Proof. intros [t ->] H. apply NoDup_app in H as [H _]. exact H. Qed.

Lemma elem_of_prefix {X} (l k : list X) (x : X) : l `prefix_of` k -> x ∈ l -> x ∈ k.
Proof. intros [t ->] H. apply elem_of_app. auto. Qed.

(** C8.  In a run of either [main], in any world, no file is opened for
    writing twice and no file is written twice; and a file that is touched
    (a package marker of the FastAPI generator) is neither opened for
    writing nor written. *)
Theorem targets_are_unique (g : generator) (h : host) (prog_name project_name : string)
    {W} (hd : world W) (w : W) :
  let evs := events (exec hd (main g h [prog_name; project_name]) w).1.2 in
  NoDup (opened evs) /\ NoDup (written evs)
  /\ (forall p, p ∈ touched evs -> (p ∉ opened evs) /\ (p ∉ written evs)).
Proof.
  cbv zeta.
  pose proof (main_events_prefix g h prog_name project_name hd w) as Hp.
  destruct (script_file_events g h project_name) as (Ho & Hw & Ht & _).
  cbv zeta in Ho, Hw, Ht.
  rewrite materialize_plan in Ho, Hw, Ht.
  rewrite plan_opened in Ho. rewrite plan_written in Hw. rewrite plan_touches in Ht.
  assert (NoDup (descend (PurePath project_name)
                   <$> (fst <$> plan_files (plan g project_name)))) as Hnd.
  { pose proof (descend_inj (PurePath project_name)) as Hinj.
    apply (NoDup_fmap_2 _), plan_files_unique. }
  split; [|split].
  - rewrite <- Ho in Hnd. exact (NoDup_prefix _ _ (omap_prefix _ _ _ Hp) Hnd).
  - rewrite <- Hw in Hnd. exact (NoDup_prefix _ _ (omap_prefix _ _ _ Hp) Hnd).
  - intros p Hin.
    apply (elem_of_prefix _ _ _ (omap_prefix _ _ _ Hp)) in Hin.
    change (p ∈ touched (step_events (script g h project_name))) in Hin.
    rewrite Ht in Hin.
    apply list_elem_of_fmap in Hin as (rel & -> & Hrel).
    pose proof (plan_touched_apart g project_name rel Hrel) as Hno.
    assert (descend (PurePath project_name) rel
              ∉ descend (PurePath project_name)
                  <$> (fst <$> plan_files (plan g project_name))) as Hout.
    { intros Hin. apply list_elem_of_fmap in Hin as (rel' & Heq & Hrel').
      apply descend_inj in Heq. subst rel'. contradiction. }
    split; intros Hin.
    + apply (elem_of_prefix _ _ _ (omap_prefix _ _ _ Hp)) in Hin.
      change (descend (PurePath project_name) rel
                ∈ opened (step_events (script g h project_name))) in Hin.
      rewrite Ho in Hin. contradiction.
    + apply (elem_of_prefix _ _ _ (omap_prefix _ _ _ Hp)) in Hin.
      change (descend (PurePath project_name) rel
                ∈ written (step_events (script g h project_name))) in Hin.
      rewrite Hw in Hin. contradiction.
Qed.

(** ** The in-memory file system *)

Section MemFSFacts.
Context (h : host).
Import MemFS.

Lemma with_fs_id (st : state) : with_fs st (fs st) = st.
Proof. destruct st; reflexivity. Qed.

Lemma path_eta (p : Path) : mkPath (anchor p) (parts p) = p.
Proof. destruct p; reflexivity. Qed.

(** What [makedirs] returns holds every entry it was given, and the
    directory it was asked for. *)
Lemma makedirs_spec (a : string) (rest : list string) :
  forall pre m m', makedirs a pre rest m = Some m' ->
    (forall p n, m !! p = Some n -> m' !! p = Some n)
    /\ (rest <> [] -> m' !! mkPath a (pre ++ rest) = Some Dir).
Proof.
  induction rest as [|c rest IH]; intros pre m m' H; simpl in H.
  - injection H as <-. split; [auto|congruence].
  - destruct (m !! mkPath a (pre ++ [c])) as [[c0 md|]|] eqn:E; try discriminate.
    + destruct (IH _ _ _ H) as [Hk Hd]. split; [exact Hk|]. intros _.
      destruct rest as [|c' rest]; [apply Hk, E|].
      rewrite <- app_assoc in Hd. apply Hd. discriminate.
    + destruct (IH _ _ _ H) as [Hk Hd]. split.
      * intros p n Hp. apply Hk. rewrite lookup_insert_ne; [exact Hp|].
        intros <-. congruence.
      * intros _. destruct rest as [|c' rest].
        { apply Hk. apply lookup_insert_eq. }
        rewrite <- app_assoc in Hd. apply Hd. discriminate.
Qed.

Lemma frame_keep (ev : event) (m m' : gmap Path node) :
  (forall p n, m !! p = Some n -> m' !! p = Some n) -> frame ev m m'.
Proof. intros Hk. split; [auto|]. intros p c md Hp. exists c, md. auto. Qed.

Lemma frame_refl (ev : event) (m : gmap Path node) : frame ev m m.
Proof. apply frame_keep. auto. Qed.

Lemma frame_new (ev : event) (m : gmap Path node) (q : Path) (n : node) :
  m !! q = None -> frame ev m (<[q := n]> m).
Proof.
  intros Hq. apply frame_keep. intros p n' Hp.
  rewrite lookup_insert_ne; [exact Hp|]. intros <-. congruence.
Qed.

Lemma keeps_is_dir ct mt (m m' : gmap Path node) (p : Path) :
  keeps ct mt m m' -> is_dir m p = true -> is_dir m' p = true.
Proof.
  intros [Hd _]. unfold is_dir. destruct (parts p); [auto|].
  destruct (m !! p) as [[c md|]|] eqn:E; try discriminate.
  rewrite (Hd _ E). auto.
Qed.

Lemma is_dir_false (m : gmap Path node) (p : Path) (c : string) (md : Z) :
  parts p <> [] -> m !! p = Some (File c md) -> is_dir m p = false.
Proof. intros Hp E. unfold is_dir. rewrite E. destruct (parts p); congruence. Qed.

Lemma is_dir_parts (m : gmap Path node) (p : Path) : is_dir m p = false -> parts p <> [].
Proof. unfold is_dir. destruct (parts p); congruence. Qed.

Lemma is_dir_lookup (m : gmap Path node) (p : Path) :
  is_dir m p = false -> m !! p <> Some Dir.
Proof. unfold is_dir. destruct (parts p); [discriminate|]. intros H E. rewrite E in H. discriminate. Qed.

(** [mkdir(exist_ok=True)] *)
Lemma mkdir_noop (p : Path) (parents : bool) (st : state) :
  is_dir (fs st) p = true -> mkdir h p parents true st = (inr tt, st).
Proof. intros H. unfold mkdir. rewrite H. reflexivity. Qed.

Lemma mkdir_ok (p : Path) (parents : bool) (st st' : state) v :
  mkdir h p parents true st = (inr v, st') ->
  frame (Mkdir p parents true) (fs st) (fs st') /\ is_dir (fs st') p = true
  /\ st' = with_fs st (fs st').
Proof.
  unfold mkdir. destruct (is_dir (fs st) p) eqn:Hd.
  - intros [= _ <-]. rewrite with_fs_id. auto using frame_refl.
  - destruct (fs st !! p) as [n|] eqn:E; [discriminate|].
    destruct parents.
    + destruct (makedirs (anchor p) [] (parts p) (fs st)) as [m'|] eqn:Hm; [|discriminate].
      intros [= _ <-]. simpl. destruct (makedirs_spec _ _ _ _ _ Hm) as [Hk Hp].
      split; [apply frame_keep, Hk|]. split; [|reflexivity].
      pose proof (is_dir_parts _ _ Hd) as Hne. specialize (Hp Hne).
      simpl in Hp. rewrite path_eta in Hp. unfold is_dir. rewrite Hp.
      destruct (parts p); reflexivity.
    + destruct (is_dir (fs st) (parent p)); [|discriminate].
      intros [= _ <-]. simpl. split; [apply frame_new, E|]. split; [|reflexivity].
      unfold is_dir. rewrite lookup_insert_eq. destruct (parts p); reflexivity.
Qed.

(** [touch] and [open(.., 'w')] *)
Lemma creat_ok (p : Path) (truncate : bool) (st st' : state) v :
  creat h p truncate st = (inr v, st') ->
  frame (if truncate then Open_w p else Touch p) (fs st) (fs st')
  /\ st' = with_fs st (fs st')
  /\ (is_dir (fs st) p = true /\ truncate = false /\ st' = st
      \/ is_dir (fs st) p = false /\ is_dir (fs st) (parent p) = true
         /\ exists c md, fs st' !! p = Some (File c md)
            /\ (truncate = true -> c = "")
            /\ (forall c0 md0, fs st !! p = Some (File c0 md0) ->
                  md = md0 /\ (truncate = false -> st' = st))).
Proof.
  unfold creat. destruct (is_dir (fs st) p) eqn:Hd.
  - destruct truncate; [discriminate|]. intros [= _ <-].
    rewrite with_fs_id. split; [apply frame_refl|]. auto.
  - destruct (is_dir (fs st) (parent p)) eqn:Hpar; [|discriminate]. simpl.
    destruct (fs st !! p) as [[c md|]|] eqn:E.
    + intros [= _ <-]. destruct truncate; simpl.
      * split; [|split; [reflexivity|]].
        { split.
          - intros q Hq. rewrite lookup_insert_ne; [exact Hq|]. intros <-. congruence.
          - intros q c0 md0 Hq. destruct (decide (p = q)) as [<-|Hne].
            + rewrite lookup_insert_eq. exists "", md. rewrite E in Hq.
              injection Hq as <- <-. split; [reflexivity|]. split; [|reflexivity].
              intros Hc. simpl in Hc. congruence.
            + rewrite lookup_insert_ne by assumption. exists c0, md0. auto. }
        right. split; [reflexivity|]. split; [reflexivity|].
        exists "", md. rewrite lookup_insert_eq. split; [reflexivity|].
        split; [reflexivity|]. intros c0 md0 [= <- <-]. split; [reflexivity|discriminate].
      * rewrite with_fs_id. split; [apply frame_refl|]. split; [reflexivity|].
        right. split; [reflexivity|]. split; [reflexivity|].
        exists c, md. split; [exact E|]. split; [discriminate|].
        intros c0 md0 [= <- <-]. auto.
    + exfalso. exact (is_dir_lookup _ _ Hd E).
    + intros [= _ <-]. simpl. split; [|split; [reflexivity|]].
      { destruct truncate; apply frame_new, E. }
      right. split; [reflexivity|]. split; [reflexivity|].
      exists "", (new_file_mode st). rewrite lookup_insert_eq.
      split; [reflexivity|]. split; [reflexivity|]. intros c0 md0 [=].
Qed.

(** [f.write] *)
Lemma write_ok (p : Path) (content : string) (st st' : state) v :
  write h p content st = (inr v, st') ->
  exists c md, fs st !! p = Some (File c md)
    /\ st' = with_fs st (<[p := File content md]> (fs st)).
Proof.
  unfold write. destruct (fs st !! p) as [[c md|]|] eqn:E; try discriminate.
  intros [= _ <-]. eauto.
Qed.

Lemma frame_write (ev : event) (p : Path) (c c' : string) (md : Z) (m : gmap Path node) :
  content_target ev = Some p -> m !! p = Some (File c md) ->
  frame ev m (<[p := File c' md]> m).
Proof.
  intros Hev E. split.
  - intros q Hq. rewrite lookup_insert_ne; [exact Hq|]. intros <-. congruence.
  - intros q c0 md0 Hq. destruct (decide (p = q)) as [<-|Hne].
    + rewrite lookup_insert_eq. exists c', md. rewrite E in Hq. injection Hq as <- <-.
      split; [reflexivity|]. split; [congruence|reflexivity].
    + rewrite lookup_insert_ne by assumption. exists c0, md0. auto.
Qed.

(** [os.chmod] *)
Lemma chmod_ok (p : Path) (mode : Z) (st st' : state) v :
  chmod h p mode st = (inr v, st') ->
  frame (Chmod p mode) (fs st) (fs st') /\ st' = with_fs st (fs st')
  /\ ((exists c, fs st' !! p = Some (File c mode)) \/ fs st' !! p = Some Dir
      \/ parts p = []).
Proof.
  unfold chmod. destruct (fs st !! p) as [[c md|]|] eqn:E.
  - intros [= _ <-]. simpl. split; [|split; [reflexivity|]].
    + split.
      * intros q Hq. rewrite lookup_insert_ne; [exact Hq|]. intros <-. congruence.
      * intros q c0 md0 Hq. destruct (decide (p = q)) as [<-|Hne].
        { rewrite lookup_insert_eq. exists c, mode. rewrite E in Hq. injection Hq as <- <-.
          split; [reflexivity|]. split; [reflexivity|]. simpl. congruence. }
        rewrite lookup_insert_ne by assumption. exists c0, md0. auto.
    + left. exists c. apply lookup_insert_eq.
  - intros [= _ <-]. rewrite with_fs_id. split; [apply frame_refl|].
    split; [reflexivity|]. auto.
  - destruct (is_dir (fs st) p) eqn:Hd; [|discriminate].
    intros [= _ <-]. rewrite with_fs_id. split; [apply frame_refl|].
    split; [reflexivity|]. right. right.
    unfold is_dir in Hd. rewrite E in Hd. destruct (parts p); [reflexivity|discriminate].
Qed.

(** Every effect that succeeds leaves the directories and the other
    files as they are. *)
Lemma handle_frame (ev : event) (st st' : state) v :
  handle h ev st = (inr v, st') -> frame ev (fs st) (fs st') /\ st' = with_fs st (fs st').
Proof.
  destruct ev as [p par ok|p|p|p c|p md|p wp|c cwd]; simpl.
  - unfold mkdir. destruct (is_dir (fs st) p) eqn:Hd.
    + destruct ok; [|discriminate]. intros [= _ <-]. rewrite with_fs_id.
      auto using frame_refl.
    + destruct (fs st !! p) as [n|] eqn:E; [discriminate|]. destruct par.
      * destruct (makedirs (anchor p) [] (parts p) (fs st)) as [m'|] eqn:Hm; [|discriminate].
        intros [= _ <-]. simpl. destruct (makedirs_spec _ _ _ _ _ Hm) as [Hk _].
        split; [apply frame_keep, Hk|reflexivity].
      * destruct (is_dir (fs st) (parent p)); [|discriminate].
        intros [= _ <-]. simpl. split; [apply frame_new, E|reflexivity].
  - intros H. destruct (creat_ok _ _ _ _ _ H) as (Hf & Hst & _). auto.
  - intros H. destruct (creat_ok _ _ _ _ _ H) as (Hf & Hst & _). auto.
  - intros H. destruct (write_ok _ _ _ _ _ H) as (c0 & md & E & ->). simpl.
    split; [|reflexivity]. eapply frame_write; [reflexivity|exact E].
  - intros H. destruct (chmod_ok _ _ _ _ _ H) as (Hf & Hst & _). auto.
  - unfold venv_create.
    destruct (makedirs (anchor p) [] (parts p) (fs st)) as [m'|] eqn:Hm; [|discriminate].
    intros [= _ <-]. simpl. destruct (makedirs_spec _ _ _ _ _ Hm) as [Hk _].
    split; [apply frame_keep, Hk|reflexivity].
  - unfold shell. destruct cwd as [p|].
    + destruct (is_dir (fs st) p); [|discriminate]. intros [= _ <-].
      rewrite with_fs_id. auto using frame_refl.
    + intros [= _ <-]. rewrite with_fs_id. auto using frame_refl.
Qed.


Lemma keeps_trans ct mt (m m1 m2 : gmap Path node) :
  keeps ct mt m m1 -> keeps ct mt m1 m2 -> keeps ct mt m m2.
Proof.
  intros [Hd1 Hf1] [Hd2 Hf2]. split; [auto|].
  intros p c md Hp. destruct (Hf1 _ _ _ Hp) as (c1 & md1 & Hp1 & Hc1 & Hm1).
  destruct (Hf2 _ _ _ Hp1) as (c2 & md2 & Hp2 & Hc2 & Hm2).
  exists c2, md2. split; [exact Hp2|]. split; intros Hne.
  - rewrite (Hc2 Hne). auto.
  - rewrite (Hm2 Hne). auto.
Qed.

Lemma keeps_weaken ct mt ct' mt' (m m' : gmap Path node) :
  (ct = None \/ ct = ct') -> (mt = None \/ mt = mt') ->
  keeps ct mt m m' -> keeps ct' mt' m m'.
Proof.
  intros Hc Hm [Hd Hf]. split; [exact Hd|].
  intros p c md Hp. destruct (Hf _ _ _ Hp) as (c1 & md1 & Hp1 & Hc1 & Hm1).
  exists c1, md1. split; [exact Hp1|]. split; intros Hne.
  - apply Hc1. destruct Hc as [->| ->]; [discriminate|exact Hne].
  - apply Hm1. destruct Hm as [->| ->]; [discriminate|exact Hne].
Qed.


Lemma keeps_file ct mt (m m' : gmap Path node) (p : Path) (c : string) (md : Z) :
  keeps ct mt m m' -> is_dir m p = false -> m !! p = Some (File c md) ->
  is_dir m' p = false.
Proof.
  intros [_ Hf] Hd Hp. destruct (Hf _ _ _ Hp) as (c' & md' & E & _).
  exact (is_dir_false _ _ _ _ (is_dir_parts _ _ Hd) E).
Qed.

(** Something settled stays settled as long as nothing aims at it. *)
Lemma settled_kept (base : Path) (o : op) ct mt (m m' : gmap Path node) :
  settled m base o -> keeps ct mt m m' ->
  (ct = None \/ ct <> op_content base o) ->
  (mt = None \/ mt <> op_mode base o) ->
  settled m' base o.
Proof.
  intros Hs Hk Hc Hm. destruct o as [t|rel par|rel|rel c|rel md]; simpl in *.
  - exact I.
  - exact (keeps_is_dir _ _ _ _ _ Hk Hs).
  - destruct Hs as [Hs|(Hpar & c & md & E)].
    + left. exact (keeps_is_dir _ _ _ _ _ Hk Hs).
    + right. split; [exact (keeps_is_dir _ _ _ _ _ Hk Hpar)|].
      destruct (proj2 Hk _ _ _ E) as (c' & md' & E' & _). eauto.
  - destruct Hs as (Hd & Hpar & md & E).
    split; [exact (keeps_file _ _ _ _ _ _ _ Hk Hd E)|].
    split; [exact (keeps_is_dir _ _ _ _ _ Hk Hpar)|].
    destruct (proj2 Hk _ _ _ E) as (c' & md' & E' & Hc' & _).
    exists md'. rewrite E'. f_equal. f_equal. apply Hc'.
    destruct Hc as [->|Hc]; [discriminate|exact Hc].
  - destruct Hs as [(c & E)|Hs].
    + destruct (proj2 Hk _ _ _ E) as (c' & md' & E' & _ & Hm').
      left. exists c'. rewrite E'. f_equal. f_equal. apply Hm'.
      destruct Hm as [->|Hm]; [discriminate|exact Hm].
    + right. exact (proj1 Hk _ Hs).
Qed.

Lemma descend_parts (base : Path) (rel : list string) :
  rel <> [] -> parts (descend base rel) <> [].
Proof.
  intros Hr. rewrite descend_under. unfold under. simpl.
  intros H. apply app_eq_nil in H as [_ H]. contradiction.
Qed.

(** An operation that succeeds: its log, what it keeps, what it settles. *)
Lemma op_done (base : Path) (o : op) (st st' : state) l :
  (forall rel md, o = SetMode rel md -> rel <> []) ->
  run_script (handle h) (op_steps base o) Completes st = (Done, l, st') ->
  l = op_log base o /\ st' = with_fs st (fs st')
  /\ keeps (op_content base o) (op_mode base o) (fs st) (fs st')
  /\ settled (fs st') base o.
Proof.
  intros Hrel. destruct o as [t|rel par|rel|rel c|rel md]; simpl.
  - intros [= <- <-]. rewrite with_fs_id. split; [reflexivity|]. split; [reflexivity|].
    split; [apply (frame_refl (Touch base))|exact I].
  - destruct (mkdir h (descend base rel) par true st) as [[e|[]] st1] eqn:E; [discriminate|].
    intros [= <- <-]. destruct (mkdir_ok _ _ _ _ _ E) as (Hf & Hd & Hst). auto.
  - destruct (creat h (descend base rel) false st) as [[e|[]] st1] eqn:E; [discriminate|].
    intros [= <- <-]. destruct (creat_ok _ _ _ _ _ E) as (Hf & Hst & Hcase).
    split; [reflexivity|]. split; [exact Hst|]. split; [exact Hf|].
    destruct Hcase as [(Hd & _ & ->)|(Hd & Hpar & c & md & E' & _)]; [left; exact Hd|].
    right. split; [exact (keeps_is_dir _ _ _ _ _ Hf Hpar)|eauto].
  - destruct (mkdir h (parent (descend base rel)) true true st) as [[e|[]] st1] eqn:E1;
      [discriminate|].
    destruct (creat h (descend base rel) true st1) as [[e|[]] st2] eqn:E2; [discriminate|].
    destruct (write h (descend base rel) c st2) as [[e|[]] st3] eqn:E3; [discriminate|].
    intros [= <- <-].
    destruct (mkdir_ok _ _ _ _ _ E1) as (Hf1 & Hd1 & Hst1).
    destruct (creat_ok _ _ _ _ _ E2) as (Hf2 & Hst2 & Hcase).
    destruct (write_ok _ _ _ _ _ E3) as (c2 & md2 & Hp2 & Hst3).
    destruct Hcase as [(_ & [=] & _)|(Hd2 & Hpar2 & c' & md' & E' & _)].
    assert (frame (Write_close (descend base rel) c) (fs st2) (fs st3)) as Hf3.
    { rewrite Hst3. simpl. eapply frame_write; [reflexivity|exact Hp2]. }
    split; [reflexivity|]. split.
    { rewrite Hst3, Hst2, Hst1. reflexivity. }
    split.
    { eapply keeps_trans; [|eapply keeps_trans; [exact Hf2|exact Hf3]].
      eapply keeps_weaken; [| |exact Hf1]; auto. }
    assert (parts (descend base rel) <> []) as Hne by exact (is_dir_parts _ _ Hd2).
    assert (fs st3 !! descend base rel = Some (File c md2)) as E3'.
    { rewrite Hst3. simpl. apply lookup_insert_eq. }
    split; [exact (is_dir_false _ _ _ _ Hne E3')|].
    split; [|eauto].
    exact (keeps_is_dir _ _ _ _ _ Hf3 (keeps_is_dir _ _ _ _ _ Hf2 Hpar2)).
  - destruct (chmod h (descend base rel) md st) as [[e|[]] st1] eqn:E; [discriminate|].
    intros [= <- <-]. destruct (chmod_ok _ _ _ _ _ E) as (Hf & Hst & Hcase).
    split; [reflexivity|]. split; [exact Hst|]. split; [exact Hf|].
    destruct Hcase as [Hc|[Hc|Hc]]; [left; exact Hc|right; exact Hc|].
    exfalso. exact (descend_parts base rel (Hrel _ _ eq_refl) Hc).
Qed.

(** Doing again what is settled changes nothing. *)
Lemma op_noop (base : Path) (o : op) (st : state) :
  settled (fs st) base o ->
  run_script (handle h) (op_steps base o) Completes st = (Done, op_log base o, st).
Proof.
  destruct o as [t|rel par|rel|rel c|rel md]; simpl.
  - reflexivity.
  - intros Hd. rewrite (mkdir_noop _ _ _ Hd). reflexivity.
  - intros [Hd|(Hpar & c & md & E)]; unfold creat.
    + rewrite Hd. reflexivity.
    + destruct (is_dir (fs st) (descend base rel)); [reflexivity|].
      rewrite Hpar, E. simpl. reflexivity.
  - intros (Hd & Hpar & md & E). rewrite (mkdir_noop _ _ _ Hpar).
    unfold creat. rewrite Hd, Hpar, E. simpl.
    unfold write. simpl. rewrite lookup_insert_eq. simpl.
    rewrite insert_insert_eq, (insert_id _ _ _ E). 
    destruct st; reflexivity.
  - intros [(c & E)|E]; unfold chmod; rewrite E.
    + rewrite (insert_id _ _ _ E), with_fs_id. reflexivity.
    + reflexivity.
Qed.

(** *** Plans *)

Lemma plan_ok_tail (o : op) (ops : list op) : plan_ok (o :: ops) -> plan_ok ops.
Proof.
  intros (Hf & Hm & Hr). unfold plan_ok.
  destruct o; simpl in *; auto;
    repeat match goal with
           | H : NoDup (_ :: _) |- _ => apply NoDup_cons in H as [_ H]
           | H : Forall _ (_ :: _) |- _ => apply Forall_cons in H as [_ H]
           end; auto.
Qed.

Lemma plan_ok_head (o : op) (ops : list op) :
  plan_ok (o :: ops) -> forall rel md, o = SetMode rel md -> rel <> [].
Proof.
  intros (_ & _ & Hr) rel md ->. simpl in Hr. apply Forall_cons in Hr as [Hr _]. exact Hr.
Qed.

(** In a plan that is in order, a later operation does not aim at the
    file of an earlier one. *)
Lemma plan_ok_apart (base : Path) (o : op) (ops : list op) :
  plan_ok (o :: ops) ->
  Forall (fun o' =>
            (op_content base o' = None \/ op_content base o' <> op_content base o)
            /\ (op_mode base o' = None \/ op_mode base o' <> op_mode base o)) ops.
Proof.
  intros (Hf & Hm & _). apply Forall_forall. intros o' Hin. split.
  - destruct o' as [t|rel' par|rel'|rel' c'|rel' md']; simpl; auto. right.
    destruct o as [t|rel par|rel|rel c|rel md]; simpl; try discriminate.
    intros [= Heq]. apply descend_inj in Heq. subst rel'.
    simpl in Hf. apply NoDup_cons in Hf as [Hf _]. apply Hf.
    apply list_elem_of_fmap. exists (rel, c'). split; [reflexivity|].
    unfold plan_files. apply list_elem_of_omap. exists (WriteFile rel c'). auto.
  - destruct o' as [t|rel' par|rel'|rel' c'|rel' md']; simpl; auto. right.
    destruct o as [t|rel par|rel|rel c|rel md]; simpl; try discriminate.
    intros [= Heq]. apply descend_inj in Heq. subst rel'.
    simpl in Hm. apply NoDup_cons in Hm as [Hm _]. apply Hm.
    apply list_elem_of_fmap. exists (rel, md'). split; [reflexivity|].
    unfold plan_modes. apply list_elem_of_omap. exists (SetMode rel md'). auto.
Qed.

Lemma plan_run_cons (base : Path) (o : op) (ops : list op) (st st1 : state) l :
  run_script (handle h) (flat_map (op_steps base) (o :: ops)) Completes st = (Done, l, st1) ->
  exists la sa lb,
    run_script (handle h) (op_steps base o) Completes st = (Done, la, sa)
    /\ run_script (handle h) (flat_map (op_steps base) ops) Completes sa = (Done, lb, st1)
    /\ l = la ++ lb.
Proof.
  simpl. rewrite run_script_app.
  destruct (run_script (handle h) (op_steps base o) Completes st) as [[[|e|c] la] sa];
    try discriminate.
  destruct (run_script (handle h) (flat_map (op_steps base) ops) Completes sa)
    as [[sb lb] sc] eqn:Eb.
  intros [= -> <- <-]. exists la, sa, lb. auto.
Qed.

(** What is settled before a plan runs is settled after it, when the plan
    does not aim at it. *)
Lemma plan_preserves (base : Path) (o : op) (ops : list op) :
  forall (st st1 : state) l,
    (forall rel md, SetMode rel md ∈ ops -> rel <> []) ->
    Forall (fun o' =>
              (op_content base o' = None \/ op_content base o' <> op_content base o)
              /\ (op_mode base o' = None \/ op_mode base o' <> op_mode base o)) ops ->
    settled (fs st) base o ->
    run_script (handle h) (flat_map (op_steps base) ops) Completes st = (Done, l, st1) ->
    settled (fs st1) base o.
Proof.
  induction ops as [|o' ops IH]; intros st st1 l Hrel Hap Hs Hrun.
  - simpl in Hrun. injection Hrun as _ <-. exact Hs.
  - apply Forall_cons in Hap as [[Hc Hm] Hap].
    destruct (plan_run_cons _ _ _ _ _ _ Hrun) as (la & sa & lb & Ha & Hb & _).
    destruct (op_done base o' st sa la) as (_ & _ & Hk & _); [|exact Ha|].
    { intros rel md ->. apply (Hrel rel md). left. }
    apply (IH sa st1 lb); [|exact Hap| |exact Hb].
    { intros rel md Hin. apply (Hrel rel md). right. exact Hin. }
    exact (settled_kept _ _ _ _ _ _ Hs Hk Hc Hm).
Qed.

Lemma plan_modes_rel (ops : list op) (rel : list string) (md : Z) :
  Forall (fun rm => rm.1 <> []) (plan_modes ops) -> SetMode rel md ∈ ops -> rel <> [].
Proof.
  intros Hr Hin. rewrite Forall_forall in Hr. apply (Hr (rel, md)).
  unfold plan_modes. apply list_elem_of_omap. exists (SetMode rel md). auto.
Qed.

(** A plan in order that runs to its end leaves each of its operations
    settled, and its log is the log of its operations. *)
Lemma plan_settles (base : Path) (ops : list op) :
  forall (st st1 : state) l,
    plan_ok ops ->
    run_script (handle h) (flat_map (op_steps base) ops) Completes st = (Done, l, st1) ->
    Forall (settled (fs st1) base) ops /\ l = flat_map (op_log base) ops.
Proof.
  induction ops as [|o ops IH]; intros st st1 l Hok Hrun.
  - simpl in Hrun. injection Hrun as <- _. auto.
  - destruct (plan_run_cons _ _ _ _ _ _ Hrun) as (la & sa & lb & Ha & Hb & ->).
    destruct (op_done base o st sa la (plan_ok_head _ _ Hok) Ha) as (-> & _ & _ & Hs).
    destruct (IH _ _ _ (plan_ok_tail _ _ Hok) Hb) as [Hall ->].
    split; [|reflexivity]. apply Forall_cons. split; [|exact Hall].
    eapply (plan_preserves base o ops sa st1);
      [|exact (plan_ok_apart base _ _ Hok)|exact Hs|exact Hb].
    intros rel md. apply plan_modes_rel. exact (proj2 (proj2 (plan_ok_tail _ _ Hok))).
Qed.

Lemma plan_noop (base : Path) (ops : list op) (st : state) :
  Forall (settled (fs st) base) ops ->
  run_script (handle h) (flat_map (op_steps base) ops) Completes st
  = (Done, flat_map (op_log base) ops, st).
Proof.
  induction ops as [|o ops IH]; intros Hall; [reflexivity|].
  apply Forall_cons in Hall as [Hs Hall]. simpl.
  rewrite run_script_app, (op_noop _ _ _ Hs), (IH Hall). reflexivity.
Qed.

(** Running a plan in order a second time, on what the first run left,
    succeeds with the same log and changes nothing. *)
Lemma plan_rerun (base : Path) (ops : list op) (st st1 : state) l :
  plan_ok ops ->
  run_script (handle h) (flat_map (op_steps base) ops) Completes st = (Done, l, st1) ->
  run_script (handle h) (flat_map (op_steps base) ops) Completes st1 = (Done, l, st1).
Proof.
  intros Hok Hrun. destruct (plan_settles _ _ _ _ _ Hok Hrun) as [Hall ->].
  apply plan_noop, Hall.
Qed.

End MemFSFacts.

(** ** Materialization as the run of a plan *)

Lemma run_script_ending {W} (hd : world W) (s : list step) (fin : ending) (w : W) :
  run_script hd s fin w
  = let '(st, l, w') := run_script hd s Completes w in
    (match st, fin with Done, Raises e => Failed e | other, _ => other end, l, w').
Proof.
  revert w. induction s as [|[t|ev|c cwd] s IH]; intros w; simpl.
  - destruct fin; reflexivity.
  - rewrite IH. destruct (run_script hd s Completes w) as [[[] l] w']; reflexivity.
  - destruct (hd ev w) as [[e'|v] w1]; [reflexivity|]. rewrite IH.
    destruct (run_script hd s Completes w1) as [[[] l] w']; reflexivity.
  - destruct (hd (Shell c cwd) w) as [[e'|cp] w1]; [destruct e'; reflexivity|].
    destruct (returncode cp =? 0)%Z; [|reflexivity]. rewrite IH.
    destruct (run_script hd s Completes w1) as [[[] l] w']; reflexivity.
Qed.

Lemma failures_app (l l' : list entry) : failures (l ++ l') = failures l ++ failures l'.
Proof. apply omap_app. Qed.

(** A script without [run_command] ends early only on an exception of
    the world. *)
Lemma run_script_no_failures {W} (hd : world W) (s : list step) (w : W) st l w' :
  no_commands s = true ->
  run_script hd s Completes w = (st, l, w') -> failures l = [] -> st = Done.
Proof.
  revert w st l w'. induction s as [|[t|ev|c cwd] s IH]; intros w st l w' Hs; simpl.
  - intros [= <- _ _] _. reflexivity.
  - destruct (run_script hd s Completes w) as [[st1 l1] w1] eqn:E.
    intros [= <- <- _] Hf. eauto.
  - destruct (hd ev w) as [[e|v] w1]; [intros [= _ <- _]; discriminate|].
    destruct (run_script hd s Completes w1) as [[st1 l1] w2] eqn:E.
    intros [= <- <- _] Hf. eauto.
  - discriminate.
Qed.

Lemma plan_no_commands (base : Path) (ops : list op) :
  no_commands (flat_map (op_steps base) ops) = true.
Proof.
  induction ops as [|o ops IH]; [reflexivity|].
  simpl. unfold no_commands in *. rewrite forallb_app, IH. destruct o; reflexivity.
Qed.

Lemma plan_is_ok (g : generator) (project_name : string) : plan_ok (plan g project_name).
Proof.
  split; [apply plan_files_unique|].
  destruct g; split; apply (bool_decide_unpack _); vm_compute; exact I.
Qed.

(** [materialize] in any world: the run of its plan, then its ending. *)
Lemma materialize_runs (g : generator) (project_name : string) {W} (hd : world W) (w : W) :
  exec hd (materialize g project_name) w
  = finish tt (run_script hd (flat_map (op_steps (PurePath project_name))
                                (plan g project_name)) (script_end g) w).
Proof.
  rewrite <- materialize_plan.
  destruct g; [apply refines_django_materialize|apply refines_fastapi_materialize].
Qed.

Lemma NoDup_fst_functional {X Y} (l : list (X * Y)) (x : X) (y1 y2 : Y) :
  NoDup (fst <$> l) -> (x, y1) ∈ l -> (x, y2) ∈ l -> y1 = y2.
Proof.
  induction l as [|[a b] l IH]; intros Hnd H1 H2; [inversion H1|].
  simpl in Hnd. apply NoDup_cons in Hnd as [Hna Hnd].
  apply elem_of_cons in H1 as [H1|H1]; apply elem_of_cons in H2 as [H2|H2]; simplify_eq.
  - reflexivity.
  - exfalso. apply Hna. apply list_elem_of_fmap. exists (a, y2). auto.
  - exfalso. apply Hna. apply list_elem_of_fmap. exists (a, y1). auto.
  - auto.
Qed.

(** The files a run of [main] writes are files of the plan. *)
Lemma main_writes (g : generator) (h : host) (prog_name project_name : string)
    {W} (hd : world W) (w : W) (p : Path) (c : string) :
  (p, c) ∈ writes_of (events (exec hd (main g h [prog_name; project_name]) w).1.2) ->
  exists rel, p = descend (PurePath project_name) rel
              /\ (rel, c) ∈ plan_files (plan g project_name).
Proof.
  intros Hin.
  apply (elem_of_prefix _ _ _
           (omap_prefix _ _ _ (main_events_prefix g h prog_name project_name hd w))) in Hin.
  change ((p, c) ∈ writes_of (step_events (script g h project_name))) in Hin.
  destruct (script_file_events g h project_name) as (_ & _ & _ & Hw & _).
  cbv zeta in Hw. rewrite Hw, materialize_plan, plan_writes in Hin.
  apply list_elem_of_fmap in Hin as ([rel c'] & [= -> ->] & Hin). eauto.
Qed.

Lemma named_plan_files (g : generator) (project_name : string) (rel : list string)
    (c : string) :
  (rel, c) ∈ plan_files (named_plan g project_name) -> rel = ["README.md"].
Proof.
  destruct g; simpl; [|intros H; inversion H].
  intros H. apply list_elem_of_singleton in H. congruence.
Qed.

(** C1.  Rendering is a function of the name.  Two runs of a generator
    with the same name, in any two worlds, write the same text to any
    file both of them write.  Two runs with different names write the
    same text to every file with the same path below the project
    directory, README.md apart (as the code stands the FastAPI generator
    stops before setup.py and README.md, so no file of its runs depends
    on the name).  And in the in-memory file system, a second
    materialization on what a first one left, when no call of the first
    failed, ends like the first with the same log and leaves every file
    and directory as it was. *)
Theorem rendering_is_deterministic (g : generator) :
  (forall h1 h2 prog1 prog2 project_name W1 W2 (hd1 : world W1) (hd2 : world W2)
          w1 w2 p c1 c2,
     (p, c1) ∈ writes_of (events (exec hd1 (main g h1 [prog1; project_name]) w1).1.2) ->
     (p, c2) ∈ writes_of (events (exec hd2 (main g h2 [prog2; project_name]) w2).1.2) ->
     c1 = c2)
  /\ (forall h1 h2 prog1 prog2 name1 name2 W1 W2 (hd1 : world W1) (hd2 : world W2)
             w1 w2 rel c1 c2,
        rel <> ["README.md"] ->
        (under (PurePath name1) rel, c1)
          ∈ writes_of (events (exec hd1 (main g h1 [prog1; name1]) w1).1.2) ->
        (under (PurePath name2) rel, c2)
          ∈ writes_of (events (exec hd2 (main g h2 [prog2; name2]) w2).1.2) ->
        c1 = c2)
  /\ (forall h project_name st o l st1,
        exec (MemFS.handle h) (materialize g project_name) st = (o, l, st1) ->
        failures l = [] ->
        exec (MemFS.handle h) (materialize g project_name) st1 = (o, l, st1)).
Proof.
  split; [|split].
  - intros h1 h2 prog1 prog2 project_name W1 W2 hd1 hd2 w1 w2 p c1 c2 H1 H2.
    apply main_writes in H1 as (r1 & -> & H1). apply main_writes in H2 as (r2 & Heq & H2).
    apply descend_inj in Heq. subst r2.
    exact (NoDup_fst_functional _ _ _ _ (plan_files_unique g project_name) H1 H2).
  - intros h1 h2 prog1 prog2 name1 name2 W1 W2 hd1 hd2 w1 w2 rel c1 c2 Hrel H1 H2.
    apply main_writes in H1 as (r1 & Heq1 & H1). apply main_writes in H2 as (r2 & Heq2 & H2).
    rewrite <- descend_under in Heq1, Heq2.
    apply descend_inj in Heq1, Heq2. subst r1 r2.
    unfold plan, plan_files in H1, H2. rewrite omap_app in H1, H2.
    apply elem_of_app in H1 as [H1|H1]; [|apply named_plan_files in H1; contradiction].
    apply elem_of_app in H2 as [H2|H2]; [|apply named_plan_files in H2; contradiction].
    refine (NoDup_fst_functional _ _ _ _ _ H1 H2).
    pose proof (plan_files_unique g name1) as Hnd.
    unfold plan, plan_files in Hnd. rewrite omap_app, fmap_app in Hnd.
    apply NoDup_app in Hnd as [Hnd _]. exact Hnd.
  - intros h project_name st o l st1 Hrun Hf.
    rewrite materialize_runs, run_script_ending in Hrun.
    rewrite materialize_runs, run_script_ending.
    destruct (run_script (MemFS.handle h)
                (flat_map (op_steps (PurePath project_name)) (plan g project_name))
                Completes st) as [[st0 l0] st2] eqn:E.
    assert (l0 = l /\ st2 = st1) as [-> ->] by (simpl in Hrun; split; congruence).
    pose proof (run_script_no_failures _ _ _ _ _ _ (plan_no_commands _ _) E Hf) as ->.
    rewrite (plan_rerun h _ _ _ _ _ (plan_is_ok g project_name) E). exact Hrun.
Qed.

Lemma rendering_is_deterministic_witness :
  let r := exec (MemFS.handle linux) (materialize Django "demo") MemFS.fresh in
  exec (MemFS.handle linux) (materialize Django "demo") r.2 = r.
Proof.
  intros r.
  assert (r = (r.1.1, r.1.2, r.2)) as Hr by (destruct r as [[o l] st]; reflexivity).
  rewrite Hr at 2.
  apply (proj2 (proj2 (rendering_is_deterministic Django)) linux "demo" MemFS.fresh).
  - exact Hr.
  - vm_compute. reflexivity.
Defined.

Lemma plan_settled_files (h : host) (g : generator) (project_name : string)
    (st st1 : MemFS.state) o l :
  exec (MemFS.handle h) (materialize g project_name) st = (o, l, st1) ->
  failures l = [] ->
  Forall (settled (MemFS.fs st1) (PurePath project_name)) (plan g project_name).
Proof.
  intros Hrun Hf. rewrite materialize_runs, run_script_ending in Hrun.
  destruct (run_script (MemFS.handle h)
              (flat_map (op_steps (PurePath project_name)) (plan g project_name))
              Completes st) as [[st0 l0] st2] eqn:E.
  assert (l0 = l /\ st2 = st1) as [-> ->] by (simpl in Hrun; split; congruence).
  pose proof (run_script_no_failures _ _ _ _ _ _ (plan_no_commands _ _) E Hf) as ->.
  exact (proj1 (plan_settles h _ _ _ _ _ (plan_is_ok g project_name) E)).
Qed.

(** After a materialization in which no call failed, every file of the
    plan is a regular file that holds its text. *)
Lemma materialize_leaves_files (h : host) (g : generator) (project_name : string)
    (st st1 : MemFS.state) o l (rel : list string) (c : string) :
  exec (MemFS.handle h) (materialize g project_name) st = (o, l, st1) ->
  failures l = [] ->
  (rel, c) ∈ plan_files (plan g project_name) ->
  exists md, MemFS.fs st1 !! under (PurePath project_name) rel = Some (MemFS.File c md).
Proof.
  intros Hrun Hf Hin.
  pose proof (plan_settled_files h g project_name st st1 o l Hrun Hf) as Hall.
  rewrite Forall_forall in Hall.
  unfold plan_files in Hin. apply list_elem_of_omap in Hin as (op0 & Hop & Heq).
  specialize (Hall _ Hop). destruct op0; try discriminate. injection Heq as -> ->.
  simpl in Hall. destruct Hall as (_ & _ & md & E). rewrite descend_under in E. eauto.
Qed.

Lemma run_script_done_clean {W} (hd : world W) (s : list step) fin (w w' : W) l :
  run_script hd s fin w = (Done, l, w') -> failures l = [].
Proof.
  revert w l. induction s as [|[t|ev|c cwd] s IH]; intros w l; simpl.
  - intros [= _ <- _]. reflexivity.
  - destruct (run_script hd s fin w) as [[st1 l1] w1] eqn:E.
    intros [= -> <- ->]. simpl. eauto.
  - destruct (hd ev w) as [[e|v] w1]; [discriminate|].
    destruct (run_script hd s fin w1) as [[st1 l1] w2] eqn:E.
    intros [= -> <- ->]. simpl. eauto.
  - destruct (hd (Shell c cwd) w) as [[e|cp] w1]; [destruct e; discriminate|].
    destruct (returncode cp =? 0)%Z; [|discriminate].
    destruct (run_script hd s fin w1) as [[st1 l1] w2] eqn:E.
    intros [= -> <- ->]. simpl. eauto.
Qed.

Lemma django_returns (h : host) (project_name : string) {W} (hd : world W) (w w' : W) l :
  exec hd (materialize Django project_name) w = (Returned tt, l, w') -> failures l = [].
Proof.
  rewrite materialize_runs. simpl script_end.
  destruct (run_script hd _ Completes w) as [[st l0] w0] eqn:E.
  destruct st; try discriminate. intros [= <- _].
  exact (run_script_done_clean hd _ _ _ _ _ E).
Qed.

Lemma plan_modes_of (g : generator) (project_name : string) :
  plan_modes (plan g project_name)
  = match g with Django => [(["manage.py"], octal 7 5 5)] | FastAPI => [] end.
Proof. destruct g; reflexivity. Qed.

(** C6, as the code has it.  In the in-memory file system, after a
    materialization of the Django generator that runs to its end,
    manage.py is a regular file that holds the text of [MANAGE_TEMPLATE]
    with mode rwxr-xr-x.  In any world, the only [chmod] of a run of the
    Django [main] is that of manage.py to 0o755, and a run of the FastAPI
    [main] performs no [chmod]: main.py keeps the mode it is created
    with. *)
Theorem entry_point_mode :
  (forall h project_name st l st1,
     exec (MemFS.handle h) (materialize Django project_name) st = (Returned tt, l, st1) ->
     MemFS.fs st1 !! (PurePath project_name / "manage.py")%path
     = Some (MemFS.File django_templates.MANAGE_TEMPLATE (octal 7 5 5)))
  /\ (forall g h prog_name project_name W (hd : world W) w,
        chmods (events (exec hd (main g h [prog_name; project_name]) w).1.2)
        `prefix_of` match g with
                    | Django => [((PurePath project_name / "manage.py")%path, octal 7 5 5)]
                    | FastAPI => []
                    end).
Proof.
  split.
  - intros h project_name st l st1 Hrun.
    pose proof (plan_settled_files h Django project_name st st1 _ l Hrun
                  (django_returns h _ _ _ _ _ Hrun)) as Hall.
    rewrite Forall_forall in Hall.
    assert (WriteFile ["manage.py"] django_templates.MANAGE_TEMPLATE
              ∈ plan Django project_name) as Hw.
    { unfold plan, fixed_plan, django_fixed_plan. apply elem_of_app. left.
      apply elem_of_app. left. do 6 apply list_elem_of_further. apply list_elem_of_here. }
    assert (SetMode ["manage.py"] (octal 7 5 5) ∈ plan Django project_name) as Hm.
    { unfold plan, fixed_plan, django_fixed_plan. apply elem_of_app. left.
      apply elem_of_app. left. do 7 apply list_elem_of_further. apply list_elem_of_here. }
    destruct (Hall _ Hw) as (_ & _ & md & E). destruct (Hall _ Hm) as [(c & E')|E'];
      simpl in E, E'; rewrite E in E'; [|discriminate].
    injection E' as _ ->. exact E.
  - intros g h prog_name project_name W hd w.
    pose proof (omap_prefix (fun ev => match ev with Chmod p m => Some (p, m) | _ => None end)
                  _ _ (main_events_prefix g h prog_name project_name hd w)) as Hp.
    change (chmods (events (exec hd (main g h [prog_name; project_name]) w).1.2)
              `prefix_of` chmods (step_events (script g h project_name))) in Hp.
    destruct (script_file_events g h project_name) as (_ & _ & _ & _ & Hc).
    cbv zeta in Hc. rewrite Hc, materialize_plan, plan_chmods, plan_modes_of in Hp.
    destruct g; exact Hp.
Qed.

Lemma entry_point_mode_witness :
  MemFS.fs (exec (MemFS.handle linux) (materialize Django "demo") MemFS.fresh).2
    !! (PurePath "demo" / "manage.py")%path
  = Some (MemFS.File django_templates.MANAGE_TEMPLATE (octal 7 5 5)).
Proof.
  set (r := exec (MemFS.handle linux) (materialize Django "demo") MemFS.fresh).
  assert (r.1.1 = Returned tt) as Ho by (vm_compute; reflexivity).
  assert (r = (Returned tt, r.1.2, r.2)) as Hr.
  { clearbody r. destruct r as [[o l] st]. simpl in Ho. rewrite Ho. reflexivity. }
  exact (proj1 entry_point_mode linux "demo" MemFS.fresh r.1.2 r.2 Hr).
Defined.

(** C6 fails for the FastAPI generator: after its materialization in a
    fresh directory, main.py has the mode of a new file, rw-r--r--, and is
    not executable. *)
Lemma fastapi_entry_point_not_executable :
  let st := (exec (MemFS.handle linux) (materialize FastAPI "demo") MemFS.fresh).2 in
  MemFS.fs st !! (PurePath "demo" / "main.py")%path
  = Some (MemFS.File fastApi_templates.MAIN_APP_TEMPLATE (octal 6 4 4))
  /\ ~ entry_point_executable FastAPI "demo" st.
Proof.
  cbv zeta.
  set (r := exec (MemFS.handle linux) (materialize FastAPI "demo") MemFS.fresh).
  assert (MemFS.fs r.2 !! (PurePath "demo" / "main.py")%path
          = Some (MemFS.File fastApi_templates.MAIN_APP_TEMPLATE (octal 6 4 4))) as E.
  { vm_cast_no_check (@eq_refl _ (Some (MemFS.File fastApi_templates.MAIN_APP_TEMPLATE
                                          (octal 6 4 4)))). }
  split; [exact E|]. intros [c Hc]. unfold entry_point in Hc. rewrite E in Hc.
  discriminate.
Qed.
Lemma django_readme_text (project_name : string) :
  django_script.readme project_name
  = readme_of django_templates.README_TEMPLATE project_name.
Proof. vm_compute. reflexivity. Qed.

Lemma fastapi_readme_text (project_name : string) :
  format fastApi_templates.README_TEMPLATE project_name
  = Formatted (readme_of fastApi_templates.README_TEMPLATE project_name).
Proof. vm_compute. reflexivity. Qed.

Lemma run_script_no_quit {W} (hd : world W) (s : list step) fin (w : W) (c : Z) :
  no_commands s = true -> (run_script hd s fin w).1.1 <> Quit c.
Proof.
  revert w. induction s as [|[t|ev|c0 cwd] s IH]; intros w Hs; simpl.
  - destruct fin; discriminate.
  - specialize (IH w Hs). destruct (run_script hd s fin w) as [[st l] w']. exact IH.
  - destruct (hd ev w) as [[e|v] w1]; [discriminate|].
    specialize (IH w1 Hs). destruct (run_script hd s fin w1) as [[st l] w']. exact IH.
  - discriminate.
Qed.

(** The FastAPI generator as it stands: [materialize] never returns, it
    ends with the exception of a call that failed or, when none failed,
    with the [KeyError] of the formatting of [SETUP_TEMPLATE]. *)
Lemma fastapi_materialize_fails (project_name : string) {W} (hd : world W) (w : W) o l w' :
  exec hd (materialize FastAPI project_name) w = (o, l, w') ->
  (exists e, o = Uncaught e)
  /\ (failures l = [] -> o = Uncaught fastapi_script.setup_error).
Proof.
  rewrite materialize_runs, run_script_ending. simpl script_end.
  pose proof (run_script_no_quit hd
                (flat_map (op_steps (PurePath project_name)) (plan FastAPI project_name))
                Completes w) as Hq.
  destruct (run_script hd _ Completes w) as [[st l0] w0] eqn:E.
  intros [= <- <- <-]. split.
  - destruct st as [|e|c]; simpl; eauto. exfalso. exact (Hq c (plan_no_commands _ _) eq_refl).
  - intros Hf. rewrite (run_script_no_failures _ _ _ _ _ _ (plan_no_commands _ _) E Hf).
    reflexivity.
Qed.

(** Every run of the FastAPI [main] with a name ends with status 1; when
    no call failed, the last line is the message of the [KeyError]. *)
Lemma fastapi_main_fails (h : host) (prog_name project_name : string)
    {W} (hd : world W) (w : W) o l w' :
  exec hd (main FastAPI h [prog_name; project_name]) w = (o, l, w') ->
  o = Exited 1
  /\ (failures l = [] ->
      last (printed l) = Some ("Error creating project: '" +:+ dq +:+ dq +:+ "'")).
Proof.
  rewrite main_runs, run_script_ending. simpl script_end.
  change (script FastAPI h project_name) with (materialize_script FastAPI project_name).
  rewrite materialize_plan.
  pose proof (run_script_no_quit hd
                (flat_map (op_steps (PurePath project_name)) (plan FastAPI project_name))
                Completes w) as Hq.
  destruct (run_script hd _ Completes w) as [[st l0] w0] eqn:E.
  destruct st as [|e|c]; simpl.
  - intros [= <- <- <-]. split; [reflexivity|]. intros _.
    rewrite app_comm_cons. unfold printed. rewrite omap_app. apply last_snoc.
  - intros [= <- <- <-]. split; [reflexivity|]. intros Hf. exfalso.
    simpl in Hf. unfold failures in Hf. rewrite omap_app in Hf.
    apply app_eq_nil in Hf as [Hf _].
    pose proof (run_script_no_failures _ _ _ _ _ _ (plan_no_commands _ _) E Hf). discriminate.
  - exfalso. exact (Hq c (plan_no_commands _ _) eq_refl).
Qed.

Lemma fastapi_writes_before_setup (h : host) (prog_name project_name : string)
    {W} (hd : world W) (w : W) (p : Path) (c : string) (rel : list string) :
  (p, c) ∈ writes_of (events (exec hd (main FastAPI h [prog_name; project_name]) w).1.2) ->
  rel ∈ after_setup -> p <> under (PurePath project_name) rel.
Proof.
  intros Hin Hrel Heq. apply main_writes in Hin as (rel' & -> & Hin).
  rewrite descend_under in Heq. apply under_inj in Heq. subst rel'.
  assert (Forall (fun r => r ∉ fst <$> plan_files (plan FastAPI project_name)) after_setup)
    as Hno by (apply (bool_decide_unpack _); vm_compute; exact I).
  rewrite Forall_forall in Hno. apply (Hno _ Hrel).
  apply list_elem_of_fmap. exists (rel, c). auto.
Qed.

Lemma required_in_plan (project_name : string) :
  Forall (fun rel => rel ∈ fst <$> plan_files (plan Django project_name))
    (required_files Django).
Proof. apply (bool_decide_unpack _). vm_compute. exact I. Qed.

(** C7.  The project [demo].  The Django generator, run in a fresh
    directory of the in-memory file system, returns, and afterwards each
    required file is a regular file below [demo]; the README it writes
    opens with the title line "# demo" and its diagram starts with the
    line "demo/".  The FastAPI generator does not do this: in every world
    its run ends with status 1, with the message of the [KeyError] when no
    call failed, and it never writes demo/setup.py, demo/.env,
    demo/.gitignore or demo/README.md. *)
Theorem demo_project :
  (let r := exec (MemFS.handle linux) (materialize Django "demo") MemFS.fresh in
   r.1.1 = Returned tt
   /\ (forall rel, rel ∈ required_files Django ->
         exists c md, MemFS.fs r.2 !! under (PurePath "demo") rel = Some (MemFS.File c md))
   /\ MemFS.fs r.2 !! under (PurePath "demo") ["README.md"]
      = Some (MemFS.File (readme_of django_templates.README_TEMPLATE "demo") (octal 6 4 4)))
  /\ (forall h prog_name W (hd : world W) w o l w',
        exec hd (main FastAPI h [prog_name; "demo"]) w = (o, l, w') ->
        o = Exited 1
        /\ (failures l = [] ->
            last (printed l) = Some ("Error creating project: '" +:+ dq +:+ dq +:+ "'"))
        /\ (forall p c rel, (p, c) ∈ writes_of (events l) -> rel ∈ after_setup ->
              p <> under (PurePath "demo") rel)).
Proof.
  split.
  - cbv zeta.
    set (r := exec (MemFS.handle linux) (materialize Django "demo") MemFS.fresh).
    assert (r.1.1 = Returned tt) as Ho by (vm_compute; reflexivity).
    assert (failures r.1.2 = []) as Hf by (vm_compute; reflexivity).
    assert (r = (r.1.1, r.1.2, r.2)) as Hr
      by (clearbody r; destruct r as [[o l] st]; reflexivity).
    split; [exact Ho|]. split.
    + intros rel Hrel.
      pose proof (required_in_plan "demo") as Hreq. rewrite Forall_forall in Hreq.
      specialize (Hreq _ Hrel). apply list_elem_of_fmap in Hreq as ([rel' c] & -> & Hin).
      destruct (materialize_leaves_files linux Django "demo" _ _ _ _ rel' c Hr Hf Hin)
        as [md E]. eauto.
    + assert (exists md, MemFS.fs r.2 !! under (PurePath "demo") ["README.md"]
                = Some (MemFS.File (readme_of django_templates.README_TEMPLATE "demo") md))
        as [md E].
      { rewrite <- django_readme_text.
        apply (materialize_leaves_files linux Django "demo" _ _ _ _ _ _ Hr Hf).
        unfold plan, plan_files. rewrite omap_app. apply elem_of_app. right.
        apply list_elem_of_here. }
      rewrite E. f_equal. f_equal.
      assert (match MemFS.fs r.2 !! under (PurePath "demo") ["README.md"] with
              | Some (MemFS.File _ md) => md
              | _ => 0%Z
              end = octal 6 4 4) as Hm by (vm_compute; reflexivity).
      rewrite E in Hm. exact Hm.
  - intros h prog_name W hd w o l w' Hrun.
    destruct (fastapi_main_fails h prog_name "demo" hd w o l w' Hrun) as [Ho Hl].
    split; [exact Ho|]. split; [exact Hl|].
    intros p c rel Hin Hrel.
    apply (fastapi_writes_before_setup h prog_name "demo" hd w p c rel); [|exact Hrel].
    rewrite Hrun. exact Hin.
Qed.

(** C10.  The empty name.  [Path("")] has no component, so every path of
    the plan is the relative path itself, in the current directory.  The
    Django generator, run in a fresh directory, returns and leaves every
    file of its plan there.  The FastAPI materialization does fail, with
    the empty name as with any other: it never returns, and when no call
    fails it ends with the [KeyError] of [SETUP_TEMPLATE], leaving
    setup.py, .env, .gitignore and README.md unwritten. *)
Theorem empty_name :
  (forall rel, under (PurePath "") rel = mkPath "" rel)
  /\ (let r := exec (MemFS.handle linux) (materialize Django "") MemFS.fresh in
      r.1.1 = Returned tt
      /\ (forall rel c, (rel, c) ∈ plan_files (plan Django "") ->
            exists md, MemFS.fs r.2 !! mkPath "" rel = Some (MemFS.File c md)))
  /\ (forall W (hd : world W) w o l w',
        exec hd (materialize FastAPI "") w = (o, l, w') ->
        (exists e, o = Uncaught e)
        /\ (failures l = [] -> o = Uncaught (KeyError (dq +:+ dq)))
        /\ (forall p c rel, (p, c) ∈ writes_of (events l) -> rel ∈ after_setup ->
              p <> mkPath "" rel)).
Proof.
  split; [reflexivity|]. split.
  - cbv zeta.
    set (r := exec (MemFS.handle linux) (materialize Django "") MemFS.fresh).
    assert (r.1.1 = Returned tt) as Ho by (vm_compute; reflexivity).
    assert (failures r.1.2 = []) as Hf by (vm_compute; reflexivity).
    assert (r = (r.1.1, r.1.2, r.2)) as Hr
      by (clearbody r; destruct r as [[o l] st]; reflexivity).
    split; [exact Ho|]. intros rel c Hin.
    exact (materialize_leaves_files linux Django "" _ _ _ _ rel c Hr Hf Hin).
  - intros W hd w o l w' Hrun.
    destruct (fastapi_materialize_fails "" hd w o l w' Hrun) as [Ho Hl].
    split; [exact Ho|]. split; [exact Hl|].
    intros p c rel Hin Hrel Heq.
    assert (l = (exec hd (materialize FastAPI "") w).1.2) as Hl' by (rewrite Hrun; reflexivity).
    rewrite Hl', materialize_runs in Hin.
    pose proof (run_script_prefix hd
                  (flat_map (op_steps (PurePath "")) (plan FastAPI ""))
                  (script_end FastAPI) w) as Hp.
    destruct (run_script hd _ (script_end FastAPI) w) as [[st l0] w0].
    simpl in Hin, Hp.
    apply (elem_of_prefix _ _ _ (omap_prefix _ _ _ Hp)) in Hin.
    change ((p, c) ∈ writes_of (step_events
              (flat_map (op_steps (PurePath "")) (plan FastAPI "")))) in Hin.
    rewrite plan_writes in Hin.
    apply list_elem_of_fmap in Hin as ([rel' c'] & [= -> ->] & Hin).
    rewrite descend_under in Heq. change (mkPath "" rel) with (under (PurePath "") rel) in Heq.
    apply under_inj in Heq. subst rel'.
    assert (Forall (fun r => r ∉ fst <$> plan_files (plan FastAPI "")) after_setup)
      as Hno by (apply (bool_decide_unpack _); vm_compute; exact I).
    rewrite Forall_forall in Hno. apply (Hno _ Hrel).
    apply list_elem_of_fmap. eexists. split; [|exact Hin]. reflexivity.
Qed.

(** ** More about the in-memory file system *)

Section MemFSRuns.
Context (h : host).
Import MemFS.

(** A call that fails leaves the file system as it was. *)
Lemma handle_fail (ev : event) (st st' : state) (e : exn) :
  handle h ev st = (inl e, st') -> st' = st.
Proof.
  destruct ev as [p par ok|p|p|p c|p md|p wp|c cwd]; simpl.
  - unfold mkdir. destruct (is_dir (fs st) p).
    + destruct ok; [discriminate|]. intros [= _ <-]. reflexivity.
    + destruct (fs st !! p); [intros [= _ <-]; reflexivity|]. destruct par.
      * destruct (makedirs _ _ _ _); [discriminate|]. intros [= _ <-]. reflexivity.
      * destruct (is_dir (fs st) (parent p)); [discriminate|]. intros [= _ <-]. reflexivity.
  - unfold creat. destruct (is_dir (fs st) p); [discriminate|].
    destruct (is_dir (fs st) (parent p)); simpl; [|intros [= _ <-]; reflexivity].
    destruct (fs st !! p) as [[]|]; discriminate.
  - unfold creat. destruct (is_dir (fs st) p); [intros [= _ <-]; reflexivity|].
    destruct (is_dir (fs st) (parent p)); simpl; [|intros [= _ <-]; reflexivity].
    destruct (fs st !! p) as [[]|]; discriminate.
  - unfold write. destruct (fs st !! p) as [[]|]; try discriminate;
      intros [= _ <-]; reflexivity.
  - unfold chmod. destruct (fs st !! p) as [[]|]; try discriminate.
    destruct (is_dir (fs st) p); [discriminate|]. intros [= _ <-]. reflexivity.
  - unfold venv_create. destruct (makedirs _ _ _ _); [discriminate|].
    intros [= _ <-]. reflexivity.
  - unfold shell. destruct cwd as [p|]; [|discriminate].
    destruct (is_dir (fs st) p); [discriminate|]. intros [= _ <-]. reflexivity.
Qed.

Lemma keeps_refl ct mt (m : gmap Path node) : keeps ct mt m m.
Proof. split; [auto|]. intros p c md Hp. exists c, md. auto. Qed.

(** What the run of a script keeps, whatever its end: directories stay
    directories, files stay files, and a file that no effect of the
    script aims at keeps its text and its mode. *)
Lemma run_keeps (s : list step) fin (st st' : state) status l :
  run_script (handle h) s fin st = (status, l, st') ->
  (forall p, fs st !! p = Some Dir -> fs st' !! p = Some Dir)
  /\ (forall p c md, fs st !! p = Some (File c md) ->
        exists c' md', fs st' !! p = Some (File c' md')
          /\ (p ∉ content_targets (step_events s) -> c' = c)
          /\ (p ∉ mode_targets (step_events s) -> md' = md)).
Proof.
  revert st status l. induction s as [|[t|ev|c cwd] s IH]; intros st status l; simpl.
  - intros [= _ _ <-]. split; [auto|]. intros p c md Hp. exists c, md. auto.
  - destruct (run_script (handle h) s fin st) as [[st1 l1] w1] eqn:E.
    intros [= _ _ <-]. exact (IH _ _ _ E).
  - destruct (handle h ev st) as [[e|v] st1] eqn:Hev.
    + intros [= _ _ <-]. rewrite (handle_fail _ _ _ _ Hev).
      split; [auto|]. intros p c md Hp. exists c, md. auto.
    + destruct (run_script (handle h) s fin st1) as [[st2 l1] w1] eqn:E.
      intros [= _ _ <-].
      destruct (handle_frame h _ _ _ _ Hev) as [[Hd Hf] _].
      destruct (IH _ _ _ E) as [Hd' Hf'].
      split; [auto|]. intros p c0 md Hp.
      destruct (Hf _ _ _ Hp) as (c1 & md1 & Hp1 & Hc1 & Hm1).
      destruct (Hf' _ _ _ Hp1) as (c2 & md2 & Hp2 & Hc2 & Hm2).
      exists c2, md2. split; [exact Hp2|].
      unfold content_targets, mode_targets. simpl. split; intros Hno.
      * rewrite Hc2, Hc1; [reflexivity| |].
        -- intros Heq. apply Hno. rewrite Heq. apply list_elem_of_here.
        -- intros Hin. apply Hno. destruct (content_target ev); [right|]; exact Hin.
      * rewrite Hm2, Hm1; [reflexivity| |].
        -- intros Heq. apply Hno. rewrite Heq. apply list_elem_of_here.
        -- intros Hin. apply Hno. destruct (mode_target ev); [right|]; exact Hin.
  - change (shell h c cwd st) with (handle h (Shell c cwd) st).
    destruct (handle h (Shell c cwd) st) as [[e|cp] st1] eqn:Hev.
    + assert (st1 = st) as -> by exact (handle_fail _ _ _ _ Hev).
      intros Hrun. assert (st' = st) as -> by (destruct e; simplify_eq; reflexivity).
      split; [auto|]. intros p c0 md Hp. exists c0, md. auto.
    + destruct (handle_frame h _ _ _ _ Hev) as [[Hd Hf] _].
      assert (forall p c0 md, fs st !! p = Some (File c0 md) ->
                fs st1 !! p = Some (File c0 md)) as Hsame.
      { intros p c0 md Hp. destruct (Hf _ _ _ Hp) as (c1 & md1 & Hp1 & Hc1 & Hm1).
        rewrite Hp1, Hc1, Hm1; [reflexivity|discriminate..]. }
      destruct (returncode cp =? 0)%Z.
      * destruct (run_script (handle h) s fin st1) as [[st2 l1] w1] eqn:E.
        intros [= _ _ <-]. destruct (IH _ _ _ E) as [Hd' Hf'].
        split; [auto|]. intros p c0 md Hp. exact (Hf' _ _ _ (Hsame _ _ _ Hp)).
      * intros [= _ _ <-]. split; [auto|]. intros p c0 md Hp.
        exists c0, md. split; [exact (Hsame _ _ _ Hp)|auto].
Qed.

End MemFSRuns.

(** ** Beyond the claims: the helpers on the in-memory file system *)

(** X1.  [create_file_with_content] in the in-memory file system.  When
    the call returns, the parent of the file is a directory and the file
    holds exactly the text given, whatever it held before; a file that
    was there keeps its mode; every directory is still a directory and
    every other file has the text and the mode it had. *)
Theorem create_file_with_content_effect (h : host) (file_path : Path) (content : string)
    (st st' : MemFS.state) (l : list entry) :
  exec (MemFS.handle h) (create_file_with_content file_path content) st
  = (Returned tt, l, st') ->
  MemFS.is_dir (MemFS.fs st') (parent file_path) = true
  /\ (exists md, MemFS.fs st' !! file_path = Some (MemFS.File content md)
        /\ forall c0 md0, MemFS.fs st !! file_path = Some (MemFS.File c0 md0) -> md = md0)
  /\ (forall q, MemFS.fs st !! q = Some MemFS.Dir -> MemFS.fs st' !! q = Some MemFS.Dir)
  /\ (forall q c0 md0, q <> file_path ->
        MemFS.fs st !! q = Some (MemFS.File c0 md0) ->
        MemFS.fs st' !! q = Some (MemFS.File c0 md0)).
Proof.
  rewrite (refines_create_file file_path content _ (MemFS.handle h) st).
  destruct (run_script (MemFS.handle h) (file_steps file_path content) Completes st)
    as [[status l0] st0] eqn:Hrun.
  destruct status; simpl; try discriminate. intros [= <- <-].
  destruct (op_done h file_path (WriteFile [] content) st st0 l0) as (_ & _ & [Hd Hf] & Hs).
  { discriminate. }
  { exact Hrun. }
  simpl in Hs, Hd, Hf. destruct Hs as (_ & Hpar & md & E).
  split; [exact Hpar|]. split; [|split].
  - exists md. split; [exact E|]. intros c0 md0 E0.
    destruct (Hf _ _ _ E0) as (c' & md' & E' & _ & Hm).
    rewrite E in E'. injection E' as _ ->. apply Hm. discriminate.
  - exact Hd.
  - intros q c0 md0 Hq E0. destruct (Hf _ _ _ E0) as (c' & md' & E' & Hc & Hm).
    rewrite E', Hc, Hm; [reflexivity|discriminate|congruence].
Qed.

Lemma create_file_with_content_effect_witness :
  let st := MemFS.mkState (<[PurePath "a/b/c.txt" := MemFS.File "old" (octal 6 0 0)]>
                             (<[PurePath "a/b" := MemFS.Dir]> (<[PurePath "a" := MemFS.Dir]> ∅)))
              (octal 6 4 4) MemFS.succeed in
  let r := exec (MemFS.handle linux)
             (create_file_with_content (PurePath "a/b/c.txt") "new") st in
  r.1.1 = Returned tt
  /\ MemFS.fs r.2 !! PurePath "a/b/c.txt" = Some (MemFS.File "new" (octal 6 0 0)).
Proof.
  cbv zeta.
  set (st := MemFS.mkState _ _ _).
  set (r := exec _ _ _).
  assert (r.1.1 = Returned tt) as Ho by (vm_compute; reflexivity).
  split; [exact Ho|].
  assert (r = (Returned tt, r.1.2, r.2)) as Hr.
  { clearbody r. destruct r as [[o l] s]. simpl in Ho. rewrite Ho. reflexivity. }
  destruct (create_file_with_content_effect linux _ _ st r.2 r.1.2 Hr)
    as (_ & (md & E & Hmd) & _).
  rewrite E. rewrite (Hmd "old" (octal 6 0 0)); [reflexivity|].
  vm_compute. reflexivity.
Defined.

(** ** Beyond the claims: what a materialization leaves alone *)

Lemma content_targets_spec (evs : list event) (p : Path) :
  p ∈ content_targets evs -> p ∈ opened evs \/ p ∈ written evs.
Proof.
  unfold content_targets, opened, written. intros Hin.
  apply list_elem_of_omap in Hin as (ev & Hev & E).
  destruct ev; try discriminate; injection E as ->;
    [left|right]; apply list_elem_of_omap; eexists; (split; [exact Hev|reflexivity]).
Qed.

Lemma mode_targets_spec (evs : list event) (p : Path) :
  p ∈ mode_targets evs -> exists md, (p, md) ∈ chmods evs.
Proof.
  unfold mode_targets, chmods. intros Hin.
  apply list_elem_of_omap in Hin as (ev & Hev & E).
  destruct ev; try discriminate; injection E as ->.
  eexists. apply list_elem_of_omap. eexists. split; [exact Hev|reflexivity].
Qed.

Lemma plan_modes_written (g : generator) (project_name : string) (rel : list string) md :
  (rel, md) ∈ plan_modes (plan g project_name) ->
  rel ∈ fst <$> plan_files (plan g project_name).
Proof.
  rewrite plan_modes_of. destruct g; [|intros H; inversion H].
  intros H. apply list_elem_of_singleton in H. injection H as -> _.
  apply list_elem_of_fmap. exists (["manage.py"], django_templates.MANAGE_TEMPLATE).
  split; [reflexivity|].
  unfold plan, fixed_plan, django_fixed_plan, plan_files.
  rewrite !omap_app. apply elem_of_app. left. apply elem_of_app. left.
  simpl. do 5 apply list_elem_of_further. apply list_elem_of_here.
Qed.

Lemma materialize_frame (h : host) (g : generator) (project_name : string)
    (st st' : MemFS.state) o l :
  exec (MemFS.handle h) (materialize g project_name) st = (o, l, st') ->
  (forall q, MemFS.fs st !! q = Some MemFS.Dir -> MemFS.fs st' !! q = Some MemFS.Dir)
  /\ (forall q c md,
        MemFS.fs st !! q = Some (MemFS.File c md) ->
        q ∉ under (PurePath project_name) <$> (fst <$> plan_files (plan g project_name)) ->
        MemFS.fs st' !! q = Some (MemFS.File c md)).
Proof.
  rewrite materialize_runs.
  destruct (run_script (MemFS.handle h) _ (script_end g) st) as [[status l0] st0] eqn:Hrun.
  intros Hfin. assert (st0 = st') as -> by (destruct status; simpl in Hfin; congruence).
  destruct (run_keeps h _ _ _ _ _ _ Hrun) as [Hd Hf]. split; [exact Hd|].
  intros q c md E Hq. destruct (Hf _ _ _ E) as (c' & md' & E' & Hc & Hm).
  assert (forall L : list (list string), q ∈ descend (PurePath project_name) <$> L ->
                    q ∈ under (PurePath project_name) <$> L) as Hu.
  { intros L Hin. apply list_elem_of_fmap in Hin as (rel & -> & Hin).
    apply list_elem_of_fmap. exists rel. split; [apply descend_under|exact Hin]. }
  rewrite E', Hc, Hm; [reflexivity| |].
  - intros Hin. apply mode_targets_spec in Hin as [md0 Hin].
    rewrite plan_chmods in Hin. apply list_elem_of_fmap in Hin as ([rel m] & Heq & Hin).
    simpl in Heq. injection Heq as -> ->. apply Hq, Hu.
    apply list_elem_of_fmap. exists rel. split; [reflexivity|].
    exact (plan_modes_written _ _ _ _ Hin).
  - intros Hin. apply Hq, Hu. apply content_targets_spec in Hin as [Hin|Hin].
    + rewrite plan_opened in Hin. exact Hin.
    + rewrite plan_written in Hin. exact Hin.
Qed.
